(** * limits.py: how long can an f64 count seconds at 0.01 s resolution?

    A shallow embedding of [src/foundations/time/limits.py].  The script
    works on IEEE-754 binary64 numbers, which are modelled bit-exactly
    with the [spec_float] operations of the standard library (precision
    53, maximal exponent 1024, round to nearest, ties to even).  Python's
    own conventions (the implicit [int] to [float] coercion of mixed
    arithmetic, [int()] truncating toward zero, the exceptions of the
    conversions, the fixed-point format specifications) sit in a thin
    layer above the float operations. *)

From Stdlib Require Import ZArith Lia Bool List String Ascii DecimalString.
From Stdlib Require Import QArith Qabs Qround.
From Stdlib Require Import Floats.SpecFloat.
Import ListNotations.

Local Open Scope Z_scope.

(** ** IEEE-754 binary64 *)

Module Binary64.

Definition prec : Z := 53.
Definition emax : Z := 1024.

Definition f64 : Type := spec_float.

Definition add : f64 -> f64 -> f64 := SFadd prec emax.
Definition sub : f64 -> f64 -> f64 := SFsub prec emax.
Definition mul : f64 -> f64 -> f64 := SFmul prec emax.
Definition div : f64 -> f64 -> f64 := SFdiv prec emax.

Definition leb : f64 -> f64 -> bool := SFleb.
Definition ltb : f64 -> f64 -> bool := SFltb.

(** The integer [k] rounded to the nearest double, ties to even. *)
Definition of_Z (k : Z) : f64 := binary_normalize prec emax k 0 false.

(** The decimal literal [m / 10^k], rounded once.  The division of two
    doubles is correctly rounded, so this is the double nearest to the
    decimal number as long as [m] and [10^k] are doubles themselves. *)
Definition decimal (m : Z) (k : Z) : f64 := div (of_Z m) (of_Z (10 ^ k)).

Definition is_finite (x : f64) : bool :=
  match x with
  | S754_zero _ | S754_finite _ _ _ => true
  | S754_infinity _ | S754_nan => false
  end.

Definition is_zero (x : f64) : bool :=
  match x with
  | S754_zero _ => true
  | _ => false
  end.

Definition sign_bit (x : f64) : bool :=
  match x with
  | S754_zero s | S754_infinity s | S754_finite s _ _ => s
  | S754_nan => false
  end.

(** Nonnegative and finite: [+0.0] or a positive finite double. *)
Definition nonneg_finite (x : f64) : bool :=
  match x with
  | S754_zero false | S754_finite false _ _ => true
  | _ => false
  end.

(** A finite double of the format: canonical mantissa, exponent in range. *)
Definition valid (x : f64) : bool := valid_binary prec emax x.

(** The integer part of a finite double, rounded toward zero. *)
Definition trunc (x : f64) : Z :=
  match x with
  | S754_finite s m e =>
      cond_Zopp s (if 0 <=? e then Z.shiftl (Zpos m) e
                   else Z.shiftr (Zpos m) (- e))
  | _ => 0
  end.

(** The integer part of a finite double, rounded toward minus infinity. *)
Definition floor (x : f64) : Z :=
  match x with
  | S754_finite s m e =>
      if 0 <=? e then cond_Zopp s (Z.shiftl (Zpos m) e)
      else Z.shiftr (cond_Zopp s (Zpos m)) (- e)
  | _ => 0
  end.

(** The real number a finite double denotes, [(-1)^s * m * 2^e], as an
    exact fraction. *)
Definition to_Q (x : f64) : Q :=
  match x with
  | S754_finite s m e =>
      if 0 <=? e then inject_Z (cond_Zopp s (Zpos m * 2 ^ e))
      else Qmake (cond_Zopp s (Zpos m)) (2 ^ Z.to_pos (- e))
  | _ => 0%Q
  end.

(** The same number counted in units of [2^-1074], the smallest positive
    double: every finite double is a whole number of them. *)
Definition units (x : f64) : Z :=
  match x with
  | S754_finite s m e => cond_Zopp s (Zpos m * 2 ^ (e + 1074))
  | _ => 0
  end.

(** The exponent of a finite double; the least one for the other values. *)
Definition expo (x : f64) : Z :=
  match x with
  | S754_finite _ _ e => e
  | _ => -1074
  end.

(** A finite nonzero double of sign [s]. *)
Definition finite_with_sign (s : bool) (x : f64) : Prop :=
  match x with
  | S754_finite s' _ _ => s' = s
  | _ => False
  end.

End Binary64.

Import Binary64.

(** ** The Python layer *)

Module Py.

Inductive exn : Type :=
| OverflowError
| ValueError
| ZeroDivisionError.

Inductive result (A : Type) : Type :=
| Ok (a : A)
| Raise (e : exn).
Arguments Ok {A} a.
Arguments Raise {A} e.

Definition bind {A B : Type} (r : result A) (k : A -> result B) : result B :=
  match r with
  | Ok a => k a
  | Raise e => Raise e
  end.

(** [int(x)] for a float [x]: truncation toward zero; infinities and
    NaN raise. *)
Definition int_of_float (x : f64) : result Z :=
  match x with
  | S754_infinity _ => Raise OverflowError
  | S754_nan => Raise ValueError
  | _ => Ok (trunc x)
  end.

(** [float(k)] for an int [k], as done implicitly by mixed arithmetic:
    correctly rounded, and an error when [k] is out of range. *)
Definition float_of_int (k : Z) : result f64 :=
  let x := of_Z k in
  if is_finite x then Ok x else Raise OverflowError.

(** [x / y] on floats: a zero divisor raises. *)
Definition truediv (x y : f64) : result f64 :=
  if is_zero y then Raise ZeroDivisionError else Ok (div x y).

(** [k * y] and [x * k] with an int [k] and a float. *)
Definition int_mul_float (k : Z) (y : f64) : result f64 :=
  bind (float_of_int k) (fun x => Ok (mul x y)).

Definition float_mul_int (x : f64) (k : Z) : result f64 :=
  bind (float_of_int k) (fun y => Ok (mul x y)).

(** [sys.float_info.epsilon], the gap between 1.0 and the next double. *)
Definition float_info_epsilon : f64 := S754_finite false 4503599627370496 (-104).

(** *** Format specifications *)

Definition round_half_even (n d : Z) : Z :=
  let q := n / d in
  match (2 * (n mod d)) ?= d with
  | Lt => q
  | Gt => q + 1
  | Eq => if Z.even q then q else q + 1
  end.

(** The magnitude [m * 2^e] in units of [10^-digits], rounded once from
    the exact binary value. *)
Definition scaled (digits : Z) (m : positive) (e : Z) : Z :=
  if 0 <=? e then Zpos m * 2 ^ e * 10 ^ digits
  else round_half_even (Zpos m * 10 ^ digits) (2 ^ (- e)).

Definition str_of_Z (n : Z) : string := NilZero.string_of_int (Z.to_int n).

Fixpoint zero_pad (fuel width : nat) (s : string) : string :=
  match fuel with
  | O => s
  | S fuel' =>
      if (String.length s <? width)%nat
      then zero_pad fuel' width (String "0" s) else s
  end.

Definition fixed_of_scaled (digits : Z) (neg : bool) (n : Z) : string :=
  let whole := str_of_Z (n / 10 ^ digits) in
  let frac := zero_pad (Z.to_nat digits) (Z.to_nat digits)
                (str_of_Z (n mod 10 ^ digits)) in
  ((if neg then "-" else "") ++ whole ++ "." ++ frac)%string.

(** [f"{x:.<digits>f}"] *)
Definition format_f (digits : Z) (x : f64) : string :=
  match x with
  | S754_nan => "nan"
  | S754_infinity s => if s then "-inf" else "inf"
  | S754_zero s => fixed_of_scaled digits s 0
  | S754_finite s m e => fixed_of_scaled digits s (scaled digits m e)
  end.

(** [f"{k}"] for an int. *)
Definition format_d (k : Z) : string := str_of_Z k.

(** Thousands separators, [f"{k:,}"]: a comma before every group of
    three digits counted from the right. *)
Fixpoint group3 (l : list ascii) : list ascii :=
  match l with
  | a :: b :: c :: ((_ :: _) as rest) => a :: b :: c :: ","%char :: group3 rest
  | _ => l
  end.

Definition format_comma (k : Z) : string :=
  let digits := list_ascii_of_string (str_of_Z (Z.abs k)) in
  let grouped := string_of_list_ascii (rev (group3 (rev digits))) in
  if k <? 0 then String "-" grouped else grouped.

End Py.

Import Py.

Notation "x <- c1 ;; c2" := (Py.bind c1 (fun x => c2))
  (at level 61, c1 at next level, right associativity).

(** ** The script *)

Module Limits.

(** *** Precision-bound solver (lines 14 to 22) *)

Definition epsilon_0_01 : f64 := decimal 1 2.

(** [max_time_seconds = 0.01 * (2 ** 52)] *)
Definition max_time_seconds : result f64 :=
  float_mul_int epsilon_0_01 (2 ^ 52).

(** The value the script computes, [x_max] in the specification. *)
Definition x_max : f64 :=
  match max_time_seconds with
  | Ok x => x
  | Raise _ => S754_nan
  end.

(** [next_value = x + x * sys.float_info.epsilon] *)
Definition next_value (x : f64) : f64 := add x (mul x float_info_epsilon).

(** [spacing = next_value - x] *)
Definition spacing (x : f64) : f64 := sub (next_value x) x.

(** *** Duration formatter (lines 26 to 45) *)

Definition seconds_per_minute : f64 := decimal 600 1.
Definition seconds_per_hour : f64 := mul (decimal 600 1) seconds_per_minute.
Definition seconds_per_day : f64 := mul (decimal 240 1) seconds_per_hour.
Definition seconds_per_year : f64 := mul (decimal 36525 2) seconds_per_day.

Record DurationBreakdown : Type := {
  years : Z;
  days : Z;
  hours : Z;
  minutes : Z;
  seconds : f64
}.

(** One unit of the conversion:
    [count = int(remaining / per_unit); remaining -= count * per_unit]. *)
Definition take_unit (remaining per_unit : f64) : result (Z * f64) :=
  q <- truediv remaining per_unit ;;
  count <- int_of_float q ;;
  t <- int_mul_float count per_unit ;;
  Ok (count, sub remaining t).

(** The four conversions in the order of the script; each one works on
    the [remaining] left by the one before. *)
Definition convert (remaining : f64)
  : result ((Z * f64) * (Z * f64) * (Z * f64) * (Z * f64)) :=
  yr <- take_unit remaining seconds_per_year ;;
  dr <- take_unit (snd yr) seconds_per_day ;;
  hr <- take_unit (snd dr) seconds_per_hour ;;
  mr <- take_unit (snd hr) seconds_per_minute ;;
  Ok (yr, dr, hr, mr).

Definition breakdown (remaining : f64) : result DurationBreakdown :=
  s <- convert remaining ;;
  let '(yr, dr, hr, mr) := s in
  Ok {| years := fst yr; days := fst dr; hours := fst hr;
        minutes := fst mr; seconds := snd mr |}.

(** The running value of [remaining] after each of the four
    subtractions. *)
Definition remainders (remaining : f64) : result (list f64) :=
  s <- convert remaining ;;
  let '(yr, dr, hr, mr) := s in
  Ok [snd yr; snd dr; snd hr; snd mr].

(** *** Output *)

Definition formatted_result (b : DurationBreakdown) : string :=
  (format_d (years b) ++ " years, " ++ format_d (days b) ++ " days, "
     ++ format_d (hours b) ++ " hours, " ++ format_d (minutes b)
     ++ " minutes, " ++ format_f 2 (seconds b) ++ " seconds")%string.

(** The whole script: the lines it prints. *)
Definition main : result (list string) :=
  x <- max_time_seconds ;;
  b <- breakdown x ;;
  Ok [ ("Maximum time with 0.01s precision: " ++ format_f 2 x ++ " seconds")%string;
       ""%string;
       ("Actual spacing at this value: " ++ format_f 6 (spacing x) ++ " seconds")%string;
       ""%string;
       "Formatted result:"%string;
       formatted_result b;
       ""%string;
       "Summary: An f64 storing time in seconds can track approximately"%string;
       (format_comma (years b)
          ++ " years without losing more than 1/100th of a second precision")%string ].

End Limits.

Import Limits.

(** ** Vocabulary of the statements *)

(** One second in units of [2^-1074]. *)
Definition second : Z := 2 ^ 1074.

(** The seconds a breakdown stands for, as an exact number. *)
Definition reconstruction (b : DurationBreakdown) : Q :=
  (inject_Z (years b) * 31557600 + inject_Z (days b) * 86400
   + inject_Z (hours b) * 3600 + inject_Z (minutes b) * 60
   + to_Q (seconds b))%Q.

Definition tolerance : Q := 1 # 1000000.

Definition counts (b : DurationBreakdown) : list Z :=
  [years b; days b; hours b; minutes b].

(** The contract of the formatter in the words of the specification: the
    divisors in descending order, and for each one
    [unit_count = count (remaining / divisor)] followed by
    [remaining -= unit_count * divisor].  The specification takes [floor]
    for [count]. *)
Definition spec_divisors : list f64 :=
  [of_Z 31557600; of_Z 86400; of_Z 3600; of_Z 60].

Fixpoint greedy (count : f64 -> Z) (remaining : f64) (divisors : list f64)
  : list Z * f64 :=
  match divisors with
  | [] => ([], remaining)
  | d :: rest =>
      let c := count (div remaining d) in
      let '(cs, r) := greedy count (sub remaining (mul (of_Z c) d)) rest in
      (c :: cs, r)
  end.

(** ** Vocabulary of the rounding proofs *)

(** The record [mrs] holds the quotient [N / D] with the position of the
    exact value between [N / D] and its successor. *)
Definition holds (N D : Z) (mrs : shr_record) : Prop :=
  shr_m mrs = N / D
  /\ shr_r mrs = (D <=? 2 * (N mod D))
  /\ shr_s mrs = negb (N mod D =? 0) && negb (2 * (N mod D) =? D).

(** Rounding to nearest, ties to even, of the fraction [N / D]. *)
Definition rne (N D : Z) : Z :=
  match 2 * (N mod D) ?= D with
  | Lt => N / D
  | Gt => N / D + 1
  | Eq => if Z.even (N / D) then N / D else N / D + 1
  end.

(** What [binary_round_aux] computes, on the fraction [N / D] that the
    mantissa [mx] and its location stand for. *)
Definition rounded (s : bool) (N D mx ex : Z) : f64 :=
  let n1 := Z.max 0 (fexp prec emax (Zdigits2 mx + ex) - ex) in
  let m1 := rne N (D * 2 ^ n1) in
  let e1 := ex + n1 in
  let n2 := Z.max 0 (fexp prec emax (Zdigits2 m1 + e1) - e1) in
  match m1 / 2 ^ n2 with
  | Z0 => S754_zero s
  | Zpos m => if e1 + n2 <=? emax - prec then S754_finite s m (e1 + n2)
              else S754_infinity s
  | Zneg _ => S754_nan
  end.

(** What the conversion needs of a divisor [d]: a positive normal double
    of at least 32 whose mantissa ends in [z] zero bits. *)
Definition divisor_ok (d : f64) (z : Z) : Prop :=
  exists md ed,
    d = S754_finite false md ed /\ valid d = true /\ -52 <= ed <= 0
    /\ 0 <= z <= 50 /\ (2 ^ z | Z.pos md) /\ 32 * 2 ^ 1074 <= units d.

Ltac decide_bools :=
  repeat match goal with
    | |- context [Z.eqb ?a ?b] => destruct (Z.eqb_spec a b)
    | |- context [Z.leb ?a ?b] => destruct (Z.leb_spec a b)
    end;
  cbn [negb andb orb]; try reflexivity; try lia.

(** ** Vocabulary of the further properties *)

(** [b] is [a] negated, where the sign of a zero does not count. *)
Definition negated (a b : f64) : Prop :=
  b = SFopp a \/ (is_zero a = true /\ is_zero b = true).

(** Two outcomes of one unit of the conversion, the second on the negated
    remainder: the same exception, or the negated count and the negated
    new remainder. *)
Definition negated_step (a b : result (Z * f64)) : Prop :=
  match a, b with
  | Ok (c, r), Ok (c', r') => c' = - c /\ negated r r'
  | Raise e, Raise e' => e = e'
  | _, _ => False
  end.

(** The exception [int()] raises on a value that is not finite. *)
Definition int_error (x : f64) : exn :=
  match x with
  | S754_nan => ValueError
  | _ => OverflowError
  end.

(** The units of [2^1024], where rounding overflows, and of [2^971], one
    unit in the last place of the largest doubles. *)
Definition overflow_units : Z := 2 ^ 2098.
Definition top_ulp_units : Z := 2 ^ 2045.

(** The largest finite double, [sys.float_info.max], its value in units
    of [2^-1074], and the units of the largest double but one. *)
Definition max_double : f64 := S754_finite false 9007199254740991 971.
Definition max_units : Z := (2 ^ 53 - 1) * top_ulp_units.
Definition below_max_units : Z := (2 ^ 53 - 2) * top_ulp_units.

(** One unit of the conversion returns on [x]: a count and a remainder
    that is a double other than the largest. *)
Definition unit_done (x d : f64) : Prop :=
  exists c r, take_unit x d = Ok (c, r) /\ valid r = true /\ is_finite r = true
              /\ Z.abs (units r) <= below_max_units.

(** The next double above a positive normal double. *)
Definition successor (x : f64) : f64 :=
  match x with
  | S754_finite false m e =>
      if Z.pos m + 1 <? 2 ^ 53 then S754_finite false (m + 1) e
      else S754_finite false 4503599627370496 (e + 1)
  | _ => x
  end.

(** One unit in the last place of a normal double, [2^(e - 52) * 2^52]
    for the exponent [e] of its mantissa: the distance to its
    successor. *)
Definition ulp (x : f64) : f64 := S754_finite false 4503599627370496 (expo x - 52).

(** The mantissas for which [x + x * epsilon] lands two doubles above
    [x]: from [1.5 * 2^52] on, the last of the binade excepted. *)
Definition upper_half (m : positive) : bool :=
  (3 * 2 ^ 51 <=? Z.pos m) && (Z.pos m <? 2 ^ 53 - 1).

(** A string without its commas. *)
Definition strip_commas (s : string) : string :=
  string_of_list_ascii
    (filter (fun c => negb (Ascii.eqb c ","%char)) (list_ascii_of_string s)).

(** * Proofs *)

(** ** Binary digits *)

Lemma Zdigits2_log2 (p : positive) : Zdigits2 (Zpos p) = Z.log2 (Zpos p) + 1.
Proof.
  unfold Zdigits2.
  induction p as [p IH | p IH |]; simpl digits2_pos.
  - rewrite Pos2Z.inj_succ, IH. destruct p; simpl; lia.
  - rewrite Pos2Z.inj_succ, IH. destruct p; simpl; lia.
  - reflexivity.
Qed.

Lemma Zdigits2_bounds (n : Z) :
  0 < n -> 2 ^ (Zdigits2 n - 1) <= n < 2 ^ Zdigits2 n.
Proof.
  intros Hn. destruct n as [| p | p]; try lia.
  rewrite Zdigits2_log2.
  replace (Z.log2 (Z.pos p) + 1 - 1) with (Z.log2 (Z.pos p)) by lia.
  replace (Z.log2 (Z.pos p) + 1) with (Z.succ (Z.log2 (Z.pos p))) by lia.
  apply Z.log2_spec. lia.
Qed.

Lemma Zdigits2_unique (n k : Z) :
  2 ^ (k - 1) <= n < 2 ^ k -> 0 < n -> Zdigits2 n = k.
Proof.
  intros H Hn. destruct n as [| p | p]; try lia.
  rewrite Zdigits2_log2.
  assert (0 <= k - 1).
  { destruct (Z_lt_le_dec (k - 1) 0) as [Hk | Hk]; [| exact Hk].
    assert (k <= 0) by lia.
    assert (2 ^ k <= 2 ^ 0) by (destruct (Z.eq_dec k 0) as [-> | ?];
      [lia | rewrite (Z.pow_neg_r 2 k) by lia; simpl; lia]).
    simpl in *. lia. }
  rewrite (Z.log2_unique (Z.pos p) (k - 1)); try lia.
  replace (Z.succ (k - 1)) with k by lia. lia.
Qed.

Lemma Zdigits2_nonneg (n : Z) : 0 <= Zdigits2 n.
Proof. destruct n; simpl; lia. Qed.

Lemma Zdigits2_le (n k : Z) : 0 <= k -> 0 <= n < 2 ^ k -> Zdigits2 n <= k.
Proof.
  intros Hk [H0 H1].
  destruct (Z.eq_dec n 0) as [-> | Hn]; [simpl; lia |].
  destruct (Z_lt_le_dec k (Zdigits2 n)) as [Hlt | ?]; [| lia].
  pose proof (Zdigits2_bounds n ltac:(lia)) as [Hlo _].
  assert (2 ^ k <= 2 ^ (Zdigits2 n - 1)) by (apply Z.pow_le_mono_r; lia).
  lia.
Qed.

Lemma Zdigits2_ge (n k : Z) : 2 ^ (k - 1) <= n -> 0 < n -> k <= Zdigits2 n.
Proof.
  intros Hlo Hn.
  destruct (Z_lt_le_dec (Zdigits2 n) k) as [Hlt | ?]; [| lia].
  pose proof (Zdigits2_bounds n Hn) as [_ Hhi].
  pose proof (Zdigits2_nonneg n).
  assert (2 ^ Zdigits2 n <= 2 ^ (k - 1)) by (apply Z.pow_le_mono_r; lia).
  lia.
Qed.

(** ** Shifting right with a round and a sticky bit *)

Lemma iter_pos_nat {A : Type} (f : A -> A) (p : positive) (x : A) :
  iter_pos f p x = Nat.iter (Pos.to_nat p) f x.
Proof.
  revert x. induction p as [p IH | p IH |]; intros x; simpl iter_pos.
  - rewrite !IH, Pos2Nat.inj_xI.
    replace (2 * Pos.to_nat p)%nat with (Pos.to_nat p + Pos.to_nat p)%nat by lia.
    change (S (Pos.to_nat p + Pos.to_nat p)) with (1 + (Pos.to_nat p + Pos.to_nat p))%nat.
    rewrite (Nat.add_comm 1), !Nat.iter_add. reflexivity.
  - rewrite !IH, Pos2Nat.inj_xO.
    replace (2 * Pos.to_nat p)%nat with (Pos.to_nat p + Pos.to_nat p)%nat by lia.
    rewrite Nat.iter_add. reflexivity.
  - reflexivity.
Qed.

Lemma shr_1_m (mrs : shr_record) :
  0 <= shr_m mrs -> shr_m (shr_1 mrs) = shr_m mrs / 2.
Proof.
  destruct mrs as [m r s]; simpl. intros Hm.
  destruct m as [| [p | p |] | p]; try lia; simpl shr_m.
  - reflexivity.
  - rewrite Pos2Z.inj_xI. apply (Z.div_unique _ 2 _ 1); lia.
  - rewrite Pos2Z.inj_xO. apply (Z.div_unique _ 2 _ 0); lia.
  - reflexivity.
Qed.

Lemma shr_1_r (mrs : shr_record) :
  0 <= shr_m mrs -> shr_r (shr_1 mrs) = Z.odd (shr_m mrs).
Proof.
  destruct mrs as [m r s]; simpl. intros Hm.
  destruct m as [| [p | p |] | p]; try lia; reflexivity.
Qed.

Lemma shr_1_s (mrs : shr_record) :
  shr_s (shr_1 mrs) = shr_r mrs || shr_s mrs.
Proof.
  destruct mrs as [m r s]; simpl.
  destruct m as [| [p | p |] | [p | p |]]; reflexivity.
Qed.

Lemma shr_1_holds (N D : Z) (mrs : shr_record) :
  0 <= N -> 0 < D -> holds N D mrs -> holds N (2 * D) (shr_1 mrs).
Proof.
  intros HN HD (Hm & Hr & Hs).
  assert (H0 : 0 <= shr_m mrs) by (rewrite Hm; apply Z.div_pos; lia).
  pose proof (Z.div_mod N D ltac:(lia)) as E.
  pose proof (Z.mod_pos_bound N D HD) as B.
  pose proof (Z.div_mod (N / D) 2 ltac:(lia)) as E2.
  pose proof (Z.mod_pos_bound (N / D) 2 ltac:(lia)) as B2.
  assert (Hq : N / (2 * D) = N / D / 2).
  { rewrite (Z.mul_comm 2 D), Z.div_div by lia. reflexivity. }
  assert (Hrem : N mod (2 * D) = (N / D) mod 2 * D + N mod D).
  { pose proof (Z.div_mod N (2 * D) ltac:(lia)) as E3. rewrite Hq in E3. nia. }
  unfold holds. rewrite shr_1_m, shr_1_r, shr_1_s by exact H0.
  rewrite Hm, Hr, Hs, Hq, Hrem. split; [reflexivity |].
  assert (Hodd : Z.odd (N / D) = ((N / D) mod 2 =? 1)).
  { destruct (Z.odd (N / D)) eqn:Eo.
    - apply Z.odd_spec in Eo. destruct Eo as [h Hh].
      symmetry; apply Z.eqb_eq. lia.
    - assert (Ev : Z.even (N / D) = true) by (rewrite <- Z.negb_odd, Eo; reflexivity).
      apply Z.even_spec in Ev. destruct Ev as [h Hh].
      symmetry; apply Z.eqb_neq. lia. }
  rewrite Hodd.
  assert (Hc : (N / D) mod 2 = 0 \/ (N / D) mod 2 = 1) by lia.
  destruct Hc as [Hc | Hc]; rewrite Hc.
  - rewrite Z.mul_0_l, Z.add_0_l. change (0 =? 1) with false. split.
    + symmetry. apply Z.leb_gt. lia.
    + destruct (Z.eqb_spec (N mod D) 0), (Z.eqb_spec (2 * (N mod D)) D),
        (Z.leb_spec D (2 * (N mod D))),
        (Z.eqb_spec (2 * (N mod D)) (2 * D)); simpl; try reflexivity; lia.
  - rewrite Z.mul_1_l. change (1 =? 1) with true. split.
    + symmetry. apply Z.leb_le. lia.
    + destruct (Z.eqb_spec (N mod D) 0), (Z.eqb_spec (2 * (N mod D)) D),
        (Z.leb_spec D (2 * (N mod D))),
        (Z.eqb_spec (D + N mod D) 0),
        (Z.eqb_spec (2 * (D + N mod D)) (2 * D)); simpl; try reflexivity; lia.
Qed.

Lemma iter_shr_1_holds (n : nat) (N D : Z) (mrs : shr_record) :
  0 <= N -> 0 < D -> holds N D mrs ->
  holds N (D * 2 ^ Z.of_nat n) (Nat.iter n shr_1 mrs).
Proof.
  intros HN HD H. induction n as [| n IH].
  - simpl. rewrite Z.mul_1_r. exact H.
  - rewrite Nat2Z.inj_succ, Z.pow_succ_r by lia. simpl Nat.iter.
    replace (D * (2 * 2 ^ Z.of_nat n)) with (2 * (D * 2 ^ Z.of_nat n)) by ring.
    apply shr_1_holds; [lia | | exact IH].
    apply Z.mul_pos_pos; [lia | apply Z.pow_pos_nonneg; lia].
Qed.

Lemma shr_holds (N D : Z) (mrs : shr_record) (e n : Z) :
  0 <= N -> 0 < D -> holds N D mrs ->
  holds N (D * 2 ^ Z.max 0 n) (fst (shr mrs e n))
  /\ snd (shr mrs e n) = e + Z.max 0 n.
Proof.
  intros HN HD H. destruct n as [| p | p]; simpl shr.
  - simpl. rewrite Z.mul_1_r, Z.add_0_r. auto.
  - rewrite iter_pos_nat. split.
    + replace (Z.max 0 (Z.pos p)) with (Z.of_nat (Pos.to_nat p)) by lia.
      apply iter_shr_1_holds; assumption.
    + simpl. lia.
  - simpl. rewrite Z.mul_1_r. split; [assumption | lia].
Qed.

Lemma round_nearest_even_holds (N D : Z) (mrs : shr_record) :
  0 < D -> holds N D mrs ->
  round_nearest_even (shr_m mrs) (loc_of_shr_record mrs) = rne N D.
Proof.
  intros HD (Hm & Hr & Hs). unfold rne.
  pose proof (Z.mod_pos_bound N D HD) as B.
  destruct mrs as [m r s]; cbn [shr_m shr_r shr_s loc_of_shr_record] in *. subst m.
  destruct (Z.compare_spec (2 * (N mod D)) D) as [E | E | E].
  - assert (Er : r = true) by (rewrite Hr; apply Z.leb_le; lia).
    assert (Es : s = false).
    { rewrite Hs. destruct (Z.eqb_spec (2 * (N mod D)) D); [| lia].
      apply andb_false_r. }
    rewrite Er, Es. reflexivity.
  - assert (Er : r = false) by (rewrite Hr; apply Z.leb_gt; lia).
    rewrite Er. destruct s; reflexivity.
  - assert (Er : r = true) by (rewrite Hr; apply Z.leb_le; lia).
    assert (Es : s = true).
    { rewrite Hs. destruct (Z.eqb_spec (2 * (N mod D)) D); [lia |].
      destruct (Z.eqb_spec (N mod D) 0); [lia | reflexivity]. }
    rewrite Er, Es. reflexivity.
Qed.

Lemma holds_exact (m : Z) : holds m 1 (shr_record_of_loc m loc_Exact).
Proof.
  unfold holds; simpl. rewrite Z.div_1_r, Z.mod_1_r. auto.
Qed.

(** The location computed by the division. *)
Lemma holds_div (N D : Z) :
  0 <= N -> 0 < D ->
  holds N D (shr_record_of_loc (N / D) (new_location D (N mod D))).
Proof.
  intros HN HD. pose proof (Z.mod_pos_bound N D HD) as B.
  unfold new_location, new_location_even, new_location_odd, holds.
  destruct (Z.even D) eqn:Ev.
  - destruct (Z.eqb_spec (N mod D) 0) as [E0 | E0].
    + cbn [shr_record_of_loc shr_m shr_r shr_s]. rewrite E0.
      repeat split; decide_bools.
    + destruct (Z.compare_spec (2 * (N mod D)) D) as [E | E | E];
        cbn [shr_record_of_loc shr_m shr_r shr_s];
        repeat split; decide_bools.
  - assert (Hodd : Z.odd D = true) by (rewrite <- Z.negb_even, Ev; reflexivity).
    apply Z.odd_spec in Hodd. destruct Hodd as [h Hh].
    destruct (Z.eqb_spec (N mod D) 0) as [E0 | E0].
    + cbn [shr_record_of_loc shr_m shr_r shr_s]. rewrite E0.
      repeat split; decide_bools.
    + destruct (Z.compare_spec (2 * (N mod D) + 1) D) as [E | E | E];
        cbn [shr_record_of_loc shr_m shr_r shr_s];
        repeat split; decide_bools.
Qed.

Lemma rne_bounds (N D : Z) : 0 < D -> N / D <= rne N D <= N / D + 1.
Proof.
  intros HD. unfold rne.
  destruct (2 * (N mod D) ?= D); [destruct (Z.even (N / D)) | |]; lia.
Qed.

Lemma rne_nonneg (N D : Z) : 0 <= N -> 0 < D -> 0 <= rne N D.
Proof.
  intros HN HD. pose proof (rne_bounds N D HD).
  pose proof (Z.div_pos N D HN HD). lia.
Qed.

Lemma rne_exact (N D q : Z) : 0 < D -> N = q * D -> rne N D = q.
Proof.
  intros HD ->. unfold rne.
  rewrite Z.mod_mul, Z.div_mul by lia.
  destruct (Z.compare_spec (2 * 0) D); lia.
Qed.

Lemma binary_round_aux_rounded (s : bool) (N D mx ex : Z) (lx : location) :
  0 <= N -> 0 < D -> holds N D (shr_record_of_loc mx lx) ->
  binary_round_aux prec emax s mx ex lx = rounded s N D mx ex.
Proof.
  intros HN HD H. unfold binary_round_aux, shr_fexp, rounded.
  set (n1 := fexp prec emax (Zdigits2 mx + ex) - ex).
  destruct (shr_holds N D _ ex n1 HN HD H) as [H1 E1].
  destruct (shr (shr_record_of_loc mx lx) ex n1) as [mrs1 e1].
  cbn [fst snd] in H1, E1. subst e1.
  assert (HD1 : 0 < D * 2 ^ Z.max 0 n1).
  { apply Z.mul_pos_pos; [lia | apply Z.pow_pos_nonneg; lia]. }
  rewrite (round_nearest_even_holds N _ mrs1 HD1 H1).
  set (m1 := rne N (D * 2 ^ Z.max 0 n1)).
  assert (Hm1 : 0 <= m1) by (apply rne_nonneg; assumption).
  set (n2 := fexp prec emax (Zdigits2 m1 + (ex + Z.max 0 n1)) - (ex + Z.max 0 n1)).
  destruct (shr_holds m1 1 _ (ex + Z.max 0 n1) n2 Hm1 ltac:(lia) (holds_exact m1))
    as [H2 E2].
  destruct (shr (shr_record_of_loc m1 loc_Exact) (ex + Z.max 0 n1) n2) as [mrs2 e2].
  cbn [fst snd] in H2, E2. subst e2.
  destruct H2 as (H2 & _). rewrite H2, Z.mul_1_l. reflexivity.
Qed.

Lemma fexp_eq (e : Z) : fexp prec emax e = Z.max (e - 53) (-1074).
Proof. reflexivity. Qed.

Lemma pow2_pos (k : Z) : 0 <= k -> 0 < 2 ^ k.
Proof. intros. apply Z.pow_pos_nonneg; lia. Qed.

Lemma pow2_split (a b : Z) : 0 <= a -> 0 <= b -> 2 ^ (a + b) = 2 ^ a * 2 ^ b.
Proof. intros. apply Z.pow_add_r; assumption. Qed.

Lemma pow2_lt_inv (a b : Z) : 0 <= b -> 2 ^ a < 2 ^ b -> a < b.
Proof.
  intros Hb H. destruct (Z_lt_le_dec a b) as [? | Hle]; [assumption |].
  assert (2 ^ b <= 2 ^ a) by (apply Z.pow_le_mono_r; lia). lia.
Qed.

Lemma Zdigits2_mul_pow2 (m k : Z) :
  0 < m -> 0 <= k -> Zdigits2 (m * 2 ^ k) = Zdigits2 m + k.
Proof.
  intros Hm Hk. pose proof (Zdigits2_bounds m Hm) as [Hlo Hhi].
  pose proof (pow2_pos k Hk).
  assert (1 <= Zdigits2 m).
  { destruct m; simpl; lia. }
  apply Zdigits2_unique; [| nia].
  replace (Zdigits2 m + k - 1) with ((Zdigits2 m - 1) + k) by lia.
  rewrite !pow2_split by lia. nia.
Qed.

Lemma shift_pos_Z (m d : positive) :
  Zpos (Pos.iter xO m d) = Zpos m * 2 ^ Zpos d.
Proof.
  induction d as [| d IH] using Pos.peano_ind.
  - simpl. rewrite Pos2Z.inj_xO. lia.
  - rewrite Pos.iter_succ, Pos2Z.inj_xO, IH, Pos2Z.inj_succ, Z.pow_succ_r by lia.
    ring.
Qed.

(** Exact rounding: a value [U] (in units of [2^-1074]) that fits on a
    53-bit grid of step [2^j] is returned unchanged. *)
Lemma rounded_exact (s : bool) (m e U j : Z) :
  0 < m -> -1074 <= e -> U = m * 2 ^ (e + 1074) ->
  0 <= j <= 2045 -> (2 ^ j | U) -> U < 2 ^ (53 + j) ->
  e <= fexp prec emax (Zdigits2 m + e) ->
  let r := rounded s m 1 m e in
  finite_with_sign s r /\ valid r = true /\ units r = cond_Zopp s U.
Proof.
  intros Hm He HU Hj Hdiv Hlt Hle.
  set (e' := fexp prec emax (Zdigits2 m + e)) in *.
  pose proof (Zdigits2_bounds m Hm) as [Hlo Hhi].
  assert (Hdg : 1 <= Zdigits2 m) by (destruct m; simpl; lia).
  pose proof (pow2_pos (e + 1074) ltac:(lia)) as Hp.
  assert (He'j : e' <= j - 1074).
  { assert (2 ^ (Zdigits2 m - 1 + (e + 1074)) < 2 ^ (53 + j)).
    { rewrite pow2_split by lia. nia. }
    apply pow2_lt_inv in H; [| lia].
    unfold e'. rewrite fexp_eq. lia. }
  (* the mantissa is a multiple of the shift *)
  assert (Hc : exists c, m = c * 2 ^ (e' - e)).
  { destruct Hdiv as [t Ht].
    exists (t * 2 ^ (j - 1074 - e')).
    assert (Hu : m * 2 ^ (e + 1074)
                 = t * 2 ^ (j - 1074 - e') * 2 ^ (e' - e) * 2 ^ (e + 1074)).
    { rewrite <- HU, Ht, <- !Z.mul_assoc, <- !pow2_split by lia.
      f_equal. f_equal. lia. }
    nia. }
  destruct Hc as [c Hc].
  pose proof (pow2_pos (e' - e) ltac:(lia)) as Hp'.
  assert (Hcpos : 0 < c) by nia.
  assert (Hdc : Zdigits2 c + (e' - e) = Zdigits2 m).
  { rewrite Hc. symmetry. apply Zdigits2_mul_pow2; lia. }
  intros r. unfold r, rounded. fold e'.
  replace (Z.max 0 (e' - e)) with (e' - e) by lia.
  rewrite Z.mul_1_l, (rne_exact m (2 ^ (e' - e)) c Hp' Hc).
  replace (e + (e' - e)) with e' by lia.
  replace (Zdigits2 c + e') with (Zdigits2 m + e) by lia. fold e'.
  replace (Z.max 0 (e' - e')) with 0 by lia.
  rewrite Z.pow_0_r, Z.div_1_r, Z.add_0_r.
  destruct c as [| pc | pc]; try lia.
  assert (He'max : (e' <=? emax - prec) = true).
  { apply Z.leb_le. unfold emax, prec. lia. }
  rewrite He'max. cbn [finite_with_sign units valid valid_binary].
  split; [reflexivity |]. split.
  - unfold bounded, canonical_mantissa. rewrite He'max, andb_true_r.
    apply Z.eqb_eq. change (Z.pos (digits2_pos pc)) with (Zdigits2 (Z.pos pc)).
    replace (Zdigits2 (Z.pos pc) + e') with (Zdigits2 m + e) by lia. reflexivity.
  - f_equal. rewrite HU, Hc, <- Z.mul_assoc, <- pow2_split by lia.
    f_equal. f_equal. lia.
Qed.

Lemma shl_align_fst (m : positive) (e ez : Z) :
  ez <= e -> Zpos (fst (shl_align m e ez)) = Zpos m * 2 ^ (e - ez).
Proof.
  intros H. unfold shl_align.
  destruct (ez - e) as [| d | d] eqn:E; cbn [fst]; try lia.
  - replace (e - ez) with 0 by lia. lia.
  - rewrite shift_pos_Z. f_equal. f_equal. lia.
Qed.

Lemma binary_round_exact (s : bool) (m : positive) (e U j : Z) :
  -1074 <= e -> U = Zpos m * 2 ^ (e + 1074) ->
  0 <= j <= 2045 -> (2 ^ j | U) -> U < 2 ^ (53 + j) ->
  let r := binary_round prec emax s m e in
  finite_with_sign s r /\ valid r = true /\ units r = cond_Zopp s U.
Proof.
  intros He HU Hj Hdiv Hlt. unfold binary_round, shl_align.
  change (Z.pos (digits2_pos m)) with (Zdigits2 (Z.pos m)).
  set (e' := fexp prec emax (Zdigits2 (Z.pos m) + e)).
  assert (He' : -1074 <= e') by (unfold e'; rewrite fexp_eq; lia).
  destruct (e' - e) as [| d | d] eqn:E.
  - rewrite (binary_round_aux_rounded s (Z.pos m) 1) by (try lia; apply holds_exact).
    apply (rounded_exact s (Z.pos m) e U j); try assumption; try lia.
  - rewrite (binary_round_aux_rounded s (Z.pos m) 1) by (try lia; apply holds_exact).
    apply (rounded_exact s (Z.pos m) e U j); try assumption; try lia.
  - rewrite (binary_round_aux_rounded s (Z.pos (Pos.iter xO m d)) 1)
      by (try lia; apply holds_exact).
    assert (Hd : Z.pos d = e - e') by lia.
    apply (rounded_exact s _ e' U j); try assumption; try lia.
    + rewrite shift_pos_Z, HU, Hd, <- Z.mul_assoc, <- pow2_split by lia.
      f_equal. f_equal. lia.
    + rewrite shift_pos_Z, Zdigits2_mul_pow2 by lia.
      replace (Zdigits2 (Z.pos m) + Z.pos d + e') with (Zdigits2 (Z.pos m) + e) by lia.
      fold e'. lia.
Qed.

(** Structure of valid doubles. *)
Lemma valid_finite (s : bool) (m : positive) (e : Z) :
  valid (S754_finite s m e) = true ->
  -1074 <= e <= 971 /\ Zpos m < 2 ^ 53 /\ (-1074 < e -> 2 ^ 52 <= Zpos m).
Proof.
  unfold valid, valid_binary, bounded, canonical_mantissa.
  intros H. apply andb_true_iff in H. destruct H as [Hc Hb].
  apply Z.eqb_eq in Hc. apply Z.leb_le in Hb.
  change (Z.pos (digits2_pos m)) with (Zdigits2 (Z.pos m)) in Hc.
  rewrite fexp_eq in Hc. unfold emax, prec in Hb.
  pose proof (Zdigits2_bounds (Z.pos m) ltac:(lia)) as [Hlo Hhi].
  assert (Hdg : Zdigits2 (Z.pos m) <= 53) by lia.
  split; [lia |]. split.
  - assert (2 ^ Zdigits2 (Z.pos m) <= 2 ^ 53) by (apply Z.pow_le_mono_r; lia). lia.
  - intros He. assert (Zdigits2 (Z.pos m) = 53) by lia.
    replace 52 with (Zdigits2 (Z.pos m) - 1) by lia. exact Hlo.
Qed.

Lemma valid_digits (s : bool) (m : positive) (e : Z) :
  valid (S754_finite s m e) = true -> -1074 < e -> Zdigits2 (Z.pos m) = 53.
Proof.
  intros H He. apply valid_finite in H. destruct H as (_ & Hhi & Hlo).
  apply Zdigits2_unique; [| lia]. split; [apply Hlo; assumption | assumption].
Qed.

Lemma units_nonneg (x : f64) : nonneg_finite x = true -> 0 <= units x.
Proof.
  destruct x as [[|] | | | [|] m e]; cbn [nonneg_finite units cond_Zopp];
    try discriminate; try lia.
Qed.

Lemma units_pos (m : positive) (e : Z) :
  -1074 <= e -> 0 < units (S754_finite false m e).
Proof.
  intros. cbn [units cond_Zopp]. apply Z.mul_pos_pos; [lia | apply pow2_pos; lia].
Qed.

Lemma of_Z_exact (k : Z) :
  0 < k < 2 ^ 53 ->
  finite_with_sign false (of_Z k) /\ valid (of_Z k) = true
  /\ units (of_Z k) = k * 2 ^ 1074.
Proof.
  intros [H0 H1]. destruct k as [| p | p]; try lia.
  unfold of_Z, binary_normalize.
  apply (binary_round_exact false p 0 (Z.pos p * 2 ^ 1074) 1074); try lia.
  exists (Z.pos p). reflexivity.
Qed.

(** Subtraction is exact when the subtrahend is on the grid of the
    minuend and not larger. *)
Lemma sub_exact (a b : f64) :
  valid a = true -> valid b = true ->
  nonneg_finite a = true -> nonneg_finite b = true ->
  units b <= units a -> (2 ^ (expo a + 1074) | units b) ->
  nonneg_finite (sub a b) = true /\ valid (sub a b) = true
  /\ units (sub a b) = units a - units b.
Proof.
  intros Va Vb Na Nb Hle Hgrid.
  destruct a as [[|] | | | [|] ma ea]; try discriminate;
    destruct b as [[|] | | | [|] mb eb]; try discriminate.
  - simpl. auto.
  - pose proof (valid_finite _ _ _ Vb) as (Hb & _).
    pose proof (units_pos mb eb ltac:(lia)) as Hp.
    cbn [units cond_Zopp] in Hle, Hp. lia.
  - simpl. rewrite Z.sub_0_r. auto.
  - pose proof (valid_finite _ _ _ Va) as (Ha & Hma & _).
    pose proof (valid_finite _ _ _ Vb) as (Hb & Hmb & _).
    unfold sub, SFsub. cbn [cond_Zopp expo units] in *.
    set (ez := Z.min ea eb).
    rewrite !shl_align_fst by lia.
    set (A := Z.pos ma * 2 ^ (ea - ez)). set (B := Z.pos mb * 2 ^ (eb - ez)).
    pose proof (pow2_pos (ez + 1074) ltac:(lia)) as Hpz.
    assert (HA : Z.pos ma * 2 ^ (ea + 1074) = A * 2 ^ (ez + 1074)).
    { unfold A. rewrite <- Z.mul_assoc, <- pow2_split by lia. f_equal. f_equal. lia. }
    assert (HB : Z.pos mb * 2 ^ (eb + 1074) = B * 2 ^ (ez + 1074)).
    { unfold B. rewrite <- Z.mul_assoc, <- pow2_split by lia. f_equal. f_equal. lia. }
    rewrite HA, HB in *.
    assert (HAB : B <= A) by nia.
    unfold binary_normalize.
    destruct (A - B) as [| p | p] eqn:E; try lia.
    + cbn [nonneg_finite valid valid_binary units]. repeat split. nia.
    + destruct (binary_round_exact false p ez (A * 2 ^ (ez + 1074) - B * 2 ^ (ez + 1074))
                  (ea + 1074)) as (Hf & Hv & Hu); try lia.
      * apply Z.divide_sub_r; [| assumption].
        rewrite <- HA. exists (Z.pos ma). reflexivity.
      * rewrite <- HA.
        rewrite (pow2_split 53 (ea + 1074)) by lia.
        pose proof (pow2_pos (ea + 1074) ltac:(lia)).
        assert (0 <= B * 2 ^ (ez + 1074)) by (unfold B; nia). nia.
      * destruct (binary_round prec emax false p ez); simpl in Hf; try contradiction.
        subst. repeat split; assumption.
Qed.

Lemma mul_exact (a b : f64) (U j : Z) :
  valid a = true -> valid b = true ->
  finite_with_sign false a -> finite_with_sign false b ->
  -1074 < expo a -> -1074 < expo b -> -1074 <= expo a + expo b ->
  units a * units b = U * 2 ^ 1074 ->
  0 <= j <= 2045 -> (2 ^ j | U) -> U < 2 ^ (53 + j) ->
  finite_with_sign false (mul a b) /\ valid (mul a b) = true
  /\ units (mul a b) = U.
Proof.
  intros Va Vb Fa Fb Ea Eb Eab HU Hj Hdiv Hlt.
  destruct a as [| | | sa ma ea]; try contradiction.
  destruct b as [| | | sb mb eb]; try contradiction.
  cbn [finite_with_sign expo units] in *. subst sa sb. cbn [cond_Zopp] in HU.
  pose proof (valid_finite _ _ _ Va) as (Ha & Hma & Hla).
  pose proof (valid_finite _ _ _ Vb) as (Hb & Hmb & Hlb).
  specialize (Hla Ea). specialize (Hlb Eb).
  unfold mul, SFmul. cbn [xorb].
  rewrite (binary_round_aux_rounded false (Z.pos (ma * mb)) 1)
    by (try lia; apply holds_exact).
  assert (HU' : U = Z.pos (ma * mb) * 2 ^ (ea + eb + 1074)).
  { pose proof (pow2_pos 1074 ltac:(lia)) as Hp.
    assert (Hpw : 2 ^ (ea + 1074) * 2 ^ (eb + 1074) = 2 ^ (ea + eb + 1074) * 2 ^ 1074).
    { pose proof (pow2_split (ea + 1074) (eb + 1074) ltac:(lia) ltac:(lia)) as P1.
      pose proof (pow2_split (ea + eb + 1074) 1074 ltac:(lia) ltac:(lia)) as P2.
      replace (ea + 1074 + (eb + 1074)) with (ea + eb + 1074 + 1074) in P1 by lia.
      rewrite <- P1. exact P2. }
    apply (Z.mul_reg_r _ _ (2 ^ 1074)); [lia |].
    rewrite <- HU, Pos2Z.inj_mul.
    transitivity (Z.pos ma * Z.pos mb * (2 ^ (ea + 1074) * 2 ^ (eb + 1074)));
      [ring | rewrite Hpw; ring]. }
  apply (rounded_exact false (Z.pos (ma * mb)) (ea + eb) U j); try assumption; try lia.
  rewrite fexp_eq.
  assert (105 <= Zdigits2 (Z.pos (ma * mb))).
  { apply Zdigits2_ge; [| lia]. rewrite Pos2Z.inj_mul.
    change (2 ^ (105 - 1)) with (2 ^ 52 * 2 ^ 52). nia. }
  lia.
Qed.

(** ** Division followed by [int()] *)

Lemma div_rounded (s1 s2 : bool) (m1 m2 : positive) (e1 e2 : Z) :
  let e' := Z.min (fexp prec emax (Zdigits2 (Z.pos m1) + e1 - (Zdigits2 (Z.pos m2) + e2)))
                  (e1 - e2) in
  let N := Z.pos m1 * 2 ^ (e1 - e2 - e') in
  div (S754_finite s1 m1 e1) (S754_finite s2 m2 e2)
  = rounded (xorb s1 s2) N (Z.pos m2) (N / Z.pos m2) e'.
Proof.
  intros e' N. unfold div, SFdiv, SFdiv_core_binary. fold e'.
  set (m' := match e1 - e2 - e' with
             | 0 => Z.pos m1
             | Z.pos _ => Z.shiftl (Z.pos m1) (e1 - e2 - e')
             | Z.neg _ => 0
             end).
  assert (Hs : 0 <= e1 - e2 - e') by (unfold e'; lia).
  assert (Hm' : m' = N).
  { unfold m', N. destruct (e1 - e2 - e') as [| p | p] eqn:E; try lia.
    rewrite Z.shiftl_mul_pow2 by lia. reflexivity. }
  rewrite Hm'.
  assert (HN : 0 <= N) by (unfold N; pose proof (pow2_pos _ Hs); nia).
  change (Z.div_eucl N (Z.pos m2)) with (Z.div_eucl N (Z.pos m2)).
  pose proof (holds_div N (Z.pos m2) HN ltac:(lia)) as H.
  unfold Z.div, Z.modulo in *.
  destruct (Z.div_eucl N (Z.pos m2)) as [q r].
  apply binary_round_aux_rounded; [assumption | lia | exact H].
Qed.

(** Rounding a fraction to the nearest integer and then dividing by [P]
    with truncation gives the integer part of the whole quotient, as long
    as the numerator and the full denominator lie on a grid coarser than
    half the rounding denominator. *)
Lemma rne_div_floor (N A P w : Z) :
  0 <= N -> 0 < A -> 0 < P -> 0 <= w ->
  (2 ^ w | N) -> (2 ^ w | A * P) -> A < 2 ^ (w + 1) ->
  rne N A / P = N / (A * P).
Proof.
  intros HN HA HP Hw [n Hn] [a Ha] HAw.
  rewrite <- Z.div_div by lia.
  pose proof (Z.div_mod N A ltac:(lia)) as E.
  pose proof (Z.mod_pos_bound N A HA) as B.
  set (q := N / A) in *. set (r := N mod A) in *.
  assert (Hq : 0 <= q) by (apply Z.div_pos; lia).
  pose proof (Z.div_mod q P ltac:(lia)) as E2.
  pose proof (Z.mod_pos_bound q P HP) as B2.
  set (k := q / P) in *. set (t := q mod P) in *.
  assert (Hup : A <= 2 * r -> t + 1 < P).
  { intros Hr.
    destruct (Z_lt_le_dec (t + 1) P) as [? | Hge]; [assumption | exfalso].
    assert (Ht : t = P - 1) by lia.
    (* then (k + 1) * A * P - N = A - r is a positive multiple of 2^w *)
    assert (Hd : (k + 1) * a * 2 ^ w - n * 2 ^ w = A - r).
    { rewrite <- Hn. replace ((k + 1) * a * 2 ^ w) with ((k + 1) * (a * 2 ^ w)) by ring.
      rewrite <- Ha. rewrite E, E2, Ht. ring. }
    replace (w + 1) with (Z.succ w) in HAw by lia.
    rewrite Z.pow_succ_r in HAw by lia.
    pose proof (pow2_pos w Hw) as Hpw.
    assert (Hmul : ((k + 1) * a - n) * 2 ^ w = A - r) by (rewrite <- Hd; ring).
    assert (0 < (k + 1) * a - n) by nia.
    assert (2 ^ w <= ((k + 1) * a - n) * 2 ^ w) by nia.
    lia. }
  unfold rne. fold q r.
  assert (Hsame : q / P = k) by reflexivity.
  assert (Hsucc : t + 1 < P -> (q + 1) / P = k).
  { intros Ht. symmetry. apply (Z.div_unique _ _ _ (t + 1)); lia. }
  destruct (Z.compare_spec (2 * r) A) as [C | C | C].
  - destruct (Z.even q); [reflexivity |]. apply Hsucc, Hup. lia.
  - reflexivity.
  - apply Hsucc, Hup. lia.
Qed.

(** The integer part of a rounded positive fraction whose final exponent
    is negative. *)
Lemma trunc_rounded (N D mx ex : Z) :
  0 <= N -> 0 < D ->
  let n1 := Z.max 0 (fexp prec emax (Zdigits2 mx + ex) - ex) in
  let m1 := rne N (D * 2 ^ n1) in
  let e1 := ex + n1 in
  e1 < 0 -> Zdigits2 m1 + e1 < 53 ->
  int_of_float (rounded false N D mx ex) = Ok (m1 / 2 ^ (- e1)).
Proof.
  intros HN HD n1 m1 e1 He1 Hdg. unfold rounded. fold n1. fold m1. fold e1.
  set (n2 := Z.max 0 (fexp prec emax (Zdigits2 m1 + e1) - e1)).
  assert (Hn2 : 0 <= n2) by (unfold n2; lia).
  assert (He2 : e1 + n2 < 0) by (unfold n2; rewrite fexp_eq; lia).
  assert (Hm1 : 0 <= m1).
  { apply rne_nonneg; [assumption |].
    apply Z.mul_pos_pos; [lia | apply pow2_pos; unfold n1; lia]. }
  assert (Hq : m1 / 2 ^ (- e1) = m1 / 2 ^ n2 / 2 ^ (- (e1 + n2))).
  { pose proof (pow2_pos n2 Hn2). pose proof (pow2_pos (- (e1 + n2)) ltac:(lia)).
    rewrite Z.div_div by lia.
    rewrite <- (pow2_split n2 (- (e1 + n2))) by lia. f_equal. f_equal. lia. }
  pose proof (Z.div_pos m1 (2 ^ n2) Hm1 (pow2_pos n2 Hn2)) as Hm2.
  rewrite Hq. destruct (m1 / 2 ^ n2) as [| p | p] eqn:E; try lia.
  - cbn [int_of_float trunc]. rewrite Z.div_0_l; [reflexivity |].
    pose proof (pow2_pos (- (e1 + n2)) ltac:(lia)). lia.
  - assert (Hle : (e1 + n2 <=? emax - prec) = true).
    { apply Z.leb_le. unfold emax, prec. lia. }
    rewrite Hle. cbn [int_of_float trunc cond_Zopp].
    destruct (Z.leb_spec 0 (e1 + n2)); [lia |].
    rewrite Z.shiftr_div_pow2 by lia. reflexivity.
Qed.

Lemma expo_upper (x : f64) (t : Z) :
  valid x = true -> 0 <= t -> Z.abs (units x) < 2 ^ t ->
  expo x <= Z.max (t - 1127) (-1074).
Proof.
  intros V Ht H. destruct x as [| | | s m e]; cbn [expo]; try lia.
  pose proof (valid_finite _ _ _ V) as (He & Hm & Hn).
  destruct (Z.eq_dec e (-1074)) as [-> | Hne]; [lia |].
  specialize (Hn ltac:(lia)).
  assert (Hu : Z.abs (units (S754_finite s m e)) = Z.pos m * 2 ^ (e + 1074)).
  { cbn [units]. pose proof (pow2_pos (e + 1074) ltac:(lia)).
    destruct s; cbn [cond_Zopp]; nia. }
  rewrite Hu in H.
  assert (2 ^ (52 + (e + 1074)) < 2 ^ t).
  { rewrite pow2_split by lia. pose proof (pow2_pos (e + 1074) ltac:(lia)). nia. }
  apply pow2_lt_inv in H0; lia.
Qed.

Lemma expo_lower (x : f64) :
  valid x = true -> 2 ^ 1074 <= units x -> -52 <= expo x.
Proof.
  intros V H. destruct x as [| | | s m e]; cbn [expo units] in *; try lia.
  pose proof (valid_finite _ _ _ V) as (He & Hm & _).
  pose proof (pow2_pos (e + 1074) ltac:(lia)) as Hp.
  destruct s; cbn [cond_Zopp] in H; [nia |].
  assert (2 ^ 1074 < 2 ^ (53 + (e + 1074))).
  { rewrite pow2_split by lia. nia. }
  apply pow2_lt_inv in H0; lia.
Qed.

(** Helper: the same power of two cancels in a quotient. *)
Lemma div_pow2_cancel (a b p q r : Z) :
  0 < b -> 0 <= p -> 0 <= q -> 0 <= r ->
  (a * 2 ^ (p + r)) / (b * 2 ^ (q + r)) = (a * 2 ^ p) / (b * 2 ^ q).
Proof.
  intros Hb Hp Hq Hr.
  rewrite (pow2_split p r), (pow2_split q r) by lia.
  rewrite !Z.mul_assoc.
  pose proof (pow2_pos q Hq). pose proof (pow2_pos r Hr).
  apply Z.div_mul_cancel_r; nia.
Qed.

(** [int(x / d)] is the integer part of the exact quotient when [x] is a
    normal double whose exponent does not exceed the number of trailing
    zero bits of [d]. *)
Lemma div_int_normal (m1 m2 : positive) (e1 e2 z : Z) :
  valid (S754_finite false m1 e1) = true ->
  valid (S754_finite false m2 e2) = true ->
  -1074 < e1 -> -1074 < e2 -> 0 <= z <= 50 -> (2 ^ z | Z.pos m2) ->
  e1 <= e2 + z -> -1021 <= e1 - e2 ->
  int_of_float (div (S754_finite false m1 e1) (S754_finite false m2 e2))
  = Ok (units (S754_finite false m1 e1) / units (S754_finite false m2 e2)).
Proof.
  intros V1 V2 H1 H2 Hz Hdiv Hez Hlow.
  pose proof (valid_finite _ _ _ V1) as (He1 & Hm1 & Hn1).
  pose proof (valid_finite _ _ _ V2) as (He2 & Hm2 & Hn2).
  specialize (Hn1 H1). specialize (Hn2 H2).
  rewrite div_rounded.
  rewrite (valid_digits _ _ _ V1 H1), (valid_digits _ _ _ V2 H2), fexp_eq.
  replace (Z.min (Z.max (53 + e1 - (53 + e2) - 53) (-1074)) (e1 - e2))
    with (e1 - e2 - 53) by lia.
  replace (e1 - e2 - (e1 - e2 - 53)) with 53 by lia.
  set (e' := e1 - e2 - 53).
  set (N := Z.pos m1 * 2 ^ 53). set (D := Z.pos m2).
  set (q := N / D).
  assert (HN : 0 <= N) by (unfold N; lia).
  assert (HD : 0 < D) by (unfold D; lia).
  assert (Hq : 2 ^ 52 <= q < 2 ^ 54).
  { unfold q, N, D. split.
    - apply Z.div_le_lower_bound; [lia |]. nia.
    - apply Z.div_lt_upper_bound; [lia |].
      change (2 ^ 54) with (2 * 2 ^ 53). nia. }
  assert (Hdq : 53 <= Zdigits2 q <= 54).
  { split; [apply Zdigits2_ge; [| lia]; change (2 ^ (53 - 1)) with (2 ^ 52); lia
           | apply Zdigits2_le; lia]. }
  pose proof (Zdigits2_bounds q ltac:(lia)) as [Hqlo Hqhi].
  set (n1 := Z.max 0 (fexp prec emax (Zdigits2 q + e') - e')).
  assert (Hn1' : n1 = Zdigits2 q - 53) by (unfold n1; rewrite fexp_eq; lia).
  assert (H0n1 : 0 <= n1 <= 1) by lia.
  pose proof (pow2_pos n1 ltac:(lia)) as Hpn1.
  assert (HA : 0 < D * 2 ^ n1) by nia.
  set (m := rne N (D * 2 ^ n1)).
  assert (Hmle : m <= 2 ^ 53).
  { pose proof (rne_bounds N (D * 2 ^ n1) HA) as [_ Hub]. fold m in Hub.
    assert (N / (D * 2 ^ n1) < 2 ^ 53); [| lia].
    rewrite <- Z.div_div by lia. fold q.
    apply Z.div_lt_upper_bound; [lia |].
    rewrite <- pow2_split by lia.
    replace (n1 + 53) with (Zdigits2 q) by lia. lia. }
  assert (Hm0 : 0 <= m) by (apply rne_nonneg; assumption).
  assert (Hdm : Zdigits2 m <= 54) by (apply Zdigits2_le; lia).
  rewrite trunc_rounded; fold n1; fold m; try assumption; try lia.
  f_equal.
  (* the rounding never reaches the next integer *)
  unfold m.
  rewrite (rne_div_floor N (D * 2 ^ n1) (2 ^ (- (e' + n1))) (52 + n1)); try lia.
  - replace (D * 2 ^ n1 * 2 ^ (- (e' + n1))) with (D * 2 ^ (- e')).
    2:{ rewrite <- Z.mul_assoc, <- pow2_split by lia. f_equal. f_equal. lia. }
    unfold N, D. cbn [units cond_Zopp].
    set (p := Z.max (e1 - e2) 0). set (q' := Z.max (e2 - e1) 0).
    replace 53 with (p + (53 - p)) at 1 by lia.
    replace (- e') with (q' + (53 - p)) by (unfold e'; lia).
    rewrite div_pow2_cancel by lia.
    replace (e1 + 1074) with (p + (Z.min e1 e2 + 1074)) by lia.
    replace (e2 + 1074) with (q' + (Z.min e1 e2 + 1074)) by lia.
    rewrite div_pow2_cancel by lia. reflexivity.
  - exists (Z.pos m1 * 2 ^ (1 - n1)). unfold N.
    rewrite <- Z.mul_assoc, <- pow2_split by lia. f_equal. f_equal. lia.
  - destruct Hdiv as [o Ho].
    exists (o * 2 ^ (z - e' - 52 - n1)). unfold D. rewrite Ho.
    assert (E1 : 2 ^ z * 2 ^ n1 * 2 ^ (- (e' + n1))
                 = 2 ^ (z - e' - 52 - n1) * 2 ^ (52 + n1)).
    { rewrite <- (pow2_split z n1), <- (pow2_split (z + n1) (- (e' + n1))),
        <- (pow2_split (z - e' - 52 - n1) (52 + n1)) by lia.
      f_equal. lia. }
    transitivity (o * (2 ^ z * 2 ^ n1 * 2 ^ (- (e' + n1)))); [ring |].
    rewrite E1. ring.
  - replace (52 + n1 + 1) with (n1 + 53) by lia.
    rewrite pow2_split by lia. unfold D. nia.
Qed.

(** [int(x / d)] is zero when [x] is at least 32 times smaller than [d]. *)
Lemma div_int_small (m1 m2 : positive) (e1 e2 : Z) :
  valid (S754_finite false m1 e1) = true ->
  valid (S754_finite false m2 e2) = true ->
  e1 < e2 ->
  32 * units (S754_finite false m1 e1) < units (S754_finite false m2 e2) ->
  int_of_float (div (S754_finite false m1 e1) (S754_finite false m2 e2)) = Ok 0.
Proof.
  intros V1 V2 He Hu.
  pose proof (valid_finite _ _ _ V1) as (He1 & Hm1 & _).
  pose proof (valid_finite _ _ _ V2) as (He2 & Hm2 & _).
  rewrite div_rounded.
  set (e' := Z.min _ (e1 - e2)).
  assert (He' : e' < 0) by (unfold e'; lia).
  assert (Hs : 0 <= e1 - e2 - e') by (unfold e'; lia).
  set (N := Z.pos m1 * 2 ^ (e1 - e2 - e')). set (D := Z.pos m2).
  assert (HD : 0 < D) by (unfold D; lia).
  pose proof (pow2_pos _ Hs) as Hps.
  assert (HN : 0 <= N) by (unfold N; nia).
  (* the exact quotient is below 1/32 *)
  assert (Hsmall : 32 * N < D * 2 ^ (- e')).
  { cbn [units cond_Zopp] in Hu.
    replace (e2 + 1074) with ((e2 - e1) + (e1 + 1074)) in Hu by lia.
    rewrite (pow2_split (e2 - e1) (e1 + 1074)) in Hu by lia.
    pose proof (pow2_pos (e1 + 1074) ltac:(lia)) as Hp1.
    assert (H32 : 32 * Z.pos m1 < Z.pos m2 * 2 ^ (e2 - e1)) by nia.
    replace (- e') with ((e2 - e1) + (e1 - e2 - e')) by lia.
    rewrite (pow2_split (e2 - e1) (e1 - e2 - e')) by lia.
    unfold N, D. nia. }
  set (q := N / D).
  assert (Hq0 : 0 <= q) by (apply Z.div_pos; lia).
  assert (Hq : 32 * q < 2 ^ (- e')).
  { pose proof (Z.mul_div_le N D HD). fold q in H.
    pose proof (pow2_pos (- e') ltac:(lia)). nia. }
  assert (Hdq : Zdigits2 q + e' <= 0).
  { destruct (Z.eq_dec q 0) as [-> | Hne]; [simpl; lia |].
    assert (Zdigits2 q <= - e'); [| lia].
    apply Zdigits2_le; lia. }
  set (n1 := Z.max 0 (fexp prec emax (Zdigits2 q + e') - e')).
  assert (Hn1 : 0 <= n1) by (unfold n1; lia).
  assert (He1' : e' + n1 < 0) by (unfold n1; rewrite fexp_eq; lia).
  pose proof (pow2_pos n1 Hn1) as Hpn1.
  assert (HA : 0 < D * 2 ^ n1) by nia.
  set (m := rne N (D * 2 ^ n1)).
  assert (Hm0 : 0 <= m) by (apply rne_nonneg; assumption).
  pose proof (pow2_pos (- (e' + n1)) ltac:(lia)) as HpT.
  assert (Hm : m < 2 ^ (- (e' + n1))).
  { pose proof (rne_bounds N (D * 2 ^ n1) HA) as [_ Hub]. fold m in Hub.
    rewrite <- Z.div_div in Hub by lia. fold q in Hub.
    set (v := q / 2 ^ n1) in *.
    assert (Hv0 : 0 <= v) by (apply Z.div_pos; lia).
    pose proof (Z.mul_div_le q (2 ^ n1) Hpn1) as Hv. fold v in Hv.
    assert (HT : 2 ^ (- e') = 2 ^ n1 * 2 ^ (- (e' + n1))).
    { rewrite <- (pow2_split n1 (- (e' + n1))) by lia. f_equal. lia. }
    assert (2 <= 2 ^ (- (e' + n1))).
    { change 2 with (2 ^ 1) at 1. apply Z.pow_le_mono_r; lia. }
    assert (32 * v < 2 ^ (- (e' + n1))) by nia.
    lia. }
  rewrite trunc_rounded; fold q; fold n1; fold m; try assumption; try lia.
  - f_equal. apply Z.div_small. lia.
  - assert (Zdigits2 m <= - (e' + n1)) by (apply Zdigits2_le; lia). lia.
Qed.

Lemma finite_with_sign_nonneg (x : f64) :
  finite_with_sign false x -> nonneg_finite x = true /\ is_finite x = true.
Proof.
  destruct x as [| | | s m e]; cbn; try contradiction. intros ->. auto.
Qed.

Lemma quotient_exact (d : f64) (z : Z) (x : f64) :
  divisor_ok d z ->
  valid x = true -> nonneg_finite x = true -> expo x <= expo d + z ->
  int_of_float (div x d) = Ok (units x / units d).
Proof.
  intros (md & ed & Hd & Vd & Hed & Hz & Hdiv & Hbig) Vx Nx Hx.
  subst d. cbn [expo] in Hx. set (d := S754_finite false md ed) in *.
  destruct x as [[|] | | | [|] m e]; try discriminate.
  - reflexivity.
  - cbn [expo] in Hx.
    pose proof (valid_finite _ _ _ Vx) as (He & Hm & _).
    destruct (Z_le_gt_dec e (-53)) as [Hs | Hn].
    + assert (Hux : units (S754_finite false m e) < 2 ^ 1074).
      { cbn [units cond_Zopp].
        replace 1074 with ((- 53 - e) + (53 + (e + 1074))) at 2 by lia.
        rewrite (pow2_split (- 53 - e) (53 + (e + 1074))),
          (pow2_split 53 (e + 1074)) by lia.
        pose proof (pow2_pos (- 53 - e) ltac:(lia)).
        pose proof (pow2_pos (e + 1074) ltac:(lia)). nia. }
      pose proof (units_pos m e ltac:(lia)) as Hpos.
      unfold d. rewrite div_int_small; try assumption; try lia.
      * f_equal. symmetry. apply Z.div_small. fold d. lia.
      * fold d. lia.
    + unfold d. apply (div_int_normal m md e ed z); try assumption; lia.
Qed.

Lemma take_unit_exact (d : f64) (z : Z) (x : f64) :
  divisor_ok d z ->
  valid x = true -> nonneg_finite x = true -> expo x <= expo d + z ->
  exists r,
    take_unit x d = Ok (units x / units d, r)
    /\ valid r = true /\ nonneg_finite r = true
    /\ units r = units x mod units d.
Proof.
  intros Hok Vx Nx Hx.
  pose proof (quotient_exact d z x Hok Vx Nx Hx) as Hq.
  destruct Hok as (md & ed & Hd & Vd & Hed & Hz & Hdiv & Hbig).
  subst d. cbn [expo] in Hx. set (d := S754_finite false md ed) in *.
  pose proof (valid_finite _ _ _ Vd) as (_ & Hmd & Hnd).
  specialize (Hnd ltac:(lia)).
  assert (Hud : 0 < units d) by lia.
  pose proof (units_nonneg x Nx) as Hux.
  unfold take_unit, truediv. change (is_zero d) with false. cbn [bind].
  rewrite Hq. cbn [bind].
  set (k := units x / units d).
  assert (Hk0 : 0 <= k) by (apply Z.div_pos; lia).
  pose proof (Z.div_mod (units x) (units d) ltac:(lia)) as Edm. fold k in Edm.
  pose proof (Z.mod_pos_bound (units x) (units d) Hud) as Bdm.
  destruct (Z.eq_dec k 0) as [Ek | Ek].
  - (* nothing to take *)
    rewrite Ek in *. change (int_mul_float 0 d) with (Ok (S754_zero false)).
    cbn [bind]. exists x. split; [| split; [assumption | split; [assumption | lia]]].
    destruct x as [[|] | | | [|] m e]; try discriminate; reflexivity.
  - destruct x as [[|] | | | [|] m e]; try discriminate.
    { exfalso. apply Ek. reflexivity. }
    cbn [expo] in Hx.
    pose proof (valid_finite _ _ _ Vx) as (He & Hm & _).
    set (x := S754_finite false m e) in *.
    (* the grid of the divisor *)
    assert (Hgrid : (2 ^ (ed + z + 1074) | units d)).
    { destruct Hdiv as [o Ho]. exists o. unfold d. cbn [units cond_Zopp].
      rewrite Ho, <- Z.mul_assoc, <- (pow2_split z (ed + 1074)) by lia.
      f_equal. f_equal. lia. }
    assert (Hxlt : units x < 2 ^ (53 + (ed + z + 1074))).
    { unfold x. cbn [units cond_Zopp].
      assert (2 ^ (53 + (e + 1074)) <= 2 ^ (53 + (ed + z + 1074)))
        by (apply Z.pow_le_mono_r; lia).
      rewrite (pow2_split 53 (e + 1074)) in H by lia.
      pose proof (pow2_pos (e + 1074) ltac:(lia)). nia. }
    assert (Hdlo : 2 ^ (52 + (ed + 1074)) <= units d).
    { unfold d. cbn [units cond_Zopp]. rewrite (pow2_split 52 (ed + 1074)) by lia.
      pose proof (pow2_pos (ed + 1074) ltac:(lia)). nia. }
    assert (Hkd : k * units d <= units x) by lia.
    assert (Hk : 0 < k < 2 ^ 53).
    { split; [lia |].
      assert (k < 2 ^ (z + 1)).
      { replace (53 + (ed + z + 1074)) with ((z + 1) + (52 + (ed + 1074))) in Hxlt by lia.
        rewrite (pow2_split (z + 1) (52 + (ed + 1074))) in Hxlt by lia.
        pose proof (pow2_pos (z + 1) ltac:(lia)). nia. }
      assert (2 ^ (z + 1) <= 2 ^ 53) by (apply Z.pow_le_mono_r; lia). lia. }
    destruct (of_Z_exact k Hk) as (Fk & Vk & Uk).
    destruct (finite_with_sign_nonneg _ Fk) as (Nk & Ik).
    unfold int_mul_float, float_of_int. rewrite Ik. cbn [bind].
    destruct (mul_exact (of_Z k) d (k * units d) (ed + z + 1074))
      as (Fm & Vm & Um); try assumption; try lia.
    + reflexivity.
    + pose proof (expo_lower (of_Z k) Vk). rewrite Uk in H.
      pose proof (pow2_pos 1074 ltac:(lia)). assert (-52 <= expo (of_Z k)) by (apply H; nia). lia.
    + unfold d at 1. cbn [expo]. lia.
    + pose proof (expo_lower (of_Z k) Vk). rewrite Uk in H.
      pose proof (pow2_pos 1074 ltac:(lia)). assert (-52 <= expo (of_Z k)) by (apply H; nia).
      unfold d at 1. cbn [expo]. lia.
    + apply Z.divide_mul_r. assumption.
    + destruct (finite_with_sign_nonneg _ Fm) as (Nm & _).
      destruct (sub_exact x (mul (of_Z k) d)) as (Nr & Vr & Ur); try assumption.
      * lia.
      * rewrite Um. apply Z.divide_mul_r.
        apply (Z.divide_trans _ (2 ^ (ed + z + 1074))); [| assumption].
        unfold x. cbn [expo].
        exists (2 ^ (ed + z - e)).
        rewrite <- (pow2_split (ed + z - e) (e + 1074)) by lia. f_equal. lia.
      * exists (sub x (mul (of_Z k) d)). repeat split; try assumption.
        rewrite Ur, Um. lia.
Qed.

Lemma second_pos : 0 < second.
Proof. apply pow2_pos. lia. Qed.

Lemma units_seconds_per_year : units seconds_per_year = 31557600 * second.
Proof. vm_compute. reflexivity. Qed.

Lemma units_seconds_per_day : units seconds_per_day = 86400 * second.
Proof. vm_compute. reflexivity. Qed.

Lemma units_seconds_per_hour : units seconds_per_hour = 3600 * second.
Proof. vm_compute. reflexivity. Qed.

Lemma units_seconds_per_minute : units seconds_per_minute = 60 * second.
Proof. vm_compute. reflexivity. Qed.

Lemma seconds_per_year_ok : divisor_ok seconds_per_year 33.
Proof.
  exists 8471178746265600%positive, (-28).
  split; [reflexivity |]. split; [reflexivity |]. split; [lia |].
  split; [lia |]. split.
  - exists 986175. reflexivity.
  - apply Z.leb_le. vm_compute. reflexivity.
Qed.

Lemma take_years (x : f64) :
  valid x = true -> nonneg_finite x = true -> expo x <= 5 ->
  exists r,
    take_unit x seconds_per_year = Ok (units x / (31557600 * second), r)
    /\ valid r = true /\ nonneg_finite r = true
    /\ units r = units x mod (31557600 * second).
Proof.
  intros V N H. rewrite <- units_seconds_per_year.
  apply (take_unit_exact seconds_per_year 33); try assumption.
  apply seconds_per_year_ok.
Qed.

Lemma seconds_per_day_ok : divisor_ok seconds_per_day 43.
Proof.
  exists 5937362789990400%positive, (-36).
  split; [reflexivity |]. split; [reflexivity |]. split; [lia |].
  split; [lia |]. split.
  - exists 675. reflexivity.
  - apply Z.leb_le. vm_compute. reflexivity.
Qed.

Lemma take_days (x : f64) :
  valid x = true -> nonneg_finite x = true -> expo x <= 7 ->
  exists r,
    take_unit x seconds_per_day = Ok (units x / (86400 * second), r)
    /\ valid r = true /\ nonneg_finite r = true
    /\ units r = units x mod (86400 * second).
Proof.
  intros V N H. rewrite <- units_seconds_per_day.
  apply (take_unit_exact seconds_per_day 43); try assumption.
  apply seconds_per_day_ok.
Qed.

Lemma seconds_per_hour_ok : divisor_ok seconds_per_hour 45.
Proof.
  exists 7916483719987200%positive, (-41).
  split; [reflexivity |]. split; [reflexivity |]. split; [lia |].
  split; [lia |]. split.
  - exists 225. reflexivity.
  - apply Z.leb_le. vm_compute. reflexivity.
Qed.

Lemma take_hours (x : f64) :
  valid x = true -> nonneg_finite x = true -> expo x <= 4 ->
  exists r,
    take_unit x seconds_per_hour = Ok (units x / (3600 * second), r)
    /\ valid r = true /\ nonneg_finite r = true
    /\ units r = units x mod (3600 * second).
Proof.
  intros V N H. rewrite <- units_seconds_per_hour.
  apply (take_unit_exact seconds_per_hour 45); try assumption.
  apply seconds_per_hour_ok.
Qed.

Lemma seconds_per_minute_ok : divisor_ok seconds_per_minute 49.
Proof.
  exists 8444249301319680%positive, (-47).
  split; [reflexivity |]. split; [reflexivity |]. split; [lia |].
  split; [lia |]. split.
  - exists 15. reflexivity.
  - apply Z.leb_le. vm_compute. reflexivity.
Qed.

Lemma take_minutes (x : f64) :
  valid x = true -> nonneg_finite x = true -> expo x <= 2 ->
  exists r,
    take_unit x seconds_per_minute = Ok (units x / (60 * second), r)
    /\ valid r = true /\ nonneg_finite r = true
    /\ units r = units x mod (60 * second).
Proof.
  intros V N H. rewrite <- units_seconds_per_minute.
  apply (take_unit_exact seconds_per_minute 49); try assumption.
  apply seconds_per_minute_ok.
Qed.

(** A nonnegative double below [2^t] seconds has exponent at most
    [t - 53]. *)
Lemma expo_below (x : f64) (t : Z) :
  valid x = true -> nonneg_finite x = true -> 0 <= t ->
  units x < 2 ^ t * second -> expo x <= Z.max (t - 53) (-1074).
Proof.
  intros V N Ht H. pose proof (units_nonneg x N).
  pose proof (expo_upper x (t + 1074) V ltac:(lia)) as E.
  rewrite (pow2_split t 1074) in E by lia. fold second in E.
  rewrite Z.abs_eq in E by lia. specialize (E H). lia.
Qed.

(** The conversion is exact below [2^58] seconds: every count is the
    integer part of the exact quotient and every remainder is the exact
    remainder. *)
Lemma convert_exact (x : f64) :
  valid x = true -> nonneg_finite x = true -> units x < 2 ^ 58 * second ->
  exists r1 r2 r3 r4,
    convert x = Ok ((units x / (31557600 * second), r1),
                    (units r1 / (86400 * second), r2),
                    (units r2 / (3600 * second), r3),
                    (units r3 / (60 * second), r4))
    /\ (valid r1 = true /\ nonneg_finite r1 = true
        /\ units r1 = units x mod (31557600 * second))
    /\ (valid r2 = true /\ nonneg_finite r2 = true
        /\ units r2 = units r1 mod (86400 * second))
    /\ (valid r3 = true /\ nonneg_finite r3 = true
        /\ units r3 = units r2 mod (3600 * second))
    /\ (valid r4 = true /\ nonneg_finite r4 = true
        /\ units r4 = units r3 mod (60 * second)).
Proof.
  intros V N H. pose proof second_pos as Hs.
  destruct (take_years x V N) as (r1 & E1 & V1 & N1 & U1).
  { pose proof (expo_below x 58 V N ltac:(lia) H). lia. }
  assert (B1 : units r1 < 2 ^ 25 * second).
  { rewrite U1. pose proof (Z.mod_pos_bound (units x) (31557600 * second) ltac:(lia)).
    change (2 ^ 25) with 33554432. lia. }
  destruct (take_days r1 V1 N1) as (r2 & E2 & V2 & N2 & U2).
  { pose proof (expo_below r1 25 V1 N1 ltac:(lia) B1). lia. }
  assert (B2 : units r2 < 2 ^ 17 * second).
  { rewrite U2. pose proof (Z.mod_pos_bound (units r1) (86400 * second) ltac:(lia)).
    change (2 ^ 17) with 131072. lia. }
  destruct (take_hours r2 V2 N2) as (r3 & E3 & V3 & N3 & U3).
  { pose proof (expo_below r2 17 V2 N2 ltac:(lia) B2). lia. }
  assert (B3 : units r3 < 2 ^ 12 * second).
  { rewrite U3. pose proof (Z.mod_pos_bound (units r2) (3600 * second) ltac:(lia)).
    change (2 ^ 12) with 4096. lia. }
  destruct (take_minutes r3 V3 N3) as (r4 & E4 & V4 & N4 & U4).
  { pose proof (expo_below r3 12 V3 N3 ltac:(lia) B3). lia. }
  exists r1, r2, r3, r4. unfold convert.
  rewrite E1. cbn [bind snd]. rewrite E2. cbn [bind snd].
  rewrite E3. cbn [bind snd]. rewrite E4. cbn [bind snd].
  repeat split; assumption.
Qed.

(** ** Exact values *)

Lemma second_to_pos : Z.pos (Z.to_pos second) = second.
Proof. apply Z2Pos.id, second_pos. Qed.

Lemma to_Q_units (x : f64) :
  -1074 <= expo x -> (to_Q x == Qmake (units x) (Z.to_pos second))%Q.
Proof.
  destruct x as [s | s | | s m e]; cbn [expo to_Q units]; intros He;
    try (unfold Qeq; cbn [Qnum Qden]; lia).
  unfold Qeq. destruct (Z.leb_spec 0 e) as [H0 | H0]; cbn [Qnum Qden inject_Z];
    rewrite second_to_pos; unfold second.
  - rewrite (pow2_split e 1074) by lia. destruct s; cbn [cond_Zopp]; ring.
  - rewrite Pos2Z.inj_pow, Z2Pos.id by lia.
    replace 1074 with ((e + 1074) + (- e)) at 1 by lia.
    rewrite (pow2_split (e + 1074) (- e)) by lia.
    destruct s; cbn [cond_Zopp]; ring.
Qed.

Lemma valid_expo (x : f64) : valid x = true -> -1074 <= expo x.
Proof.
  destruct x as [| | | s m e]; cbn [expo]; try lia.
  intros V. apply valid_finite in V. lia.
Qed.

Lemma to_Q_lt_units (x : f64) (n : Z) :
  -1074 <= expo x -> (to_Q x < inject_Z n)%Q <-> units x < n * second.
Proof.
  intros He. rewrite (to_Q_units x He). unfold Qlt. cbn [Qnum Qden inject_Z].
  rewrite second_to_pos. lia.
Qed.

Lemma to_Q_le_units (x : f64) (n : Z) :
  -1074 <= expo x -> (inject_Z n <= to_Q x)%Q <-> n * second <= units x.
Proof.
  intros He. rewrite (to_Q_units x He). unfold Qle. cbn [Qnum Qden inject_Z].
  rewrite second_to_pos. lia.
Qed.

Lemma recon_Q (Y D H M u4 ux : Z) (p : positive) :
  ux = (31557600 * Y + 86400 * D + 3600 * H + 60 * M) * Z.pos p + u4 ->
  (inject_Z Y * 31557600 + inject_Z D * 86400 + inject_Z H * 3600
   + inject_Z M * 60 + (u4 # p) == ux # p)%Q.
Proof.
  intros ->. unfold Qeq, Qplus, Qmult, inject_Z. cbn [Qnum Qden].
  rewrite ?Pos.mul_1_l, ?Pos.mul_1_r. ring.
Qed.

Lemma breakdown_exact (x : f64) :
  valid x = true -> nonneg_finite x = true -> units x < 2 ^ 58 * second ->
  exists r1 r2 r3 r4,
    convert x = Ok ((units x / (31557600 * second), r1),
                    (units r1 / (86400 * second), r2),
                    (units r2 / (3600 * second), r3),
                    (units r3 / (60 * second), r4))
    /\ breakdown x = Ok {| years := units x / (31557600 * second);
                           days := units r1 / (86400 * second);
                           hours := units r2 / (3600 * second);
                           minutes := units r3 / (60 * second);
                           seconds := r4 |}
    /\ (valid r1 = true /\ nonneg_finite r1 = true
        /\ units r1 = units x mod (31557600 * second))
    /\ (valid r2 = true /\ nonneg_finite r2 = true
        /\ units r2 = units r1 mod (86400 * second))
    /\ (valid r3 = true /\ nonneg_finite r3 = true
        /\ units r3 = units r2 mod (3600 * second))
    /\ (valid r4 = true /\ nonneg_finite r4 = true
        /\ units r4 = units r3 mod (60 * second)).
Proof.
  intros V N H.
  destruct (convert_exact x V N H) as (r1 & r2 & r3 & r4 & E & H1 & H2 & H3 & H4).
  exists r1, r2, r3, r4. split; [exact E |]. split.
  - unfold breakdown. rewrite E. reflexivity.
  - auto.
Qed.

(** *** The greedy contract *)

Lemma take_unit_inv (r d : f64) (k : Z) (r' : f64) :
  take_unit r d = Ok (k, r') ->
  k = trunc (div r d) /\ r' = sub r (mul (of_Z k) d).
Proof.
  unfold take_unit, truediv, int_mul_float, float_of_int.
  destruct (is_zero d); cbn [bind]; [discriminate |].
  destruct (div r d) as [s | s | | s m e] eqn:E; cbn [int_of_float bind];
    try discriminate.
  - destruct (is_finite (of_Z (trunc (S754_zero s)))); cbn [bind]; [| discriminate].
    intros H. inversion H. auto.
  - destruct (is_finite (of_Z (trunc (S754_finite s m e)))); cbn [bind]; [| discriminate].
    intros H. inversion H. auto.
Qed.

Lemma floor_trunc_nonneg (x : f64) : sign_bit x = false -> floor x = trunc x.
Proof.
  destruct x as [s | s | | s m e]; cbn [sign_bit floor trunc]; try reflexivity.
  intros ->. cbn [cond_Zopp]. destruct (0 <=? e); reflexivity.
Qed.

Lemma rounded_sign (s : bool) (N D mx ex : Z) :
  0 <= N -> 0 < D -> sign_bit (rounded s N D mx ex) = s.
Proof.
  intros HN HD. unfold rounded.
  set (n1 := Z.max 0 _). set (m1 := rne N (D * 2 ^ n1)).
  set (n2 := Z.max 0 _).
  assert (0 <= m1).
  { apply rne_nonneg; [assumption |].
    apply Z.mul_pos_pos; [lia | apply pow2_pos; unfold n1; lia]. }
  assert (0 <= m1 / 2 ^ n2) by (apply Z.div_pos; [lia | apply pow2_pos; unfold n2; lia]).
  destruct (m1 / 2 ^ n2) as [| p | p]; try lia; cbn [sign_bit]; try reflexivity.
  destruct (_ <=? _); reflexivity.
Qed.

Lemma div_sign_nonneg (r d : f64) :
  nonneg_finite r = true -> nonneg_finite d = true -> sign_bit (div r d) = false.
Proof.
  destruct r as [[|] | | | [|] m1 e1]; try discriminate;
    destruct d as [[|] | | | [|] m2 e2]; try discriminate; intros _ _;
    try reflexivity.
  rewrite div_rounded. apply rounded_sign.
  - apply Z.mul_nonneg_nonneg; [lia | apply Z.pow_nonneg; lia].
  - lia.
Qed.

Lemma spec_divisors_eq :
  spec_divisors
  = [seconds_per_year; seconds_per_day; seconds_per_hour; seconds_per_minute].
Proof. vm_compute. reflexivity. Qed.

(** Whatever the input, a breakdown that is returned is the greedy
    extraction with counts truncated toward zero. *)
Lemma breakdown_greedy_trunc (x : f64) (b : DurationBreakdown) :
  breakdown x = Ok b -> greedy trunc x spec_divisors = (counts b, seconds b).
Proof.
  unfold breakdown, convert. rewrite spec_divisors_eq.
  destruct (take_unit x seconds_per_year) as [[k1 r1] |] eqn:E1; cbn [bind snd fst];
    [| discriminate].
  destruct (take_unit r1 seconds_per_day) as [[k2 r2] |] eqn:E2; cbn [bind snd fst];
    [| discriminate].
  destruct (take_unit r2 seconds_per_hour) as [[k3 r3] |] eqn:E3; cbn [bind snd fst];
    [| discriminate].
  destruct (take_unit r3 seconds_per_minute) as [[k4 r4] |] eqn:E4; cbn [bind snd fst];
    [| discriminate].
  intros H. inversion H. subst b. clear H.
  apply take_unit_inv in E1, E2, E3, E4.
  destruct E1 as [K1 R1], E2 as [K2 R2], E3 as [K3 R3], E4 as [K4 R4].
  cbn [greedy counts years days hours minutes seconds].
  rewrite <- K1, <- R1, <- K2, <- R2, <- K3, <- R3, <- K4, <- R4. reflexivity.
Qed.

(** ** More on rounding to nearest *)

Lemma rne_half_up (N D : Z) : 0 < D -> 2 * (rne N D * D) <= 2 * N + D.
Proof.
  intros HD. unfold rne.
  pose proof (Z.div_mod N D ltac:(lia)) as E.
  pose proof (Z.mod_pos_bound N D HD) as B.
  destruct (Z.compare_spec (2 * (N mod D)) D); [destruct (Z.even (N / D)) | |]; nia.
Qed.

Lemma rne_le_grid (N D B : Z) :
  0 < D -> N <= B -> (D | B) -> rne N D * D <= B.
Proof.
  intros HD HN [b Hb]. subst B.
  pose proof (rne_bounds N D HD) as [_ Hub].
  pose proof (Z.div_mod N D ltac:(lia)) as E.
  pose proof (Z.mod_pos_bound N D HD) as Bd.
  assert (N / D <= b) by (apply Z.div_le_upper_bound; lia).
  destruct (Z.eq_dec (N / D) b) as [Eq | Ne].
  - assert (N mod D = 0) by nia.
    unfold rne. rewrite H0. destruct (Z.compare_spec (2 * 0) D); nia.
  - nia.
Qed.

Lemma rne_scale (N D c : Z) : 0 < D -> 0 < c -> rne (N * c) (D * c) = rne N D.
Proof.
  intros HD Hc. unfold rne.
  rewrite Z.div_mul_cancel_r by lia.
  rewrite Zmult_mod_distr_r.
  replace (2 * (N mod D * c)) with (2 * (N mod D) * c) by ring.
  rewrite <- Zmult_compare_compat_r by lia.
  reflexivity.
Qed.

Lemma rne_ge_floor_grid (N D B : Z) :
  0 < D -> B <= N -> (D | B) -> B <= rne N D * D.
Proof.
  intros HD HN [b Hb]. subst B.
  pose proof (rne_bounds N D HD) as [Hlb _].
  assert (b <= N / D) by (apply Z.div_le_lower_bound; lia).
  nia.
Qed.

(** The exponent of a valid finite double is determined by its value. *)
Lemma valid_units_expo (x : f64) :
  valid x = true -> finite_with_sign false x ->
  expo x = Z.max 0 (Zdigits2 (units x) - 53) - 1074.
Proof.
  destruct x as [| | | s m e]; cbn [finite_with_sign]; try contradiction.
  intros V ->. cbn [expo units cond_Zopp].
  pose proof (valid_finite _ _ _ V) as (He & _).
  rewrite Zdigits2_mul_pow2 by lia.
  unfold valid, valid_binary, bounded, canonical_mantissa in V.
  apply andb_true_iff in V. destruct V as [Hc _]. apply Z.eqb_eq in Hc.
  change (Z.pos (digits2_pos m)) with (Zdigits2 (Z.pos m)) in Hc.
  rewrite fexp_eq in Hc. lia.
Qed.

(** Rounding a positive value [V] (in units of [2^-1074]) to a double:
    the result is [V] rounded to nearest on the grid of step [2^K], where
    [K] counts the bits of [V] beyond the 53 that fit. *)
Lemma round_units (S : positive) (ez V : Z) :
  -1074 <= ez -> V = Z.pos S * 2 ^ (ez + 1074) ->
  let K := Z.max 0 (Zdigits2 V - 53) in
  K <= 2044 ->
  let r := binary_round prec emax false S ez in
  finite_with_sign false r
  /\ units r = rne V (2 ^ K) * 2 ^ K
  /\ K - 1074 <= expo r <= K - 1073.
Proof.
  intros Hez HV K HK r.
  pose proof (pow2_pos (ez + 1074) ltac:(lia)) as Hpz.
  assert (HVpos : 0 < V) by (rewrite HV; nia).
  assert (HdV : Zdigits2 V = Zdigits2 (Z.pos S) + (ez + 1074)).
  { rewrite HV. apply Zdigits2_mul_pow2; lia. }
  assert (HK0 : 0 <= K) by (unfold K; lia).
  pose proof (pow2_pos K HK0) as HpK.
  pose proof (Zdigits2_bounds V HVpos) as [HVlo HVhi].
  set (e' := fexp prec emax (Zdigits2 (Z.pos S) + ez)).
  assert (He' : e' = K - 1074) by (unfold e', K; rewrite fexp_eq; lia).
  destruct (Z_le_gt_dec e' ez) as [Hle | Hgt].
  - (* the value fits: no rounding *)
    assert (Hdiv : (2 ^ K | V)).
    { exists (Z.pos S * 2 ^ (ez + 1074 - K)). rewrite HV, <- Z.mul_assoc.
      rewrite <- (pow2_split (ez + 1074 - K) K) by lia. f_equal. f_equal. lia. }
    destruct (binary_round_exact false S ez V K) as (Hf & Hv & Hu);
      try assumption; try lia.
    + assert (2 ^ Zdigits2 V <= 2 ^ (53 + K))
        by (apply Z.pow_le_mono_r; lia).
      lia.
    + fold r in Hf, Hv, Hu. cbn [cond_Zopp] in Hu.
      split; [assumption |]. split.
      * rewrite Hu. destruct Hdiv as [c Hc].
        rewrite (rne_exact V (2 ^ K) c HpK Hc). lia.
      * rewrite (valid_units_expo r Hv Hf), Hu. fold K. lia.
  - (* rounding *)
    assert (HKpos : ez + 1074 < K) by lia.
    unfold r, binary_round, shl_align.
    change (Z.pos (digits2_pos S)) with (Zdigits2 (Z.pos S)). fold e'.
    destruct (e' - ez) as [| d | d] eqn:Ed; try lia.
    rewrite (binary_round_aux_rounded false (Z.pos S) 1)
      by (try lia; apply holds_exact).
    unfold rounded. fold e'. rewrite Ed.
    replace (Z.max 0 (Z.pos d)) with (K - (ez + 1074)) by lia.
    rewrite Z.mul_1_l.
    set (n1 := K - (ez + 1074)).
    pose proof (pow2_pos n1 ltac:(unfold n1; lia)) as Hpn1.
    assert (Hm1 : rne (Z.pos S) (2 ^ n1) = rne V (2 ^ K)).
    { assert (HK2 : 2 ^ K = 2 ^ n1 * 2 ^ (ez + 1074)).
      { rewrite <- (pow2_split n1 (ez + 1074)) by (unfold n1; lia).
        f_equal. unfold n1. lia. }
      rewrite HV, HK2. symmetry. apply rne_scale; lia. }
    rewrite Hm1. set (m1 := rne V (2 ^ K)).
    replace (ez + n1) with (K - 1074) by (unfold n1; lia).
    (* the rounded mantissa has 53 bits, or is 2^53 *)
    assert (HKd : K = Zdigits2 V - 53) by (unfold K; lia).
    assert (Hlo : 2 ^ 52 <= m1).
    { assert (2 ^ 52 * 2 ^ K <= m1 * 2 ^ K); [| nia].
      apply rne_ge_floor_grid; try lia.
      - rewrite <- (pow2_split 52 K) by lia.
        replace (52 + K) with (Zdigits2 V - 1) by lia. assumption.
      - exists (2 ^ 52). reflexivity. }
    assert (Hhi : m1 <= 2 ^ 53).
    { assert (m1 * 2 ^ K <= 2 ^ 53 * 2 ^ K); [| nia].
      apply rne_le_grid; try lia.
      - rewrite <- (pow2_split 53 K) by lia.
        replace (53 + K) with (Zdigits2 V) by lia. lia.
      - exists (2 ^ 53). reflexivity. }
    destruct (Z.eq_dec m1 (2 ^ 53)) as [Etop | Ntop].
    + rewrite Etop.
      replace (Zdigits2 (2 ^ 53)) with 54 by reflexivity.
      rewrite fexp_eq.
      replace (Z.max 0 (Z.max (54 + (K - 1074) - 53) (-1074) - (K - 1074))) with 1 by lia.
      change (2 ^ 53 / 2 ^ 1) with (Z.pos 4503599627370496).
      assert (Hb : (K - 1074 + 1 <=? emax - prec) = true)
        by (apply Z.leb_le; unfold emax, prec; lia).
      rewrite Hb. cbn [finite_with_sign units cond_Zopp expo].
      split; [reflexivity |]. split; [| lia].
      replace (K - 1074 + 1 + 1074) with (1 + K) by lia.
      rewrite (pow2_split 1 K) by lia.
      change (Z.pos 4503599627370496) with (2 ^ 52). change (2 ^ 53) with (2 ^ 52 * 2 ^ 1).
      ring.
    + assert (Hd53 : Zdigits2 m1 = 53).
      { apply Zdigits2_unique; [| lia]. change (2 ^ (53 - 1)) with (2 ^ 52). lia. }
      rewrite Hd53, fexp_eq.
      replace (Z.max 0 (Z.max (53 + (K - 1074) - 53) (-1074) - (K - 1074))) with 0 by lia.
      rewrite Z.pow_0_r, Z.div_1_r, Z.add_0_r.
      destruct m1 as [| p | p] eqn:Em; try lia.
      assert (Hb : (K - 1074 <=? emax - prec) = true)
        by (apply Z.leb_le; unfold emax, prec; lia).
      rewrite Hb. cbn [finite_with_sign units cond_Zopp expo].
      split; [reflexivity |]. split; [| lia].
      f_equal. f_equal. lia.
Qed.

(** [x * sys.float_info.epsilon]: the value of [x] divided by [2^52],
    rounded to a whole number of units when it underflows. *)
Lemma mul_epsilon_units (m : positive) (e : Z) :
  valid (S754_finite false m e) = true ->
  let t := mul (S754_finite false m e) float_info_epsilon in
  nonneg_finite t = true /\ -1074 <= expo t
  /\ units t = rne (units (S754_finite false m e)) (2 ^ 52).
Proof.
  intros V t. pose proof (valid_finite _ _ _ V) as (He & Hm & Hn).
  unfold t, mul, SFmul, float_info_epsilon. cbn [xorb].
  rewrite (binary_round_aux_rounded false (Z.pos (m * 4503599627370496)) 1)
    by (try lia; apply holds_exact).
  rewrite Pos2Z.inj_mul. change (Z.pos 4503599627370496) with (2 ^ 52).
  cbn [units cond_Zopp].
  unfold rounded. rewrite Zdigits2_mul_pow2, fexp_eq, Z.mul_1_l by lia.
  pose proof (pow2_pos (e + 1074) ltac:(lia)) as Hg.
  destruct (Z_le_gt_dec (-1022) e) as [Hbig | Hsmall].
  - (* the product is a normal double *)
    specialize (Hn ltac:(lia)).
    rewrite (valid_digits _ _ _ V) by lia.
    replace (Z.max 0 (Z.max (53 + 52 + (e + -104) - 53) (-1074) - (e + -104)))
      with 52 by lia.
    rewrite (rne_exact (Z.pos m * 2 ^ 52) (2 ^ 52) (Z.pos m)) by lia.
    rewrite (valid_digits _ _ _ V), fexp_eq by lia.
    replace (Z.max 0 (Z.max (53 + (e + -104 + 52) - 53) (-1074) - (e + -104 + 52)))
      with 0 by lia.
    rewrite Z.pow_0_r, Z.div_1_r, Z.add_0_r.
    assert (Hb : (e + -104 + 52 <=? emax - prec) = true)
      by (apply Z.leb_le; unfold emax, prec; lia).
    rewrite Hb. cbn [nonneg_finite expo units cond_Zopp].
    split; [reflexivity |]. split; [lia |].
    symmetry. apply rne_exact; [lia |].
    replace (e + 1074) with ((e + -104 + 52 + 1074) + 52) by lia.
    rewrite (pow2_split (e + -104 + 52 + 1074) 52) by lia. ring.
  - (* the product underflows *)
    pose proof (Zdigits2_bounds (Z.pos m) ltac:(lia)) as [Hdlo Hdhi].
    assert (Hdg : 1 <= Zdigits2 (Z.pos m) <= 53).
    { split; [simpl; lia |]. apply Zdigits2_le; lia. }
    replace (Z.max 0 (Z.max (Zdigits2 (Z.pos m) + 52 + (e + -104) - 53) (-1074)
                      - (e + -104)))
      with (-970 - e) by lia.
    set (c := 2 ^ (-1022 - e)).
    assert (Hc : 0 < c) by (apply pow2_pos; lia).
    assert (Hm1 : rne (Z.pos m * 2 ^ 52) (2 ^ (-970 - e))
                  = rne (Z.pos m * 2 ^ (e + 1074)) (2 ^ 52)).
    { assert (E1 : 2 ^ 52 = 2 ^ (e + 1074) * c).
      { unfold c. rewrite <- (pow2_split (e + 1074) (-1022 - e)) by lia.
        f_equal. lia. }
      assert (E2 : 2 ^ (-970 - e) = 2 ^ 52 * c).
      { unfold c. rewrite <- (pow2_split 52 (-1022 - e)) by lia. f_equal. lia. }
      rewrite E2. rewrite E1 at 1. rewrite Z.mul_assoc.
      apply rne_scale; lia. }
    rewrite Hm1. set (m1 := rne (Z.pos m * 2 ^ (e + 1074)) (2 ^ 52)).
    assert (H0 : 0 <= m1) by (apply rne_nonneg; lia).
    assert (Hle : m1 <= 2 ^ 52).
    { assert (m1 * 2 ^ 52 <= 2 ^ 52 * 2 ^ 52); [| lia].
      apply rne_le_grid; try lia.
      - assert (2 ^ (e + 1074) <= 2 ^ 51) by (apply Z.pow_le_mono_r; lia).
        change (2 ^ 52 * 2 ^ 52) with (2 ^ 53 * 2 ^ 51). nia.
      - exists (2 ^ 52). reflexivity. }
    assert (Hd1 : Zdigits2 m1 <= 53) by (apply Zdigits2_le; lia).
    pose proof (Zdigits2_nonneg m1).
    replace (e + -104 + (-970 - e)) with (-1074) by lia.
    rewrite fexp_eq.
    replace (Z.max 0 (Z.max (Zdigits2 m1 + -1074 - 53) (-1074) - -1074)) with 0 by lia.
    rewrite Z.pow_0_r, Z.div_1_r, Z.add_0_r.
    destruct m1 as [| p | p] eqn:Em; try lia.
    + cbn [nonneg_finite expo units]. repeat split; lia.
    + change (-1074 <=? emax - prec) with true.
      cbn [nonneg_finite expo units cond_Zopp]. repeat split; try lia.
Qed.

(** Addition and subtraction round the exact sum or difference. *)
Lemma add_as_round (ma mb : positive) (ea eb : Z) :
  -1074 <= ea -> -1074 <= eb ->
  exists S,
    add (S754_finite false ma ea) (S754_finite false mb eb)
    = binary_round prec emax false S (Z.min ea eb)
    /\ Z.pos S * 2 ^ (Z.min ea eb + 1074)
       = units (S754_finite false ma ea) + units (S754_finite false mb eb).
Proof.
  intros Ha Hb. unfold add, SFadd. cbn [cond_Zopp units].
  set (ez := Z.min ea eb). rewrite !shl_align_fst by lia.
  pose proof (pow2_pos (ea - ez) ltac:(lia)). pose proof (pow2_pos (eb - ez) ltac:(lia)).
  destruct (Z.pos ma * 2 ^ (ea - ez) + Z.pos mb * 2 ^ (eb - ez)) as [| S | S] eqn:E;
    try nia.
  exists S. split; [reflexivity |].
  rewrite <- E, Z.mul_add_distr_r, <- !Z.mul_assoc.
  rewrite <- (pow2_split (ea - ez) (ez + 1074)), <- (pow2_split (eb - ez) (ez + 1074)) by lia.
  do 2 f_equal; f_equal; lia.
Qed.

Lemma sub_cases (ma mb : positive) (ea eb : Z) :
  -1074 <= ea -> -1074 <= eb ->
  let a := S754_finite false ma ea in
  let b := S754_finite false mb eb in
  (units a < units b /\ sign_bit (sub a b) = true)
  \/ (units a = units b /\ sub a b = S754_zero false)
  \/ (exists S, sub a b = binary_round prec emax false S (Z.min ea eb)
                /\ Z.pos S * 2 ^ (Z.min ea eb + 1074) = units a - units b).
Proof.
  intros Ha Hb a b. unfold a, b, sub, SFsub. cbn [cond_Zopp units].
  set (ez := Z.min ea eb). rewrite !shl_align_fst by lia.
  pose proof (pow2_pos (ea - ez) ltac:(lia)). pose proof (pow2_pos (eb - ez) ltac:(lia)).
  pose proof (pow2_pos (ez + 1074) ltac:(lia)) as Hz.
  assert (EA : Z.pos ma * 2 ^ (ea + 1074) = Z.pos ma * 2 ^ (ea - ez) * 2 ^ (ez + 1074)).
  { rewrite <- Z.mul_assoc, <- (pow2_split (ea - ez) (ez + 1074)) by lia.
    do 2 f_equal. lia. }
  assert (EB : Z.pos mb * 2 ^ (eb + 1074) = Z.pos mb * 2 ^ (eb - ez) * 2 ^ (ez + 1074)).
  { rewrite <- Z.mul_assoc, <- (pow2_split (eb - ez) (ez + 1074)) by lia.
    do 2 f_equal. lia. }
  rewrite EA, EB.
  set (A := Z.pos ma * 2 ^ (ea - ez)). set (B := Z.pos mb * 2 ^ (eb - ez)).
  destruct (A - B) as [| S | S] eqn:E.
  - right. left. split; [| reflexivity]. assert (A = B) by lia. subst A. nia.
  - right. right. exists S. split; [reflexivity |]. nia.
  - left. split; [nia |].
    unfold binary_normalize, binary_round.
    destruct (shl_align S ez _) as [mz ez'].
    rewrite (binary_round_aux_rounded true (Z.pos mz) 1)
      by (try lia; apply holds_exact).
    apply rounded_sign; lia.
Qed.

(** The arithmetic behind the measured spacing: [X] is the value of a
    double with mantissa [m] and exponent [e], at most [x_max], and [N]
    is [X + X / 2^52] after the two roundings. *)
Lemma spacing_arith (m e X T V K N : Z) :
  0 < m < 2 ^ 53 -> -1074 <= e -> (-1074 < e -> 2 ^ 52 <= m) ->
  X = m * 2 ^ (e + 1074) -> X <= 5764607523034235 * 2 ^ 1067 ->
  T = rne X (2 ^ 52) -> V = X + T -> K = Z.max 0 (Zdigits2 V - 53) ->
  N = rne V (2 ^ K) * 2 ^ K ->
  K <= 1068 /\ 0 < V /\ N - X <= 2 ^ 1067.
Proof.
  intros Hm He Hn EX Hmax ET0 EV EK EN.
  pose proof (pow2_pos (e + 1074) ltac:(lia)) as Hg.
  remember (2 ^ (e + 1074)) as g eqn:Eg0.
  assert (HX : 0 < X) by nia.
  pose proof (rne_half_up X (2 ^ 52) ltac:(lia)) as HT. rewrite <- ET0 in HT.
  pose proof (rne_nonneg X (2 ^ 52) ltac:(lia) ltac:(lia)) as HT0. rewrite <- ET0 in HT0.
  assert (HV : 0 < V) by lia.
  assert (HK0 : 0 <= K) by lia.
  pose proof (pow2_pos K HK0) as HpK.
  pose proof (rne_half_up V (2 ^ K) HpK) as HN. rewrite <- EN in HN.
  destruct (Z_le_gt_dec (-1022) e) as [Hbig | Hsmall].
  - (* normal doubles: the product with epsilon is exact *)
    specialize (Hn ltac:(lia)).
    pose proof (pow2_pos (e + 1022) ltac:(lia)) as Hh.
    assert (Eg : g = 2 ^ 52 * 2 ^ (e + 1022)).
    { rewrite Eg0, <- (pow2_split 52 (e + 1022)) by lia. f_equal. lia. }
    remember (2 ^ (e + 1022)) as h eqn:Eh0.
    assert (ET : T = m * h).
    { rewrite ET0. apply rne_exact; [lia |]. rewrite EX, Eg. ring. }
    assert (Ee : e <= -7).
    { destruct (Z_le_gt_dec e (-7)) as [? | Hgt]; [assumption | exfalso].
      assert (2 ^ 1068 <= g) by (rewrite Eg0; apply Z.pow_le_mono_r; lia).
      change (2 ^ 1068) with (2 * 2 ^ 1067) in H.
      pose proof (pow2_pos 1067 ltac:(lia)).
      change (2 ^ 52) with 4503599627370496 in Hn.
      assert (4503599627370496 * g <= m * g)
        by (apply Z.mul_le_mono_nonneg_r; lia).
      clear - H H0 H1 EX Hmax. lia. }
    assert (HVlo : 2 ^ (53 + (e + 1074) - 1) <= V).
    { replace (53 + (e + 1074) - 1) with (52 + (e + 1074)) by lia.
      rewrite (pow2_split 52 (e + 1074)), <- Eg0 by lia. nia. }
    assert (HVhi : V < 2 ^ (54 + (e + 1074))).
    { rewrite (pow2_split 54 (e + 1074)), <- Eg0 by lia.
      rewrite EV, ET, EX, Eg.
      change (2 ^ 54) with (2 * 2 ^ 53). nia. }
    assert (HdV : 53 + (e + 1074) <= Zdigits2 V <= 54 + (e + 1074)).
    { split; [apply Zdigits2_ge; lia | apply Zdigits2_le; lia]. }
    assert (HK : K = e + 1074 \/ K = e + 1075) by lia.
    split; [lia |]. split; [assumption |].
    (* both [N] and [X] are multiples of [g] *)
    assert (Hc : exists c, N - X = c * g).
    { exists (rne V (2 ^ K) * 2 ^ (K - (e + 1074)) - m).
      rewrite EN, EX.
      assert (E2 : 2 ^ K = 2 ^ (K - (e + 1074)) * g).
      { rewrite Eg0, <- (pow2_split (K - (e + 1074)) (e + 1074)) by lia. f_equal. lia. }
      rewrite E2 at 2. ring. }
    destruct Hc as [c Hc]. rewrite Hc.
    destruct (Z_le_gt_dec e (-8)) as [He8 | He7].
    + (* at most two steps of the grid *)
      assert (HpKle : 2 ^ K <= 2 * g).
      { destruct HK as [-> | ->]; [rewrite <- Eg0; lia |].
        replace (e + 1075) with (1 + (e + 1074)) by lia.
        rewrite (pow2_split 1 (e + 1074)), <- Eg0 by lia. lia. }
      assert (c * g < 3 * g).
      { rewrite <- Hc.
        assert (Hmh : m * h < 2 ^ 53 * h) by (apply Z.mul_lt_mono_pos_r; lia).
        change (2 ^ 53) with (2 * 2 ^ 52) in Hmh.
        clear - Hmh HN HpKle EV ET Eg. lia. }
      assert (c <= 2).
      { apply Z.lt_succ_r. apply (Z.mul_lt_mono_pos_r g); lia. }
      assert (2 * g <= 2 ^ 1067).
      { rewrite Eg0. replace (2 * 2 ^ (e + 1074)) with (2 ^ (1 + (e + 1074)))
          by (rewrite (pow2_split 1 (e + 1074)) by lia; reflexivity).
        apply Z.pow_le_mono_r; lia. }
      assert (c * g <= 2 * g) by (apply Z.mul_le_mono_nonneg_r; lia).
      lia.
    + (* the binade of [x_max]: one step *)
      assert (e = -7) by lia. subst e.
      change (-7 + 1074) with 1067 in *. change (-7 + 1022) with 1015 in *.
      assert (Hmm : m <= 5764607523034235) by nia.
      assert (HVhi' : V < 2 ^ (53 + 1067)).
      { rewrite (pow2_split 53 1067), <- Eg0 by lia.
        rewrite EV, ET, EX, Eg.
        change (2 ^ 53) with 9007199254740992.
        change (2 ^ 52) with 4503599627370496. nia. }
      assert (Zdigits2 V <= 53 + 1067) by (apply Zdigits2_le; lia).
      assert (HK' : K = 1067) by lia.
      rewrite HK' in *. rewrite <- Eg0 in HN, HpK.
      assert (c * g < 2 * g).
      { rewrite <- Hc.
        assert (Hmh : m * h <= 5764607523034235 * h)
          by (apply Z.mul_le_mono_nonneg_r; lia).
        change (2 ^ 52) with 4503599627370496 in Eg.
        clear - Hmh HN EV ET Eg Hh. lia. }
      assert (c <= 1).
      { apply Z.lt_succ_r. apply (Z.mul_lt_mono_pos_r g); lia. }
      assert (c * g <= 1 * g) by (apply Z.mul_le_mono_nonneg_r; lia).
      rewrite <- Eg0. lia.
  - (* tiny doubles: everything stays far below the bound *)
    assert (Hg51 : g <= 2 ^ 51) by (rewrite Eg0; apply Z.pow_le_mono_r; lia).
    assert (HX104 : X < 2 ^ 104).
    { change (2 ^ 104) with (2 ^ 53 * 2 ^ 51). nia. }
    assert (HT52 : T <= 2 ^ 52 + 1).
    { change (2 ^ 104) with (2 ^ 52 * 2 ^ 52) in HX104. nia. }
    assert (HV105 : V < 2 ^ 105).
    { change (2 ^ 105) with (2 * 2 ^ 104).
      change (2 ^ 52) with 4503599627370496 in HT52.
      change (2 ^ 104) with 20282409603651670423947251286016 in *. lia. }
    assert (Zdigits2 V <= 105) by (apply Zdigits2_le; lia).
    assert (HK52 : K <= 52) by lia.
    split; [lia |]. split; [assumption |].
    assert (2 ^ K <= 2 ^ 52) by (apply Z.pow_le_mono_r; lia).
    assert (N <= 2 ^ 106).
    { change (2 ^ 106) with (2 * 2 ^ 105).
      change (2 ^ 52) with 4503599627370496 in *.
      change (2 ^ 105) with 40564819207303340847894502572032 in *. lia. }
    assert (2 ^ 106 <= 2 ^ 1067) by (apply Z.pow_le_mono_r; lia).
    lia.
Qed.

Lemma x_max_eq : x_max = S754_finite false 5764607523034235 (-7).
Proof. vm_compute. reflexivity. Qed.

Lemma to_Q_le_iff (a b : f64) :
  -1074 <= expo a -> -1074 <= expo b ->
  (to_Q a <= to_Q b)%Q <-> units a <= units b.
Proof.
  intros Ha Hb. rewrite (to_Q_units a Ha), (to_Q_units b Hb).
  unfold Qle. cbn [Qnum Qden]. rewrite second_to_pos.
  pose proof second_pos. split; intros; nia.
Qed.

Lemma to_Q_sign_true (r : f64) : sign_bit r = true -> (to_Q r <= 0)%Q.
Proof.
  destruct r as [s | s | | s m e]; cbn [sign_bit to_Q]; try discriminate;
    intros ->; try apply Qle_refl.
  destruct (0 <=? e); unfold Qle; cbn [Qnum Qden inject_Z cond_Zopp].
  - pose proof (Z.pow_nonneg 2 e ltac:(lia)). nia.
  - lia.
Qed.

Lemma to_Q_spacing_x_max : (to_Q (spacing x_max) == 1 # 128)%Q.
Proof. vm_compute. reflexivity. Qed.

Lemma spacing_units_bound (r : f64) :
  -1074 <= expo r -> units r <= 2 ^ 1067 -> (to_Q r <= 1 # 128)%Q.
Proof.
  intros He Hu. rewrite (to_Q_units r He). unfold Qle. cbn [Qnum Qden].
  rewrite second_to_pos. unfold second.
  change (2 ^ 1074) with (128 * 2 ^ 1067). lia.
Qed.

(** Below [1.5 * 2^44] the sum [x + x * epsilon] is at most [2^-8] above
    [x]: two steps of the grid up to the binade of [2^43], one step in
    the lower half of the binade of [2^44]. *)
Lemma spacing_arith_below (m e X T V K N : Z) :
  0 < m < 2 ^ 53 -> -1074 <= e -> (-1074 < e -> 2 ^ 52 <= m) ->
  X = m * 2 ^ (e + 1074) -> X < 3 * 2 ^ 1117 ->
  T = rne X (2 ^ 52) -> V = X + T -> K = Z.max 0 (Zdigits2 V - 53) ->
  N = rne V (2 ^ K) * 2 ^ K ->
  N - X <= 2 ^ 1066.
Proof.
  intros Hm He Hn EX Hmax ET0 EV EK EN.
  pose proof (pow2_pos (e + 1074) ltac:(lia)) as Hg.
  remember (2 ^ (e + 1074)) as g eqn:Eg0.
  assert (HX : 0 < X) by (rewrite EX; apply Z.mul_pos_pos; lia).
  pose proof (rne_half_up X (2 ^ 52) ltac:(lia)) as HT. rewrite <- ET0 in HT.
  pose proof (rne_nonneg X (2 ^ 52) ltac:(lia) ltac:(lia)) as HT0. rewrite <- ET0 in HT0.
  assert (HV : 0 < V) by lia.
  assert (HK0 : 0 <= K) by lia.
  pose proof (pow2_pos K HK0) as HpK.
  pose proof (rne_half_up V (2 ^ K) HpK) as HN. rewrite <- EN in HN.
  destruct (Z_le_gt_dec (-1022) e) as [Hbig | Hsmall].
  - (* normal doubles: the product with epsilon is exact *)
    specialize (Hn ltac:(lia)).
    pose proof (pow2_pos (e + 1022) ltac:(lia)) as Hh.
    assert (Eg : g = 2 ^ 52 * 2 ^ (e + 1022)).
    { rewrite Eg0, <- (pow2_split 52 (e + 1022)) by lia. f_equal. lia. }
    remember (2 ^ (e + 1022)) as h eqn:Eh0.
    assert (ET : T = m * h).
    { rewrite ET0. apply rne_exact; [lia |]. rewrite EX, Eg. ring. }
    assert (Hmg : 2 ^ 52 * g <= X)
      by (rewrite EX; apply Z.mul_le_mono_nonneg_r; lia).
    assert (Ee : e <= -8).
    { destruct (Z_le_gt_dec e (-8)) as [? | Hgt]; [assumption | exfalso].
      assert (H7 : 2 ^ 1067 <= g) by (rewrite Eg0; apply Z.pow_le_mono_r; lia).
      assert (H8 : 2 ^ 52 * 2 ^ 1067 <= 2 ^ 52 * g)
        by (apply Z.mul_le_mono_nonneg_l; [discriminate | exact H7]).
      assert (H9 : 3 * 2 ^ 1117 <= 2 ^ 52 * 2 ^ 1067) by discriminate.
      clear - H8 H9 Hmg Hmax. lia. }
    assert (HVlo : 2 ^ (53 + (e + 1074) - 1) <= V).
    { replace (53 + (e + 1074) - 1) with (52 + (e + 1074)) by lia.
      rewrite (pow2_split 52 (e + 1074)), <- Eg0 by lia.
      clear - Hmg EV HT0. lia. }
    assert (Hmh : m * h < 2 ^ 53 * h) by (apply Z.mul_lt_mono_pos_r; lia).
    assert (HVhi : V < 2 ^ (54 + (e + 1074))).
    { rewrite (pow2_split 54 (e + 1074)), <- Eg0 by lia.
      assert (m * g < 2 ^ 53 * g) by (apply Z.mul_lt_mono_pos_r; lia).
      rewrite EV, ET, EX.
      change (2 ^ 54) with (2 * 2 ^ 53).
      change (2 ^ 53) with (2 * 2 ^ 52) in Hmh.
      clear - H Hmh Eg Hh. lia. }
    assert (HdV : 53 + (e + 1074) <= Zdigits2 V <= 54 + (e + 1074)).
    { split; [apply Zdigits2_ge; lia | apply Zdigits2_le; lia]. }
    assert (HK : K = e + 1074 \/ K = e + 1075) by lia.
    (* both [N] and [X] are multiples of [g] *)
    assert (Hc : exists c, N - X = c * g).
    { exists (rne V (2 ^ K) * 2 ^ (K - (e + 1074)) - m).
      rewrite EN, EX.
      assert (E2 : 2 ^ K = 2 ^ (K - (e + 1074)) * g).
      { rewrite Eg0, <- (pow2_split (K - (e + 1074)) (e + 1074)) by lia. f_equal. lia. }
      rewrite E2 at 2. ring. }
    destruct Hc as [c Hc]. rewrite Hc.
    destruct (Z_le_gt_dec e (-9)) as [He9 | He8].
    + (* at most two steps of the grid *)
      assert (HpKle : 2 ^ K <= 2 * g).
      { destruct HK as [-> | ->]; [rewrite <- Eg0; lia |].
        replace (e + 1075) with (1 + (e + 1074)) by lia.
        rewrite (pow2_split 1 (e + 1074)), <- Eg0 by lia. lia. }
      assert (c * g < 3 * g).
      { rewrite <- Hc.
        change (2 ^ 53) with (2 * 2 ^ 52) in Hmh.
        clear - Hmh HN HpKle EV ET Eg. lia. }
      assert (c <= 2).
      { apply Z.lt_succ_r. apply (Z.mul_lt_mono_pos_r g); lia. }
      assert (2 * g <= 2 ^ 1066).
      { rewrite Eg0. replace (2 * 2 ^ (e + 1074)) with (2 ^ (1 + (e + 1074)))
          by (rewrite (pow2_split 1 (e + 1074)) by lia; reflexivity).
        apply Z.pow_le_mono_r; lia. }
      assert (c * g <= 2 * g) by (apply Z.mul_le_mono_nonneg_r; lia).
      lia.
    + (* the lower half of the binade of [2^44]: one step *)
      assert (e = -8) by lia. subst e.
      change (-8 + 1074) with 1066 in *. change (-8 + 1022) with 1014 in *.
      assert (Hmm : m < 3 * 2 ^ 51).
      { apply (Z.mul_lt_mono_pos_r g); [exact Hg |].
        rewrite <- EX.
        replace (3 * 2 ^ 51 * g) with (3 * 2 ^ 1117); [exact Hmax |].
        rewrite Eg0. reflexivity. }
      assert (Hmh' : m * h < 3 * 2 ^ 51 * h)
        by (apply Z.mul_lt_mono_pos_r; assumption).
      assert (HVhi' : V < 2 ^ (53 + 1066)).
      { rewrite (pow2_split 53 1066), <- Eg0 by lia.
        assert (m * g < 3 * 2 ^ 51 * g) by (apply Z.mul_lt_mono_pos_r; assumption).
        rewrite EV, ET, EX.
        change (2 ^ 53) with 9007199254740992.
        change (2 ^ 51) with 2251799813685248 in *.
        change (2 ^ 52) with 4503599627370496 in Eg.
        clear - H Hmh' Eg Hh. lia. }
      assert (Zdigits2 V <= 53 + 1066) by (apply Zdigits2_le; lia).
      assert (HK' : K = 1066) by lia.
      rewrite HK' in *. rewrite <- Eg0 in HN, HpK.
      assert (c * g < 2 * g).
      { rewrite <- Hc.
        change (2 ^ 52) with 4503599627370496 in Eg.
        change (2 ^ 51) with 2251799813685248 in Hmh'.
        clear - Hmh' HN EV ET Eg Hh. lia. }
      assert (c <= 1).
      { apply Z.lt_succ_r. apply (Z.mul_lt_mono_pos_r g); lia. }
      assert (c * g <= 1 * g) by (apply Z.mul_le_mono_nonneg_r; lia).
      rewrite <- Eg0. lia.
  - (* tiny doubles: everything stays far below the bound *)
    assert (Hg51 : g <= 2 ^ 51) by (rewrite Eg0; apply Z.pow_le_mono_r; lia).
    assert (HX104 : X < 2 ^ 104).
    { change (2 ^ 104) with (2 ^ 53 * 2 ^ 51). rewrite EX.
      apply Z.lt_le_trans with (2 ^ 53 * g).
      - apply Z.mul_lt_mono_pos_r; lia.
      - apply Z.mul_le_mono_nonneg_l; lia. }
    assert (HT52 : T <= 2 ^ 52 + 1).
    { change (2 ^ 104) with (2 ^ 52 * 2 ^ 52) in HX104. nia. }
    assert (HV105 : V < 2 ^ 105).
    { change (2 ^ 105) with (2 * 2 ^ 104).
      change (2 ^ 52) with 4503599627370496 in HT52.
      change (2 ^ 104) with 20282409603651670423947251286016 in *. lia. }
    assert (Zdigits2 V <= 105) by (apply Zdigits2_le; lia).
    assert (HK52 : K <= 52) by lia.
    assert (2 ^ K <= 2 ^ 52) by (apply Z.pow_le_mono_r; lia).
    assert (N <= 2 ^ 106).
    { change (2 ^ 106) with (2 * 2 ^ 105).
      change (2 ^ 52) with 4503599627370496 in *.
      change (2 ^ 105) with 40564819207303340847894502572032 in *. lia. }
    assert (2 ^ 106 <= 2 ^ 1066) by (apply Z.pow_le_mono_r; lia).
    clear - H1 H2 HX. lia.
Qed.

Lemma spacing_units_bound_lt (r : f64) :
  -1074 <= expo r -> units r <= 2 ^ 1066 -> (to_Q r < 1 # 128)%Q.
Proof.
  intros He Hu. rewrite (to_Q_units r He). unfold Qlt. cbn [Qnum Qden].
  rewrite second_to_pos.
  apply Z.le_lt_trans with (2 ^ 1066 * 128).
  - apply Z.mul_le_mono_nonneg_r; [discriminate | exact Hu].
  - reflexivity.
Qed.

(** Rounding a positive difference of at most [2^j] stays at most
    [2^j]. *)
Lemma round_below_pow2 (S : positive) (ez V j : Z) :
  -1074 <= ez -> V = Z.pos S * 2 ^ (ez + 1074) -> 0 <= j <= 1067 ->
  V <= 2 ^ j ->
  -1074 <= expo (binary_round prec emax false S ez)
  /\ units (binary_round prec emax false S ez) <= 2 ^ j.
Proof.
  intros Hez HV Hj Hle.
  pose proof (pow2_pos (ez + 1074) ltac:(lia)) as Hp.
  assert (HVpos : 0 < V) by (rewrite HV; apply Z.mul_pos_pos; lia).
  assert (Hd : Zdigits2 V <= j + 1).
  { apply Zdigits2_le; [lia |]. rewrite (pow2_split j 1) by lia.
    pose proof (pow2_pos j ltac:(lia)). change (2 ^ 1) with 2. lia. }
  pose proof (Zdigits2_nonneg V).
  set (K := Z.max 0 (Zdigits2 V - 53)).
  destruct (round_units S ez V Hez HV) as (Hf & Hu & He); [fold K; lia |].
  fold K in Hu, He.
  split; [lia |].
  rewrite Hu. apply rne_le_grid; [apply pow2_pos; lia | assumption |].
  exists (2 ^ (j - K)).
  rewrite <- (pow2_split (j - K) K) by lia. f_equal. lia.
Qed.

(** The measured spacing at a positive double up to [x_max] is negative
    or at most [2^-7], and at most [2^-8] below [1.5 * 2^44]. *)
Lemma spacing_units_le (m : positive) (e j : Z) :
  valid (S754_finite false m e) = true ->
  units (S754_finite false m e) <= 5764607523034235 * 2 ^ 1067 ->
  j = 1067 \/ (j = 1066 /\ units (S754_finite false m e) < 3 * 2 ^ 1117) ->
  sign_bit (spacing (S754_finite false m e)) = true
  \/ (-1074 <= expo (spacing (S754_finite false m e))
      /\ units (spacing (S754_finite false m e)) <= 2 ^ j).
Proof.
  intros V H Hj.
  pose proof (valid_finite _ _ _ V) as ((He & Hemax) & Hm & Hn).
  destruct (mul_epsilon_units m e V) as (Nt & Et & Ut).
  unfold spacing, next_value.
  set (x := S754_finite false m e) in *.
  assert (Hj0 : 0 <= j <= 1067) by (destruct Hj as [-> | [-> _]]; lia).
  destruct (mul x float_info_epsilon) as [[|] | | | [|] mt et] eqn:Emul;
    try discriminate.
  - (* the product underflows to zero: nothing is added *)
    change (add x (S754_zero false)) with x. unfold x.
    destruct (sub_cases m m e e He He) as [[Hlt _] | [[_ ->] | (S & _ & HS)]].
    + lia.
    + right. split; [discriminate |]. cbn [units].
      apply Z.lt_le_incl, pow2_pos. lia.
    + rewrite Z.sub_diag in HS.
      pose proof (pow2_pos (Z.min e e + 1074) ltac:(lia)). nia.
  - cbn [expo] in Et.
    destruct (add_as_round m mt e et He Et) as (S & Eadd & ES).
    fold x in Eadd, ES. rewrite Eadd.
    set (X := units x) in *. set (T := units (S754_finite false mt et)) in *.
    set (Vs := Z.pos S * 2 ^ (Z.min e et + 1074)) in *.
    set (K := Z.max 0 (Zdigits2 Vs - 53)).
    set (Nx := rne Vs (2 ^ K) * 2 ^ K).
    destruct (spacing_arith (Z.pos m) e X T Vs K Nx) as (HK & HVs & Hb);
      try reflexivity; try lia.
    assert (Hbj : Nx - X <= 2 ^ j).
    { destruct Hj as [-> | [-> Hlow]]; [exact Hb |].
      apply (spacing_arith_below (Z.pos m) e X T Vs K Nx);
        try reflexivity; try lia. }
    destruct (round_units S (Z.min e et) Vs ltac:(lia) eq_refl) as (Hf & Hu & Hex);
      [fold K; lia |].
    fold K in Hu, Hex. fold Nx in Hu.
    destruct (binary_round prec emax false S (Z.min e et)) as [| | | sn mn en];
      cbn [finite_with_sign] in Hf; try contradiction.
    subst sn. cbn [expo] in Hex.
    change x with (S754_finite false m e).
    destruct (sub_cases mn m en e ltac:(lia) He)
      as [[_ Hs] | [[_ ->] | (S' & -> & HS')]].
    + left. exact Hs.
    + right. split; [discriminate |]. cbn [units].
      apply Z.lt_le_incl, pow2_pos. lia.
    + right. apply (round_below_pow2 S' (Z.min en e) _ j ltac:(lia) eq_refl Hj0).
      rewrite HS', Hu. fold x. fold X. exact Hbj.
Qed.

(** * The claims *)

Ltac compute_claim :=
  vm_compute; first [reflexivity | discriminate | (intro; discriminate)].

(** ** Precision-bound solver *)

(** C1.  The script's [max_time_seconds] is [0.01 * 2^52] computed in
    double precision.  The product is exact on the double [0.01], it is
    the double nearest to 45,035,996,273,704.96 (the decimal literal
    rounds to it, and it lies within half a unit in the last place, 1/256,
    of that number), and it prints as 45035996273704.96. *)
Theorem max_time_seconds_value :
  max_time_seconds = Ok x_max
  /\ x_max = S754_finite false 5764607523034235 (-7)
  /\ x_max = decimal 4503599627370496 2
  /\ (to_Q x_max == to_Q epsilon_0_01 * inject_Z (2 ^ 52))%Q
  /\ (Qabs (to_Q x_max - (4503599627370496 # 100)) <= 1 # 256)%Q
  /\ format_f 2 x_max = "45035996273704.96"%string.
Proof. repeat split; compute_claim. Qed.

(** C3.  The spacing measured at [x_max], [(x_max + x_max * epsilon) -
    x_max] in double precision, is [2^-7 = 0.0078125] seconds, which is at
    most 0.01 seconds, both as an exact number and by the comparison of
    doubles with the script's [0.01]. *)
Theorem spacing_at_x_max :
  spacing x_max = S754_finite false 4503599627370496 (-59)
  /\ (to_Q (spacing x_max) == 1 # 128)%Q
  /\ (to_Q (spacing x_max) <= 1 # 100)%Q
  /\ leb (spacing x_max) epsilon_0_01 = true
  /\ format_f 6 (spacing x_max) = "0.007812"%string.
Proof. repeat split; compute_claim. Qed.

(** ** Duration formatter on the inputs of the specification *)

(** C5.  For the input 90061.5 seconds the formatter produces 0 years,
    1 day, 1 hour, 1 minute and 1.5 seconds, the seconds printing as
    1.50. *)
Theorem breakdown_90061_5 :
  (to_Q (decimal 900615 1) == 900615 # 10)%Q
  /\ breakdown (decimal 900615 1)
     = Ok {| years := 0; days := 1; hours := 1; minutes := 1;
             seconds := decimal 15 1 |}
  /\ (to_Q (decimal 15 1) == 3 # 2)%Q
  /\ format_f 2 (decimal 15 1) = "1.50"%string
  /\ formatted_result
       {| years := 0; days := 1; hours := 1; minutes := 1;
          seconds := decimal 15 1 |}
     = "0 years, 1 days, 1 hours, 1 minutes, 1.50 seconds"%string.
Proof. repeat split; compute_claim. Qed.

(** C6.  For the input 0 the formatter returns a breakdown whose five
    components are all zero. *)
Theorem breakdown_zero :
  decimal 0 1 = of_Z 0
  /\ breakdown (of_Z 0)
     = Ok {| years := 0; days := 0; hours := 0; minutes := 0;
             seconds := S754_zero false |}
  /\ (to_Q (S754_zero false) == 0)%Q.
Proof. repeat split; compute_claim. Qed.

(** C7.  For the input [x_max] the years component is 1,427,104: it is
    the integer part of [x_max / 31,557,600] and lies between 1.4 and 1.5
    million. *)
Theorem years_at_x_max :
  exists b,
    breakdown x_max = Ok b
    /\ years b = 1427104
    /\ years b = Qfloor (to_Q x_max / 31557600)
    /\ 1400000 <= years b < 1500000.
Proof.
  eexists. split; [vm_compute; reflexivity |].
  repeat split; compute_claim.
Qed.

(** ** Duration formatter on every input below [2^58] seconds *)

(** C2, as amended.  For every nonnegative double below [2^58] seconds
    the breakdown reconstructs the input exactly:
    [years * 31,557,600 + days * 86400 + hours * 3600 + minutes * 60 +
    seconds] is the input, hence within the tolerance of [1e-6]. *)
Theorem breakdown_reconstructs (x : f64) :
  valid x = true -> nonneg_finite x = true -> (to_Q x < inject_Z (2 ^ 58))%Q ->
  exists b, breakdown x = Ok b
            /\ (reconstruction b == to_Q x)%Q
            /\ (Qabs (reconstruction b - to_Q x) <= tolerance)%Q.
Proof.
  intros V N H. pose proof (valid_expo x V) as Ex.
  apply (to_Q_lt_units x _ Ex) in H.
  destruct (breakdown_exact x V N H)
    as (r1 & r2 & r3 & r4 & _ & E & (V1 & N1 & U1) & (V2 & N2 & U2)
        & (V3 & N3 & U3) & (V4 & N4 & U4)).
  eexists. split; [exact E |].
  pose proof second_pos as Hs.
  assert (R : (reconstruction
                 {| years := units x / (31557600 * second);
                    days := units r1 / (86400 * second);
                    hours := units r2 / (3600 * second);
                    minutes := units r3 / (60 * second);
                    seconds := r4 |} == to_Q x)%Q).
  { unfold reconstruction. cbn [years days hours minutes seconds].
    rewrite (to_Q_units r4 (valid_expo r4 V4)), (to_Q_units x Ex).
    apply recon_Q. rewrite second_to_pos.
    pose proof (Z.div_mod (units x) (31557600 * second) ltac:(lia)).
    pose proof (Z.div_mod (units r1) (86400 * second) ltac:(lia)).
    pose proof (Z.div_mod (units r2) (3600 * second) ltac:(lia)).
    pose proof (Z.div_mod (units r3) (60 * second) ltac:(lia)).
    rewrite <- U1 in *. rewrite <- U2 in *. rewrite <- U3 in *. rewrite <- U4 in *.
    lia. }
  split; [exact R |].
  rewrite R. unfold Qminus. rewrite Qplus_opp_r. discriminate.
Qed.

Lemma breakdown_reconstructs_witness :
  valid x_max = true /\ nonneg_finite x_max = true
  /\ (to_Q x_max < inject_Z (2 ^ 58))%Q
  /\ exists b, breakdown x_max = Ok b
               /\ (reconstruction b == to_Q x_max)%Q
               /\ (Qabs (reconstruction b - to_Q x_max) <= tolerance)%Q.
Proof.
  split; [vm_compute; reflexivity |].
  split; [vm_compute; reflexivity |].
  split; [vm_compute; reflexivity |].
  apply (breakdown_reconstructs x_max); vm_compute; reflexivity.
Defined.

(** C2 as stated fails: at [10^18] seconds, a double, the breakdown is
    returned and reconstructs to a number 64 seconds too large. *)
Lemma reconstruction_off_at_1e18 :
  valid (of_Z (10 ^ 18)) = true /\ nonneg_finite (of_Z (10 ^ 18)) = true
  /\ (to_Q (of_Z (10 ^ 18)) == inject_Z (10 ^ 18))%Q
  /\ exists b,
       breakdown (of_Z (10 ^ 18)) = Ok b
       /\ (reconstruction b - to_Q (of_Z (10 ^ 18)) == 64)%Q
       /\ ~ (Qabs (reconstruction b - to_Q (of_Z (10 ^ 18))) <= tolerance)%Q.
Proof.
  split; [vm_compute; reflexivity |].
  split; [vm_compute; reflexivity |].
  split; [vm_compute; reflexivity |].
  eexists. split; [vm_compute; reflexivity |].
  split; [vm_compute; reflexivity |].
  vm_compute. intros H. apply H. reflexivity.
Qed.

(** C9, as amended.  For every nonnegative double below [2^58] seconds
    the running remainder is a nonnegative double after each of the four
    subtractions, and so is the final seconds component. *)
Theorem remainders_nonneg (x : f64) :
  valid x = true -> nonneg_finite x = true -> (to_Q x < inject_Z (2 ^ 58))%Q ->
  exists l b,
    remainders x = Ok l /\ breakdown x = Ok b
    /\ List.length l = 4%nat
    /\ Forall (fun r => nonneg_finite r = true) l
    /\ nonneg_finite (seconds b) = true.
Proof.
  intros V N H. apply (to_Q_lt_units x _ (valid_expo x V)) in H.
  destruct (breakdown_exact x V N H)
    as (r1 & r2 & r3 & r4 & Ec & E & (V1 & N1 & U1) & (V2 & N2 & U2)
        & (V3 & N3 & U3) & (V4 & N4 & U4)).
  exists [r1; r2; r3; r4]. eexists. split.
  - unfold remainders. rewrite Ec. reflexivity.
  - split; [exact E |]. split; [reflexivity |]. split.
    + repeat constructor; assumption.
    + exact N4.
Qed.

Lemma remainders_nonneg_witness :
  valid x_max = true /\ nonneg_finite x_max = true
  /\ (to_Q x_max < inject_Z (2 ^ 58))%Q
  /\ exists l b,
       remainders x_max = Ok l /\ breakdown x_max = Ok b
       /\ List.length l = 4%nat
       /\ Forall (fun r => nonneg_finite r = true) l
       /\ nonneg_finite (seconds b) = true.
Proof.
  split; [vm_compute; reflexivity |].
  split; [vm_compute; reflexivity |].
  split; [vm_compute; reflexivity |].
  apply (remainders_nonneg x_max); vm_compute; reflexivity.
Defined.

(** C9 as stated fails: at [2245 * 10^18] seconds, a double, the quotient
    by the year rounds up to the next integer and the product rounds up
    as well, so the remainder after the years step is -262144 seconds; the
    later remainders and the final seconds component are negative too. *)
Lemma remainder_negative_at_2245e18 :
  valid (of_Z (2245 * 10 ^ 18)) = true
  /\ nonneg_finite (of_Z (2245 * 10 ^ 18)) = true
  /\ (to_Q (of_Z (2245 * 10 ^ 18)) == inject_Z (2245 * 10 ^ 18))%Q
  /\ exists r1 r2 r3 r4 b,
       remainders (of_Z (2245 * 10 ^ 18)) = Ok [r1; r2; r3; r4]
       /\ breakdown (of_Z (2245 * 10 ^ 18)) = Ok b
       /\ (to_Q r1 == inject_Z (-262144))%Q
       /\ nonneg_finite r1 = false /\ nonneg_finite r2 = false
       /\ nonneg_finite r3 = false /\ nonneg_finite r4 = false
       /\ (to_Q (seconds b) == inject_Z (-4))%Q.
Proof.
  split; [vm_compute; reflexivity |].
  split; [vm_compute; reflexivity |].
  split; [vm_compute; reflexivity |].
  do 5 eexists. split; [vm_compute; reflexivity |].
  split; [vm_compute; reflexivity |].
  repeat split; vm_compute; reflexivity.
Qed.

(** C10, as amended.  For every nonnegative double below [2^58] seconds
    the components respect their ranges: days at most 365, hours at most
    23, minutes at most 59, seconds below 60, and none is negative. *)
Theorem components_in_range (x : f64) :
  valid x = true -> nonneg_finite x = true -> (to_Q x < inject_Z (2 ^ 58))%Q ->
  exists b, breakdown x = Ok b
            /\ 0 <= years b
            /\ 0 <= days b <= 365
            /\ 0 <= hours b <= 23
            /\ 0 <= minutes b <= 59
            /\ (0 <= to_Q (seconds b) < 60)%Q.
Proof.
  intros V N H. apply (to_Q_lt_units x _ (valid_expo x V)) in H.
  destruct (breakdown_exact x V N H)
    as (r1 & r2 & r3 & r4 & _ & E & (V1 & N1 & U1) & (V2 & N2 & U2)
        & (V3 & N3 & U3) & (V4 & N4 & U4)).
  eexists. split; [exact E |]. cbn [years days hours minutes seconds].
  pose proof second_pos as Hs.
  pose proof (units_nonneg x N) as P0.
  pose proof (units_nonneg r1 N1) as P1.
  pose proof (units_nonneg r2 N2) as P2.
  pose proof (units_nonneg r3 N3) as P3.
  pose proof (units_nonneg r4 N4) as P4.
  pose proof (Z.mod_pos_bound (units x) (31557600 * second) ltac:(lia)) as B1.
  pose proof (Z.mod_pos_bound (units r1) (86400 * second) ltac:(lia)) as B2.
  pose proof (Z.mod_pos_bound (units r2) (3600 * second) ltac:(lia)) as B3.
  pose proof (Z.mod_pos_bound (units r3) (60 * second) ltac:(lia)) as B4.
  rewrite <- U1 in B1. rewrite <- U2 in B2. rewrite <- U3 in B3. rewrite <- U4 in B4.
  split; [apply Z.div_pos; lia |].
  split.
  { split; [apply Z.div_pos; lia |].
    assert (units r1 / (86400 * second) < 366); [| lia].
    apply Z.div_lt_upper_bound; lia. }
  split.
  { split; [apply Z.div_pos; lia |].
    assert (units r2 / (3600 * second) < 24); [| lia].
    apply Z.div_lt_upper_bound; lia. }
  split.
  { split; [apply Z.div_pos; lia |].
    assert (units r3 / (60 * second) < 60); [| lia].
    apply Z.div_lt_upper_bound; lia. }
  split.
  - change 0%Q with (inject_Z 0). apply (to_Q_le_units r4 0 (valid_expo r4 V4)). lia.
  - change 60%Q with (inject_Z 60). apply (to_Q_lt_units r4 60 (valid_expo r4 V4)). lia.
Qed.

Lemma components_in_range_witness :
  valid x_max = true /\ nonneg_finite x_max = true
  /\ (to_Q x_max < inject_Z (2 ^ 58))%Q
  /\ exists b, breakdown x_max = Ok b
               /\ 0 <= years b
               /\ 0 <= days b <= 365
               /\ 0 <= hours b <= 23
               /\ 0 <= minutes b <= 59
               /\ (0 <= to_Q (seconds b) < 60)%Q.
Proof.
  split; [vm_compute; reflexivity |].
  split; [vm_compute; reflexivity |].
  split; [vm_compute; reflexivity |].
  apply (components_in_range x_max); vm_compute; reflexivity.
Defined.

(** C10 as stated fails: at [2^78] seconds, a double, the remainder left
    by the years step is [2^25] seconds, more than a year, and the days
    component is 388. *)
Lemma days_out_of_range_at_2p78 :
  valid (of_Z (2 ^ 78)) = true /\ nonneg_finite (of_Z (2 ^ 78)) = true
  /\ (to_Q (of_Z (2 ^ 78)) == inject_Z (2 ^ 78))%Q
  /\ exists b, breakdown (of_Z (2 ^ 78)) = Ok b
               /\ days b = 388 /\ ~ days b <= 365.
Proof.
  split; [vm_compute; reflexivity |].
  split; [vm_compute; reflexivity |].
  split; [vm_compute; reflexivity |].
  eexists. split; [vm_compute; reflexivity |].
  split; [reflexivity |]. cbn [days]. lia.
Qed.

(** C4, as amended.  For every nonnegative double below [2^58] seconds
    the formatter is the greedy extraction of the specification: years,
    days, hours, minutes in this order with the divisors 31,557,600,
    86400, 3600 and 60, each count the floor of [remaining / divisor]
    and [remaining] reduced by count times divisor, the last remainder
    being the seconds; the years are the integer part of the exact
    quotient. *)
Theorem greedy_floor_extraction (x : f64) :
  valid x = true -> nonneg_finite x = true -> (to_Q x < inject_Z (2 ^ 58))%Q ->
  exists b, breakdown x = Ok b
            /\ greedy floor x spec_divisors = (counts b, seconds b)
            /\ (inject_Z (years b) <= to_Q x / 31557600 < inject_Z (years b) + 1)%Q.
Proof.
  intros V N H. pose proof (valid_expo x V) as Ex.
  apply (to_Q_lt_units x _ Ex) in H.
  destruct (breakdown_exact x V N H)
    as (r1 & r2 & r3 & r4 & Ec & E & (V1 & N1 & U1) & (V2 & N2 & U2)
        & (V3 & N3 & U3) & (V4 & N4 & U4)).
  eexists. split; [exact E |]. split.
  - pose proof (breakdown_greedy_trunc x _ E) as G.
    rewrite spec_divisors_eq in *.
    unfold convert in Ec.
    destruct (take_unit x seconds_per_year) as [[k1 s1] |] eqn:E1; cbn [bind snd fst] in Ec;
      [| discriminate].
    destruct (take_unit s1 seconds_per_day) as [[k2 s2] |] eqn:E2; cbn [bind snd fst] in Ec;
      [| discriminate].
    destruct (take_unit s2 seconds_per_hour) as [[k3 s3] |] eqn:E3; cbn [bind snd fst] in Ec;
      [| discriminate].
    destruct (take_unit s3 seconds_per_minute) as [[k4 s4] |] eqn:E4; cbn [bind snd fst] in Ec;
      [| discriminate].
    inversion Ec. subst s1 s2 s3 s4. clear Ec.
    apply take_unit_inv in E1, E2, E3, E4.
    destruct E1 as [K1 R1], E2 as [K2 R2], E3 as [K3 R3], E4 as [K4 R4].
    cbn [greedy counts years days hours minutes seconds] in *.
    rewrite (floor_trunc_nonneg (div x seconds_per_year))
      by (apply div_sign_nonneg; [assumption | reflexivity]).
    rewrite <- K1, <- R1.
    rewrite (floor_trunc_nonneg (div r1 seconds_per_day))
      by (apply div_sign_nonneg; [assumption | reflexivity]).
    rewrite <- K2, <- R2.
    rewrite (floor_trunc_nonneg (div r2 seconds_per_hour))
      by (apply div_sign_nonneg; [assumption | reflexivity]).
    rewrite <- K3, <- R3.
    rewrite (floor_trunc_nonneg (div r3 seconds_per_minute))
      by (apply div_sign_nonneg; [assumption | reflexivity]).
    rewrite <- K4, <- R4.
    congruence.
  - cbn [years]. rewrite (to_Q_units x Ex).
    pose proof second_pos as Hs.
    pose proof (Z.div_mod (units x) (31557600 * second) ltac:(lia)) as Hd.
    pose proof (Z.mod_pos_bound (units x) (31557600 * second) ltac:(lia)) as Hb.
    set (k := units x / (31557600 * second)) in *.
    unfold Qdiv, Qle, Qlt, Qmult, Qplus, Qinv, inject_Z. cbn [Qnum Qden].
    rewrite ?Pos.mul_1_l, ?Pos.mul_1_r, ?Z.mul_1_r, Pos2Z.inj_mul, second_to_pos.
    lia.
Qed.

Lemma greedy_floor_extraction_witness :
  valid x_max = true /\ nonneg_finite x_max = true
  /\ (to_Q x_max < inject_Z (2 ^ 58))%Q
  /\ exists b, breakdown x_max = Ok b
               /\ greedy floor x_max spec_divisors = (counts b, seconds b)
               /\ (inject_Z (years b) <= to_Q x_max / 31557600
                   < inject_Z (years b) + 1)%Q.
Proof.
  split; [vm_compute; reflexivity |].
  split; [vm_compute; reflexivity |].
  split; [vm_compute; reflexivity |].
  apply (greedy_floor_extraction x_max); vm_compute; reflexivity.
Defined.

(** C4 as stated fails: at [2245 * 10^18] seconds the remainder is
    negative after the years step, the script's [int()] truncates the
    next quotients toward zero and gets -3 days where the floor is -4. *)
Lemma floor_differs_at_2245e18 :
  valid (of_Z (2245 * 10 ^ 18)) = true
  /\ nonneg_finite (of_Z (2245 * 10 ^ 18)) = true
  /\ exists b,
       breakdown (of_Z (2245 * 10 ^ 18)) = Ok b
       /\ days b = -3
       /\ nth 1 (fst (greedy floor (of_Z (2245 * 10 ^ 18)) spec_divisors)) 0 = -4
       /\ greedy floor (of_Z (2245 * 10 ^ 18)) spec_divisors
          <> (counts b, seconds b).
Proof.
  split; [vm_compute; reflexivity |].
  split; [vm_compute; reflexivity |].
  eexists. split; [vm_compute; reflexivity |].
  split; [reflexivity |]. split; [vm_compute; reflexivity |].
  vm_compute. discriminate.
Qed.

(** ** Spacing below [x_max] *)

(** C8, as amended.  The spacing measured at [x_max] is at least the
    spacing measured the same way, [(x + x * epsilon) - x], at every
    smaller nonnegative double, and strictly greater than the spacing
    at every nonnegative double below [1.5 * 2^44], a range that holds
    [x_max / 2] and every smaller magnitude. *)
Theorem spacing_le_spacing_x_max (x : f64) :
  valid x = true -> nonneg_finite x = true -> (to_Q x <= to_Q x_max)%Q ->
  (to_Q (spacing x) <= to_Q (spacing x_max))%Q
  /\ ((to_Q x < inject_Z (3 * 2 ^ 43))%Q ->
      (to_Q (spacing x) < to_Q (spacing x_max))%Q).
Proof.
  intros V N H. rewrite to_Q_spacing_x_max.
  apply (to_Q_le_iff x x_max (valid_expo x V)) in H; [| rewrite x_max_eq; cbn; lia].
  rewrite x_max_eq in H.
  change (units (S754_finite false 5764607523034235 (-7)))
    with (5764607523034235 * 2 ^ 1067) in H.
  destruct x as [[|] | | | [|] m e]; try discriminate.
  { split; [discriminate | reflexivity]. }
  split.
  - destruct (spacing_units_le m e 1067 V H (or_introl eq_refl)) as [Hs | [He Hu]].
    + eapply Qle_trans; [apply to_Q_sign_true; exact Hs | discriminate].
    + apply spacing_units_bound; assumption.
  - intros Hlow.
    apply (to_Q_lt_units _ _ (valid_expo _ V)) in Hlow.
    assert (Hlow' : units (S754_finite false m e) < 3 * 2 ^ 1117).
    { eapply Z.lt_le_trans; [exact Hlow | discriminate]. }
    destruct (spacing_units_le m e 1066 V H (or_intror (conj eq_refl Hlow')))
      as [Hs | [He Hu]].
    + eapply Qle_lt_trans; [apply to_Q_sign_true; exact Hs | reflexivity].
    + apply spacing_units_bound_lt; assumption.
Qed.

Lemma spacing_le_spacing_x_max_witness :
  valid (S754_finite false 5764607523034235 (-8)) = true
  /\ nonneg_finite (S754_finite false 5764607523034235 (-8)) = true
  /\ (to_Q (S754_finite false 5764607523034235 (-8)) <= to_Q x_max)%Q
  /\ (to_Q (S754_finite false 5764607523034235 (-8)) < inject_Z (3 * 2 ^ 43))%Q
  /\ (to_Q (spacing (S754_finite false 5764607523034235 (-8)))
      <= to_Q (spacing x_max))%Q
  /\ (to_Q (spacing (S754_finite false 5764607523034235 (-8)))
      < to_Q (spacing x_max))%Q.
Proof.
  split; [vm_compute; reflexivity |].
  split; [vm_compute; reflexivity |].
  split; [vm_compute; discriminate |].
  split; [vm_compute; reflexivity |].
  pose proof (spacing_le_spacing_x_max (S754_finite false 5764607523034235 (-8))
                ltac:(vm_compute; reflexivity) ltac:(vm_compute; reflexivity)
                ltac:(vm_compute; discriminate)) as P.
  split; [exact (proj1 P) | apply (proj2 P); vm_compute; reflexivity].
Defined.

(** C8 as stated fails: the double just below [x_max] is smaller and
    has the same measured spacing, so the spacing at [x_max] is not
    strictly greater. *)
Lemma spacing_not_strict_below_x_max :
  valid (S754_finite false 5764607523034234 (-7)) = true
  /\ nonneg_finite (S754_finite false 5764607523034234 (-7)) = true
  /\ (to_Q (S754_finite false 5764607523034234 (-7)) < to_Q x_max)%Q
  /\ ltb (S754_finite false 5764607523034234 (-7)) x_max = true
  /\ spacing (S754_finite false 5764607523034234 (-7)) = spacing x_max
  /\ ~ (to_Q (spacing (S754_finite false 5764607523034234 (-7)))
        < to_Q (spacing x_max))%Q.
Proof.
  split; [vm_compute; reflexivity |].
  split; [vm_compute; reflexivity |].
  split; [vm_compute; reflexivity |].
  split; [vm_compute; reflexivity |].
  split; [vm_compute; reflexivity |].
  vm_compute. discriminate.
Qed.

(** The bound [1.5 * 2^44] is the best one: at that double itself the
    measured spacing is the one at [x_max]. *)
Lemma spacing_equal_at_threshold :
  valid (of_Z (3 * 2 ^ 43)) = true
  /\ (to_Q (of_Z (3 * 2 ^ 43)) == inject_Z (3 * 2 ^ 43))%Q
  /\ spacing (of_Z (3 * 2 ^ 43)) = spacing x_max.
Proof.
  split; [vm_compute; reflexivity |].
  split; vm_compute; reflexivity.
Qed.

(** * Further properties of the script *)

(** ** Doubles are determined by their value *)

Lemma valid_units_inj (a b : f64) :
  valid a = true -> valid b = true ->
  nonneg_finite a = true -> nonneg_finite b = true ->
  units a = units b -> a = b.
Proof.
  intros Va Vb Na Nb E.
  destruct a as [[|] | | | [|] ma ea]; try discriminate;
    destruct b as [[|] | | | [|] mb eb]; try discriminate; try reflexivity.
  - pose proof (valid_finite _ _ _ Vb) as ((? & _) & _).
    pose proof (units_pos mb eb ltac:(lia)).
    change (units (S754_zero false)) with 0 in E. lia.
  - pose proof (valid_finite _ _ _ Va) as ((? & _) & _).
    pose proof (units_pos ma ea ltac:(lia)).
    change (units (S754_zero false)) with 0 in E. lia.
  - pose proof (valid_units_expo _ Va eq_refl) as Ea.
    pose proof (valid_units_expo _ Vb eq_refl) as Eb.
    rewrite E in Ea. rewrite <- Eb in Ea. cbn [expo] in Ea. subst eb.
    pose proof (valid_finite _ _ _ Va) as ((? & _) & _).
    cbn [units cond_Zopp] in E.
    pose proof (pow2_pos (ea + 1074) ltac:(lia)).
    apply Z.mul_cancel_r in E; [| lia]. congruence.
Qed.

(** The sum of a breakdown, read back in units of [2^-1074]. *)
Lemma recon_units (b : DurationBreakdown) (x : f64) :
  -1074 <= expo (seconds b) -> -1074 <= expo x ->
  (reconstruction b == to_Q x)%Q ->
  units x = (31557600 * years b + 86400 * days b + 3600 * hours b
             + 60 * minutes b) * second + units (seconds b).
Proof.
  intros Hs Hx. unfold reconstruction.
  rewrite (to_Q_units _ Hs), (to_Q_units _ Hx).
  unfold Qeq, Qplus, Qmult, inject_Z. cbn [Qnum Qden].
  rewrite ?Pos.mul_1_l, ?Pos.mul_1_r, second_to_pos.
  pose proof second_pos as Hp. intros H.
  apply (Z.mul_cancel_r _ _ second); [lia |]. rewrite <- H. ring.
Qed.

(** Division with remainder, from a decomposition. *)
Lemma div_mod_decompose (a q r d : Z) :
  0 < d -> 0 <= r < d -> a = q * d + r -> a / d = q /\ a mod d = r.
Proof.
  intros Hd Hr ->. split.
  - symmetry. apply (Z.div_unique _ _ _ r); lia.
  - symmetry. apply (Z.mod_unique _ _ q); lia.
Qed.

(** The breakdown of [x] from any decomposition of [x] into whole years,
    days, hours and minutes and a rest of seconds, when each part is in
    range. *)
Lemma breakdown_decompose (x s : f64) (Y D H M : Z) :
  valid x = true -> nonneg_finite x = true -> units x < 2 ^ 58 * second ->
  valid s = true -> nonneg_finite s = true -> units s < 60 * second ->
  0 <= Y -> 0 <= D -> 0 <= H <= 23 -> 0 <= M <= 59 ->
  (86400 * D + 3600 * H + 60 * M) * second + units s < 31557600 * second ->
  units x = (31557600 * Y + 86400 * D + 3600 * H + 60 * M) * second + units s ->
  breakdown x = Ok {| years := Y; days := D; hours := H; minutes := M;
                      seconds := s |}.
Proof.
  intros V N Hx Vs Ns Hs60 HY HD HH HM Hyear R.
  pose proof (units_nonneg _ Ns) as Ps.
  pose proof second_pos as Hp.
  set (u := units s) in *.
  destruct (breakdown_exact x V N Hx)
    as (r1 & r2 & r3 & r4 & _ & E & (V1 & N1 & U1) & (V2 & N2 & U2)
        & (V3 & N3 & U3) & (V4 & N4 & U4)).
  rewrite E.
  destruct (div_mod_decompose (units x) Y
              ((86400 * D + 3600 * H + 60 * M) * second + u)
              (31557600 * second)) as [Q1 M1]; [lia | nia | lia |].
  rewrite M1 in U1.
  destruct (div_mod_decompose (units r1) D ((3600 * H + 60 * M) * second + u)
              (86400 * second)) as [Q2 M2]; [lia | nia | lia |].
  rewrite M2 in U2.
  destruct (div_mod_decompose (units r2) H (60 * M * second + u)
              (3600 * second)) as [Q3 M3]; [lia | nia | lia |].
  rewrite M3 in U3.
  destruct (div_mod_decompose (units r3) M u (60 * second))
    as [Q4 M4]; [lia | lia | lia |].
  rewrite M4 in U4.
  rewrite Q1, Q2, Q3, Q4.
  rewrite (valid_units_inj r4 s V4 Vs N4 Ns U4). reflexivity.
Qed.

Lemma of_Z_nonneg_exact (k : Z) :
  0 <= k < 2 ^ 53 ->
  valid (of_Z k) = true /\ nonneg_finite (of_Z k) = true
  /\ units (of_Z k) = k * second.
Proof.
  intros Hk. destruct (Z.eq_dec k 0) as [-> | Hne].
  - repeat split.
  - destruct (of_Z_exact k ltac:(lia)) as (F & V & U).
    split; [exact V |]. split; [| exact U].
    apply finite_with_sign_nonneg, F.
Qed.

(** X1.  Round trip.  If a nonnegative double below [2^58] seconds is
    the exact sum of whole years, days, hours and minutes and a double of
    seconds, with hours at most 23, minutes at most 59, seconds below 60
    and the days, hours, minutes and seconds together below one year, the
    conversion returns exactly these components. *)
Theorem breakdown_unique (x : f64) (b : DurationBreakdown) :
  valid x = true -> nonneg_finite x = true -> (to_Q x < inject_Z (2 ^ 58))%Q ->
  0 <= years b -> 0 <= days b -> 0 <= hours b <= 23 -> 0 <= minutes b <= 59 ->
  valid (seconds b) = true -> nonneg_finite (seconds b) = true ->
  (to_Q (seconds b) < 60)%Q ->
  (inject_Z (days b) * 86400 + inject_Z (hours b) * 3600
   + inject_Z (minutes b) * 60 + to_Q (seconds b) < 31557600)%Q ->
  (reconstruction b == to_Q x)%Q ->
  breakdown x = Ok b.
Proof.
  intros V N H HY HD HH HM Vs Ns Hs60 Hyear R.
  pose proof (valid_expo x V) as Ex. pose proof (valid_expo _ Vs) as Es.
  apply (to_Q_lt_units x _ Ex) in H.
  apply (recon_units b x Es Ex) in R.
  change 60%Q with (inject_Z 60) in Hs60.
  apply (to_Q_lt_units _ _ Es) in Hs60.
  rewrite (to_Q_units _ Es) in Hyear.
  unfold Qlt, Qplus, Qmult, inject_Z in Hyear. cbn [Qnum Qden] in Hyear.
  rewrite ?Pos.mul_1_l, ?Pos.mul_1_r, second_to_pos in Hyear.
  pose proof second_pos as Hp.
  destruct b as [Y D Hh M s]. cbn [years days hours minutes seconds] in *.
  apply breakdown_decompose; try assumption. lia.
Qed.

Lemma breakdown_unique_witness :
  breakdown (decimal 900615 1)
  = Ok {| years := 0; days := 1; hours := 1; minutes := 1;
          seconds := decimal 15 1 |}.
Proof.
  apply (breakdown_unique (decimal 900615 1)
           {| years := 0; days := 1; hours := 1; minutes := 1;
              seconds := decimal 15 1 |});
    cbn [years days hours minutes seconds]; try lia;
    vm_compute; first [reflexivity | discriminate].
Defined.

(** X2.  On a whole number [n] of seconds below [2^53] the conversion is
    integer division with remainder: the years are [n / 31557600], and
    with [r] the remainder, the days are [r / 86400], the hours
    [(r mod 86400) / 3600], the minutes [(r mod 3600) / 60] and the
    seconds the double [r mod 60]. *)
Theorem breakdown_whole_seconds (n : Z) :
  0 <= n < 2 ^ 53 ->
  breakdown (of_Z n)
  = Ok {| years := n / 31557600;
          days := (n mod 31557600) / 86400;
          hours := ((n mod 31557600) mod 86400) / 3600;
          minutes := ((n mod 31557600) mod 3600) / 60;
          seconds := of_Z ((n mod 31557600) mod 60) |}.
Proof.
  intros Hn.
  destruct (of_Z_nonneg_exact n Hn) as (V & N & U).
  set (r := n mod 31557600).
  assert (Hr : 0 <= r < 31557600) by (apply Z.mod_pos_bound; lia).
  assert (Hs : 0 <= r mod 60 < 60) by (apply Z.mod_pos_bound; lia).
  destruct (of_Z_nonneg_exact (r mod 60) ltac:(lia)) as (Vs & Ns & Us).
  pose proof second_pos as Hp.
  pose proof (Z.div_mod n 31557600 ltac:(lia)) as E1. fold r in E1.
  pose proof (Z.div_mod r 86400 ltac:(lia)) as E2.
  pose proof (Z.mod_pos_bound r 86400 ltac:(lia)) as B2.
  pose proof (Z.div_mod (r mod 86400) 3600 ltac:(lia)) as E3.
  pose proof (Z.mod_pos_bound (r mod 86400) 3600 ltac:(lia)) as B3.
  assert (M3 : (r mod 86400) mod 3600 = r mod 3600).
  { rewrite (Z.mod_eq r 86400) by lia.
    replace (r - 86400 * (r / 86400)) with (r + (- 24 * (r / 86400)) * 3600) by ring.
    apply Z.mod_add. lia. }
  pose proof (Z.div_mod (r mod 3600) 60 ltac:(lia)) as E4.
  pose proof (Z.mod_pos_bound (r mod 3600) 60 ltac:(lia)) as B4.
  assert (M4 : (r mod 3600) mod 60 = r mod 60).
  { rewrite (Z.mod_eq r 3600) by lia.
    replace (r - 3600 * (r / 3600)) with (r + (- 60 * (r / 3600)) * 60) by ring.
    apply Z.mod_add. lia. }
  rewrite M3 in *. rewrite M4 in *.
  apply breakdown_decompose; try assumption.
  - rewrite U. apply Z.mul_lt_mono_pos_r; [exact Hp |].
    change (2 ^ 58) with (32 * 2 ^ 53). lia.
  - rewrite Us. apply Z.mul_lt_mono_pos_r; [exact Hp | lia].
  - apply Z.div_pos; lia.
  - apply Z.div_pos; lia.
  - split; [apply Z.div_pos; lia |].
    assert (r mod 86400 / 3600 < 24); [| lia].
    apply Z.div_lt_upper_bound; lia.
  - split; [apply Z.div_pos; lia |].
    assert (r mod 3600 / 60 < 60); [| lia].
    apply Z.div_lt_upper_bound; lia.
  - rewrite Us.
    replace ((86400 * (r / 86400) + 3600 * (r mod 86400 / 3600)
              + 60 * (r mod 3600 / 60)) * second + r mod 60 * second)
      with (r * second) by (rewrite E2 at 1; rewrite E3 at 1; rewrite E4 at 1; ring).
    apply Z.mul_lt_mono_pos_r; [exact Hp | lia].
  - rewrite U, Us. rewrite E1 at 1. rewrite E2 at 1. rewrite E3 at 1.
    rewrite E4 at 1. ring.
Qed.

Lemma breakdown_whole_seconds_witness :
  breakdown (of_Z 100000000)
  = Ok {| years := 3; days := 61; hours := 15; minutes := 46;
          seconds := of_Z 40 |}.
Proof. apply (breakdown_whole_seconds 100000000). lia. Defined.

(** X3.  A nonnegative double below 60 seconds passes through
    unchanged: years, days, hours and minutes are zero and the seconds
    are the input itself. *)
Theorem breakdown_below_minute (x : f64) :
  valid x = true -> nonneg_finite x = true -> (to_Q x < 60)%Q ->
  breakdown x
  = Ok {| years := 0; days := 0; hours := 0; minutes := 0; seconds := x |}.
Proof.
  intros V N H. change 60%Q with (inject_Z 60) in H.
  apply (to_Q_lt_units x _ (valid_expo x V)) in H.
  pose proof second_pos as Hp.
  apply breakdown_decompose; try assumption; lia.
Qed.

Lemma breakdown_below_minute_witness :
  breakdown (decimal 59999 3)
  = Ok {| years := 0; days := 0; hours := 0; minutes := 0;
          seconds := decimal 59999 3 |}.
Proof.
  apply (breakdown_below_minute (decimal 59999 3));
    vm_compute; reflexivity.
Defined.

(** X4.  The conversion loses nothing: two nonnegative doubles below
    [2^58] seconds that have the same breakdown are equal. *)
Theorem breakdown_injective (x y : f64) :
  valid x = true -> nonneg_finite x = true -> (to_Q x < inject_Z (2 ^ 58))%Q ->
  valid y = true -> nonneg_finite y = true -> (to_Q y < inject_Z (2 ^ 58))%Q ->
  breakdown x = breakdown y -> x = y.
Proof.
  intros Vx Nx Hx Vy Ny Hy E.
  apply (to_Q_lt_units x _ (valid_expo x Vx)) in Hx.
  apply (to_Q_lt_units y _ (valid_expo y Vy)) in Hy.
  destruct (breakdown_exact x Vx Nx Hx)
    as (r1 & r2 & r3 & r4 & _ & Ex & (_ & _ & U1) & (_ & _ & U2)
        & (_ & _ & U3) & (_ & _ & U4)).
  destruct (breakdown_exact y Vy Ny Hy)
    as (s1 & s2 & s3 & s4 & _ & Ey & (_ & _ & W1) & (_ & _ & W2)
        & (_ & _ & W3) & (_ & _ & W4)).
  rewrite Ex, Ey in E.
  assert (P : forall A (f : DurationBreakdown -> A) (b c : DurationBreakdown),
             Ok b = Ok c -> f b = f c) by (intros A f b c [= ->]; reflexivity).
  pose proof (P _ years _ _ E) as E1. pose proof (P _ days _ _ E) as E2.
  pose proof (P _ hours _ _ E) as E3. pose proof (P _ minutes _ _ E) as E4.
  pose proof (P _ seconds _ _ E) as E5.
  cbv beta iota delta [years days hours minutes seconds] in E1, E2, E3, E4, E5.
  pose proof second_pos as Hp.
  apply valid_units_inj; try assumption.
  rewrite (Z.div_mod (units x) (31557600 * second)) by lia.
  rewrite (Z.div_mod (units y) (31557600 * second)) by lia.
  rewrite <- U1, <- W1, E1. f_equal.
  rewrite (Z.div_mod (units r1) (86400 * second)) by lia.
  rewrite (Z.div_mod (units s1) (86400 * second)) by lia.
  rewrite <- U2, <- W2, E2. f_equal.
  rewrite (Z.div_mod (units r2) (3600 * second)) by lia.
  rewrite (Z.div_mod (units s2) (3600 * second)) by lia.
  rewrite <- U3, <- W3, E3. f_equal.
  rewrite (Z.div_mod (units r3) (60 * second)) by lia.
  rewrite (Z.div_mod (units s3) (60 * second)) by lia.
  rewrite <- U4, <- W4, E4, E5. reflexivity.
Qed.

Lemma breakdown_injective_witness :
  decimal 900615 1 = decimal 9006150 2.
Proof.
  apply (breakdown_injective (decimal 900615 1) (decimal 9006150 2));
    vm_compute; reflexivity.
Defined.

(** X5.  The seconds left by the conversion need no further conversion:
    for every nonnegative double below [2^58] seconds, converting the
    seconds component of the breakdown again gives zero years, days, hours
    and minutes and the same seconds. *)
Theorem breakdown_seconds_again (x : f64) :
  valid x = true -> nonneg_finite x = true -> (to_Q x < inject_Z (2 ^ 58))%Q ->
  exists b,
    breakdown x = Ok b
    /\ breakdown (seconds b)
       = Ok {| years := 0; days := 0; hours := 0; minutes := 0;
               seconds := seconds b |}.
Proof.
  intros V N H. apply (to_Q_lt_units x _ (valid_expo x V)) in H.
  destruct (breakdown_exact x V N H)
    as (r1 & r2 & r3 & r4 & _ & E & _ & _ & (_ & N3 & _) & (V4 & N4 & U4)).
  eexists. split; [exact E |]. cbn [seconds].
  pose proof second_pos as Hp.
  pose proof (Z.mod_pos_bound (units r3) (60 * second) ltac:(lia)) as B.
  rewrite <- U4 in B.
  apply breakdown_decompose; try assumption; lia.
Qed.

Lemma breakdown_seconds_again_witness :
  exists b,
    breakdown x_max = Ok b
    /\ breakdown (seconds b)
       = Ok {| years := 0; days := 0; hours := 0; minutes := 0;
               seconds := seconds b |}.
Proof. apply (breakdown_seconds_again x_max); vm_compute; reflexivity. Defined.

(** ** Negation *)

Lemma binary_round_aux_opp (s : bool) (m e : Z) (l : location) :
  binary_round_aux prec emax (negb s) m e l
  = SFopp (binary_round_aux prec emax s m e l).
Proof.
  unfold binary_round_aux.
  destruct (shr_fexp prec emax m e l) as [mrs' e'].
  destruct (shr_fexp prec emax _ e' loc_Exact) as [mrs'' e''].
  destruct (shr_m mrs''); [reflexivity | | reflexivity].
  destruct (e'' <=? emax - prec); reflexivity.
Qed.

Lemma binary_round_opp (s : bool) (m : positive) (e : Z) :
  binary_round prec emax (negb s) m e = SFopp (binary_round prec emax s m e).
Proof.
  unfold binary_round. destruct (shl_align m e _) as [mz ez].
  apply binary_round_aux_opp.
Qed.

Lemma binary_normalize_opp (z e : Z) :
  z <> 0 ->
  binary_normalize prec emax (- z) e false
  = SFopp (binary_normalize prec emax z e false).
Proof.
  destruct z as [| p | p]; intros Hz; [contradiction | |]; cbn [Z.opp binary_normalize].
  - apply (binary_round_opp false).
  - rewrite (binary_round_opp false). destruct (binary_round prec emax false p e) as [[|] | [|] | | [|] ? ?]; reflexivity.
Qed.

Lemma of_Z_opp (c : Z) : c <> 0 -> of_Z (- c) = SFopp (of_Z c).
Proof. apply binary_normalize_opp. Qed.

Lemma SFopp_involutive (x : f64) : SFopp (SFopp x) = x.
Proof. destruct x as [[|] | [|] | | [|] ? ?]; reflexivity. Qed.

Lemma div_opp (x : f64) (md : positive) (ed : Z) :
  div (SFopp x) (S754_finite false md ed)
  = SFopp (div x (S754_finite false md ed)).
Proof.
  destruct x as [s | s | | s m e]; unfold div; cbn [SFopp SFdiv];
    try (destruct s; reflexivity); try reflexivity.
  destruct (SFdiv_core_binary prec emax (Z.pos m) e (Z.pos md) ed) as [[mz ez] lz].
  rewrite !xorb_false_r. apply binary_round_aux_opp.
Qed.

Lemma mul_opp (a : f64) (md : positive) (ed : Z) :
  mul (SFopp a) (S754_finite false md ed)
  = SFopp (mul a (S754_finite false md ed)).
Proof.
  destruct a as [s | s | | s m e]; unfold mul; cbn [SFopp SFmul];
    try (destruct s; reflexivity); try reflexivity.
  rewrite !xorb_false_r. apply binary_round_aux_opp.
Qed.

Lemma trunc_opp (q : f64) : trunc (SFopp q) = - trunc q.
Proof.
  destruct q as [s | s | | s m e]; cbn [SFopp trunc]; try reflexivity.
  destruct s; cbn [negb cond_Zopp]; lia.
Qed.

Lemma negated_opp (a : f64) : negated a (SFopp a).
Proof. left. reflexivity. Qed.

Lemma sub_negated (x t t' : f64) :
  negated t t' -> negated (sub x t) (sub (SFopp x) t').
Proof.
  intros [-> | [Zt Zt']].
  - destruct x as [sx | sx | | sx mx ex]; destruct t as [st | st | | st mt et];
      unfold sub; cbn [SFopp SFsub];
      try (destruct sx; destruct st; cbn [negb]; (left; reflexivity) || (right; split; reflexivity));
      try (destruct sx; cbn [negb]; left; reflexivity);
      try (destruct st; cbn [negb]; left; reflexivity);
      try (left; reflexivity).
    set (ez := IntDef.Z.min ex et).
    set (A := Z.pos (fst (shl_align mx ex ez))).
    set (B := Z.pos (fst (shl_align mt et ez))).
    replace (cond_Zopp (negb sx) A - cond_Zopp (negb st) B)
      with (- (cond_Zopp sx A - cond_Zopp st B))
      by (destruct sx, st; cbn [negb cond_Zopp]; lia).
    destruct (Z.eq_dec (cond_Zopp sx A - cond_Zopp st B) 0) as [E | E].
    + rewrite E. right. split; reflexivity.
    + left. apply binary_normalize_opp, E.
  - destruct t as [st | | |]; try discriminate.
    destruct t' as [st' | | |]; try discriminate.
    destruct x as [sx | sx | | sx mx ex]; unfold sub; cbn [SFopp SFsub];
      try (left; reflexivity).
    destruct sx, st, st'; cbn [negb]; right; split; reflexivity.
Qed.

Lemma is_finite_opp (y : f64) : is_finite (SFopp y) = is_finite y.
Proof. destruct y; reflexivity. Qed.

(** One unit of the conversion on a negated remainder. *)
Lemma take_unit_negated (x x' : f64) (md : positive) (ed : Z) :
  negated x x' ->
  negated_step (take_unit x (S754_finite false md ed))
               (take_unit x' (S754_finite false md ed)).
Proof.
  set (d := S754_finite false md ed).
  assert (Z0 : forall s, take_unit (S754_zero s) d = Ok (0, S754_zero s))
    by (intros [|]; reflexivity).
  intros [-> | [Zx Zx']].
  2:{ destruct x as [s | | |]; try discriminate.
      destruct x' as [s' | | |]; try discriminate.
      rewrite !Z0. cbn. split; [reflexivity |]. right. split; reflexivity. }
  unfold take_unit, truediv. change (is_zero d) with false. cbn [bind].
  unfold d. rewrite div_opp. fold d.
  destruct (div x d) as [sq | sq | | sq mq eq] eqn:Eq;
    cbn [SFopp int_of_float bind negated_step]; try reflexivity.
  - (* the quotient is a zero *)
    change (trunc (S754_zero _)) with 0.
    change (int_mul_float 0 d) with (Ok (S754_zero false) : result f64).
    cbn [bind negated_step]. split; [reflexivity |].
    apply sub_negated. right. split; reflexivity.
  - set (q := S754_finite sq mq eq).
    change (S754_finite (negb sq) mq eq) with (SFopp q).
    rewrite trunc_opp. set (c := trunc q).
    destruct (Z.eq_dec c 0) as [-> | Hc].
    + change (int_mul_float (- 0) d) with (Ok (S754_zero false) : result f64).
      change (int_mul_float 0 d) with (Ok (S754_zero false) : result f64).
      cbn [bind negated_step]. split; [reflexivity |].
      apply sub_negated. right. split; reflexivity.
    + unfold int_mul_float, float_of_int. rewrite (of_Z_opp c Hc), is_finite_opp.
      destruct (is_finite (of_Z c)); cbn [bind negated_step]; [| reflexivity].
      split; [reflexivity |]. apply sub_negated.
      unfold d. rewrite mul_opp. apply negated_opp.
Qed.

Lemma take_unit_negated_divisor (x x' d : f64) :
  finite_with_sign false d -> negated x x' ->
  negated_step (take_unit x d) (take_unit x' d).
Proof.
  destruct d as [| | | s md ed]; cbn [finite_with_sign]; try contradiction.
  intros ->. apply take_unit_negated.
Qed.

(** The conversion on a negated input: the same exception, or the
    negated counts and the negated rest. *)
Lemma breakdown_negated (x x' : f64) :
  negated x x' ->
  match breakdown x, breakdown x' with
  | Ok b, Ok b' =>
      years b' = - years b /\ days b' = - days b /\ hours b' = - hours b
      /\ minutes b' = - minutes b /\ negated (seconds b) (seconds b')
  | Raise e, Raise e' => e = e'
  | _, _ => False
  end.
Proof.
  intros H0. unfold breakdown, convert.
  pose proof (take_unit_negated_divisor x x' seconds_per_year eq_refl H0) as S1.
  destruct (take_unit x seconds_per_year) as [[c1 r1] | e1];
    destruct (take_unit x' seconds_per_year) as [[c1' r1'] | e1'];
    cbn [negated_step] in S1; try contradiction; cbn [bind fst snd];
    [| exact S1].
  destruct S1 as [C1 H1].
  pose proof (take_unit_negated_divisor r1 r1' seconds_per_day eq_refl H1) as S2.
  destruct (take_unit r1 seconds_per_day) as [[c2 r2] | e2];
    destruct (take_unit r1' seconds_per_day) as [[c2' r2'] | e2'];
    cbn [negated_step] in S2; try contradiction; cbn [bind fst snd];
    [| exact S2].
  destruct S2 as [C2 H2].
  pose proof (take_unit_negated_divisor r2 r2' seconds_per_hour eq_refl H2) as S3.
  destruct (take_unit r2 seconds_per_hour) as [[c3 r3] | e3];
    destruct (take_unit r2' seconds_per_hour) as [[c3' r3'] | e3'];
    cbn [negated_step] in S3; try contradiction; cbn [bind fst snd];
    [| exact S3].
  destruct S3 as [C3 H3].
  pose proof (take_unit_negated_divisor r3 r3' seconds_per_minute eq_refl H3) as S4.
  destruct (take_unit r3 seconds_per_minute) as [[c4 r4] | e4];
    destruct (take_unit r3' seconds_per_minute) as [[c4' r4'] | e4'];
    cbn [negated_step] in S4; try contradiction; cbn [bind fst snd];
    [| exact S4].
  destruct S4 as [C4 H4].
  cbn [years days hours minutes seconds]. auto.
Qed.

(** X6.  The conversion is odd.  On the negated input it raises the same
    exception, or it returns the negated years, days, hours and minutes
    and the negated seconds (up to the sign of a zero): [int()] truncates
    toward zero, so a negative duration borrows nothing from a larger
    unit. *)
Theorem breakdown_opp (x : f64) :
  match breakdown x, breakdown (SFopp x) with
  | Ok b, Ok b' =>
      years b' = - years b /\ days b' = - days b /\ hours b' = - hours b
      /\ minutes b' = - minutes b /\ negated (seconds b) (seconds b')
  | Raise e, Raise e' => e = e'
  | _, _ => False
  end.
Proof. apply breakdown_negated, negated_opp. Qed.

Lemma to_Q_negated (a b : f64) : negated a b -> (to_Q b == - to_Q a)%Q.
Proof.
  intros [-> | [Za Zb]].
  - destruct a as [s | s | | s m e]; cbn [SFopp to_Q]; try reflexivity.
    destruct (0 <=? e); destruct s; unfold Qeq, Qopp, inject_Z;
      cbn [Qnum Qden negb cond_Zopp]; lia.
  - destruct a; try discriminate. destruct b; try discriminate. reflexivity.
Qed.

Lemma valid_opp (x : f64) : valid (SFopp x) = valid x.
Proof. destruct x; reflexivity. Qed.

Lemma valid_negated (a b : f64) : negated a b -> valid a = true -> valid b = true.
Proof.
  intros [-> | [_ Zb]].
  - rewrite valid_opp. auto.
  - destruct b; try discriminate. reflexivity.
Qed.

(** X7.  For every negative double above [-2^58] seconds the conversion
    returns a breakdown that sums to the input exactly and whose
    components are all nonpositive: days at least -365, hours at least
    -23, minutes at least -59 and seconds above -60. *)
Theorem breakdown_negative (x : f64) :
  valid x = true -> is_finite x = true -> sign_bit x = true ->
  (- inject_Z (2 ^ 58) < to_Q x)%Q ->
  exists b,
    breakdown x = Ok b
    /\ (reconstruction b == to_Q x)%Q
    /\ years b <= 0
    /\ -365 <= days b <= 0
    /\ -23 <= hours b <= 0
    /\ -59 <= minutes b <= 0
    /\ (- (60) < to_Q (seconds b) <= 0)%Q.
Proof.
  intros V F S H.
  set (y := SFopp x).
  assert (Vy : valid y = true) by (unfold y; rewrite valid_opp; exact V).
  assert (Ny : nonneg_finite y = true)
    by (destruct x as [[|] | [|] | | [|] ? ?]; try discriminate; reflexivity).
  assert (Qy : (to_Q y == - to_Q x)%Q) by (apply to_Q_negated, negated_opp).
  assert (Hy : units y < 2 ^ 58 * second).
  { apply (to_Q_lt_units y _ (valid_expo y Vy)). rewrite Qy.
    apply Qopp_lt_compat in H. rewrite Qopp_opp in H. exact H. }
  destruct (breakdown_exact y Vy Ny Hy)
    as (r1 & r2 & r3 & r4 & _ & E & (V1 & N1 & U1) & (V2 & N2 & U2)
        & (V3 & N3 & U3) & (V4 & N4 & U4)).
  pose proof (breakdown_negated y (SFopp y) (negated_opp y)) as O. rewrite E in O.
  unfold y in O at 1. rewrite SFopp_involutive in O.
  destruct (breakdown x) as [b | e]; [| contradiction].
  cbn [years days hours minutes seconds] in O.
  destruct O as (OY & OD & OH & OM & OS).
  exists b. split; [reflexivity |].
  pose proof second_pos as Hs.
  pose proof (units_nonneg y Ny) as P0.
  pose proof (units_nonneg r1 N1) as P1.
  pose proof (units_nonneg r2 N2) as P2.
  pose proof (units_nonneg r3 N3) as P3.
  pose proof (units_nonneg r4 N4) as P4.
  pose proof (Z.mod_pos_bound (units y) (31557600 * second) ltac:(lia)) as B1.
  pose proof (Z.mod_pos_bound (units r1) (86400 * second) ltac:(lia)) as B2.
  pose proof (Z.mod_pos_bound (units r2) (3600 * second) ltac:(lia)) as B3.
  pose proof (Z.mod_pos_bound (units r3) (60 * second) ltac:(lia)) as B4.
  rewrite <- U1 in B1. rewrite <- U2 in B2. rewrite <- U3 in B3. rewrite <- U4 in B4.
  pose proof (to_Q_negated _ _ OS) as QS.
  assert (Q4 : (0 <= to_Q r4 < 60)%Q).
  { split.
    - change 0%Q with (inject_Z 0). apply (to_Q_le_units r4 0 (valid_expo r4 V4)). lia.
    - change 60%Q with (inject_Z 60). apply (to_Q_lt_units r4 60 (valid_expo r4 V4)). lia. }
  split.
  { unfold reconstruction. rewrite OY, OD, OH, OM, QS.
    rewrite <- (Qopp_opp (to_Q x)), <- Qy.
    rewrite (to_Q_units r4 (valid_expo r4 V4)), (to_Q_units y (valid_expo y Vy)).
    rewrite !inject_Z_opp.
    assert (R : (inject_Z (units y / (31557600 * second)) * 31557600
                 + inject_Z (units r1 / (86400 * second)) * 86400
                 + inject_Z (units r2 / (3600 * second)) * 3600
                 + inject_Z (units r3 / (60 * second)) * 60
                 + (units r4 # Z.to_pos second)
                 == units y # Z.to_pos second)%Q).
    { apply recon_Q. rewrite second_to_pos.
      pose proof (Z.div_mod (units y) (31557600 * second) ltac:(lia)).
      pose proof (Z.div_mod (units r1) (86400 * second) ltac:(lia)).
      pose proof (Z.div_mod (units r2) (3600 * second) ltac:(lia)).
      pose proof (Z.div_mod (units r3) (60 * second) ltac:(lia)).
      rewrite <- U1 in *. rewrite <- U2 in *. rewrite <- U3 in *. rewrite <- U4 in *.
      lia. }
    rewrite <- R. ring. }
  rewrite OY, OD, OH, OM.
  split; [assert (0 <= units y / (31557600 * second)) by (apply Z.div_pos; lia); lia |].
  split.
  { assert (0 <= units r1 / (86400 * second) < 366); [| lia].
    split; [apply Z.div_pos; lia | apply Z.div_lt_upper_bound; lia]. }
  split.
  { assert (0 <= units r2 / (3600 * second) < 24); [| lia].
    split; [apply Z.div_pos; lia | apply Z.div_lt_upper_bound; lia]. }
  split.
  { assert (0 <= units r3 / (60 * second) < 60); [| lia].
    split; [apply Z.div_pos; lia | apply Z.div_lt_upper_bound; lia]. }
  rewrite QS. destruct Q4 as [Q40 Q460]. split.
  - apply Qopp_lt_compat. exact Q460.
  - change 0%Q with (- 0)%Q. apply Qopp_le_compat. exact Q40.
Qed.

Lemma breakdown_negative_witness :
  exists b,
    breakdown (SFopp (decimal 900615 1)) = Ok b
    /\ (reconstruction b == to_Q (SFopp (decimal 900615 1)))%Q
    /\ years b <= 0
    /\ -365 <= days b <= 0
    /\ -23 <= hours b <= 0
    /\ -59 <= minutes b <= 0
    /\ (- (60) < to_Q (seconds b) <= 0)%Q.
Proof.
  apply (breakdown_negative (SFopp (decimal 900615 1)));
    vm_compute; reflexivity.
Defined.

(** ** Exceptions *)

Lemma take_unit_not_finite (x d : f64) :
  finite_with_sign false d -> is_finite x = false ->
  take_unit x d = Raise (int_error x).
Proof.
  destruct d as [| | | s md ed]; cbn [finite_with_sign]; try contradiction.
  intros ->. destruct x as [| s | |]; try discriminate; intros _; reflexivity.
Qed.

(** X8.  An input that is not finite stops the conversion at the first
    [int()]: an infinity raises [OverflowError] and a NaN raises
    [ValueError]. *)
Theorem breakdown_not_finite (x : f64) :
  is_finite x = false -> breakdown x = Raise (int_error x).
Proof.
  intros H. unfold breakdown, convert.
  rewrite (take_unit_not_finite x seconds_per_year eq_refl H). reflexivity.
Qed.

Lemma breakdown_not_finite_witness :
  breakdown (S754_infinity true) = Raise OverflowError.
Proof. apply (breakdown_not_finite (S754_infinity true)). reflexivity. Defined.

Lemma take_unit_no_zero_division (x d : f64) :
  finite_with_sign false d -> take_unit x d <> Raise ZeroDivisionError.
Proof.
  destruct d as [| | | s md ed]; cbn [finite_with_sign]; try contradiction.
  intros ->. unfold take_unit, truediv. cbn [is_zero bind].
  destruct (div x _) as [sq | sq | | sq mq eq]; cbn [int_of_float bind];
    try discriminate;
    unfold int_mul_float, float_of_int;
    destruct (is_finite (of_Z _)); cbn [bind]; discriminate.
Qed.

(** X9.  No input whatsoever makes the conversion raise
    [ZeroDivisionError]: the four divisors are nonzero. *)
Theorem breakdown_no_zero_division (x : f64) :
  breakdown x <> Raise ZeroDivisionError.
Proof.
  unfold breakdown, convert.
  pose proof (take_unit_no_zero_division x seconds_per_year eq_refl) as H1.
  destruct (take_unit x seconds_per_year) as [[c1 r1] | e1]; cbn [bind fst snd];
    [| congruence].
  pose proof (take_unit_no_zero_division r1 seconds_per_day eq_refl) as H2.
  destruct (take_unit r1 seconds_per_day) as [[c2 r2] | e2]; cbn [bind fst snd];
    [| congruence].
  pose proof (take_unit_no_zero_division r2 seconds_per_hour eq_refl) as H3.
  destruct (take_unit r2 seconds_per_hour) as [[c3 r3] | e3]; cbn [bind fst snd];
    [| congruence].
  pose proof (take_unit_no_zero_division r3 seconds_per_minute eq_refl) as H4.
  destruct (take_unit r3 seconds_per_minute) as [[c4 r4] | e4]; cbn [bind fst snd];
    [discriminate | congruence].
Qed.

(** ** Rounding in general *)

Lemma constant_facts :
  0 < second /\ 0 < top_ulp_units
  /\ overflow_units = 2 ^ 53 * top_ulp_units
  /\ top_ulp_units = 2 ^ 971 * second.
Proof. repeat split. Qed.

Lemma pow2_le (a b : Z) : 0 <= a <= b -> 2 ^ a <= 2 ^ b.
Proof. intros. apply Z.pow_le_mono_r; lia. Qed.

Lemma pow2_lt (a b : Z) : 0 <= a < b -> 2 ^ a < 2 ^ b.
Proof. intros. apply Z.pow_lt_mono_r; lia. Qed.

Lemma valid_finite_intro (s : bool) (m : positive) (e : Z) :
  e <= 971 -> fexp prec emax (Zdigits2 (Z.pos m) + e) = e ->
  valid (S754_finite s m e) = true.
Proof.
  intros He Hc. unfold valid, valid_binary, bounded, canonical_mantissa.
  change (Z.pos (digits2_pos m)) with (Zdigits2 (Z.pos m)).
  rewrite Hc, Z.eqb_refl. apply Z.leb_le. unfold emax, prec. lia.
Qed.

(** What [binary_round_aux] returns on an input that is at least as fine
    as the format asks: the fraction rounded to nearest on the grid of
    the format, or an infinity when that reaches [2^1024]. *)
Lemma rounded_aligned (s : bool) (N D mx ex : Z) :
  0 <= N -> 0 < D -> mx = N / D ->
  ex <= fexp prec emax (Zdigits2 mx + ex) ->
  let e1 := fexp prec emax (Zdigits2 mx + ex) in
  let m1 := rne N (D * 2 ^ (e1 - ex)) in
  let r := rounded s N D mx ex in
  0 <= m1 <= 2 ^ 53 /\ -1074 <= e1 /\ (-1074 < e1 -> 2 ^ 52 <= m1)
  /\ (m1 * 2 ^ (e1 + 1074) < overflow_units ->
      valid r = true /\ is_finite r = true
      /\ units r = cond_Zopp s (m1 * 2 ^ (e1 + 1074)))
  /\ (overflow_units <= m1 * 2 ^ (e1 + 1074) -> r = S754_infinity s).
Proof.
  intros HN HD Hmx Hal e1 m1 r.
  assert (He1 : -1074 <= e1) by (unfold e1; rewrite fexp_eq; lia).
  set (n1 := e1 - ex). assert (Hn1 : 0 <= n1) by (unfold n1, e1; lia).
  pose proof (pow2_pos n1 Hn1) as Hpn1.
  assert (HDg : 0 < D * 2 ^ n1) by nia.
  assert (Hmx0 : 0 <= mx) by (subst mx; apply Z.div_pos; lia).
  pose proof (Zdigits2_nonneg mx) as Hdg0.
  assert (Hfloor : mx * D <= N < (mx + 1) * D).
  { subst mx. pose proof (Z.div_mod N D ltac:(lia)).
    pose proof (Z.mod_pos_bound N D HD). nia. }
  assert (Hdn : Zdigits2 mx <= 53 + n1)
    by (unfold n1, e1; rewrite fexp_eq; lia).
  assert (Hhi : m1 <= 2 ^ 53).
  { apply (Z.mul_le_mono_pos_r _ _ (D * 2 ^ n1) HDg).
    apply rne_le_grid; [assumption | | exists (2 ^ 53); reflexivity].
    assert (mx + 1 <= 2 ^ (53 + n1)).
    { destruct (Z.eq_dec mx 0) as [-> | Hne].
      - pose proof (pow2_pos (53 + n1) ltac:(lia)). lia.
      - pose proof (Zdigits2_bounds mx ltac:(lia)) as [_ Hb].
        pose proof (pow2_le (Zdigits2 mx) (53 + n1) ltac:(lia)). lia. }
    rewrite (pow2_split 53 n1) in H by lia.
    apply Z.le_trans with ((mx + 1) * D); [lia |].
    replace (2 ^ 53 * (D * 2 ^ n1)) with (2 ^ 53 * 2 ^ n1 * D) by ring.
    apply Z.mul_le_mono_nonneg_r; lia. }
  assert (Hm10 : 0 <= m1) by (apply rne_nonneg; assumption).
  assert (Hlo : -1074 < e1 -> 2 ^ 52 <= m1).
  { intros Hnorm.
    assert (Hd : Zdigits2 mx = 53 + n1)
      by (unfold n1, e1 in *; rewrite fexp_eq in *; lia).
    assert (Hpos : 0 < mx).
    { destruct (Z.eq_dec mx 0) as [E0 | ?]; [| lia].
      rewrite E0 in Hd. change (Zdigits2 0) with 0 in Hd. lia. }
    pose proof (Zdigits2_bounds mx Hpos) as [Hb _].
    rewrite Hd in Hb. replace (53 + n1 - 1) with (52 + n1) in Hb by lia.
    rewrite (pow2_split 52 n1) in Hb by lia.
    apply (Z.mul_le_mono_pos_r _ _ (D * 2 ^ n1) HDg).
    apply rne_ge_floor_grid; [assumption | | exists (2 ^ 52); reflexivity].
    apply Z.le_trans with (mx * D); [| lia].
    replace (2 ^ 52 * (D * 2 ^ n1)) with (2 ^ 52 * 2 ^ n1 * D) by ring.
    apply Z.mul_le_mono_nonneg_r; lia. }
  split; [lia |]. split; [assumption |]. split; [assumption |].
  pose proof (pow2_pos (e1 + 1074) ltac:(lia)) as Hpe.
  unfold r, rounded. fold e1.
  replace (Z.max 0 (e1 - ex)) with n1 by (unfold n1; lia).
  change (rne N (D * 2 ^ n1)) with m1.
  replace (ex + n1) with e1 by (unfold n1; lia).
  destruct (Z.eq_dec m1 (2 ^ 53)) as [Etop | Ntop].
  - (* the mantissa rounds up to the next binade *)
    rewrite Etop. replace (Zdigits2 (2 ^ 53)) with 54 by reflexivity.
    rewrite fexp_eq.
    replace (Z.max 0 (Z.max (54 + e1 - 53) (-1074) - e1)) with 1 by lia.
    change (2 ^ 53 / 2 ^ 1) with (Z.pos 4503599627370496).
    rewrite <- (pow2_split 53 (e1 + 1074)) by lia.
    split.
    + intros Hfin. unfold overflow_units in Hfin.
      apply pow2_lt_inv in Hfin; [| lia].
      assert (Hb : (e1 + 1 <=? emax - prec) = true)
        by (apply Z.leb_le; unfold emax, prec; lia).
      rewrite Hb. split; [| split; [reflexivity |]].
      * apply valid_finite_intro; [lia |].
        change (Zdigits2 (Z.pos 4503599627370496)) with 53.
        rewrite fexp_eq. lia.
      * cbn [units]. f_equal.
        change (Z.pos 4503599627370496) with (2 ^ 52).
        rewrite <- (pow2_split 52 (e1 + 1 + 1074)) by lia. f_equal. lia.
    + intros Hinf.
      assert (971 <= e1).
      { destruct (Z_lt_le_dec e1 971) as [Hl | Hl]; [| assumption].
        pose proof (pow2_lt (53 + (e1 + 1074)) 2098 ltac:(lia)) as Hc.
        fold overflow_units in Hc. lia. }
      assert (Hb : (e1 + 1 <=? emax - prec) = false)
        by (apply Z.leb_gt; unfold emax, prec; lia).
      rewrite Hb. reflexivity.
  - assert (Hlt : m1 < 2 ^ 53) by lia.
    assert (Hn2 : Z.max 0 (fexp prec emax (Zdigits2 m1 + e1) - e1) = 0).
    { rewrite fexp_eq.
      assert (Zdigits2 m1 <= 53) by (apply Zdigits2_le; lia). lia. }
    rewrite Hn2, Z.pow_0_r, Z.div_1_r, Z.add_0_r.
    destruct m1 as [| p | p] eqn:Em; try lia.
    + split;
        [| intros H; rewrite Z.mul_0_l in H; exfalso; apply H; reflexivity].
      intros _.
      split; [reflexivity |]. split; [reflexivity |]. destruct s; reflexivity.
    + split.
      * intros Hfin.
        assert (He971 : e1 <= 971).
        { destruct (Z_le_gt_dec e1 971) as [Hl | Hl]; [assumption |].
          specialize (Hlo ltac:(lia)).
          assert (overflow_units <= Z.pos p * 2 ^ (e1 + 1074)); [| lia].
          apply Z.le_trans with (2 ^ 52 * 2 ^ 2046); [discriminate |].
          apply Z.mul_le_mono_nonneg;
            [discriminate | exact Hlo | discriminate | apply pow2_le; lia]. }
        assert (Hb : (e1 <=? emax - prec) = true)
          by (apply Z.leb_le; unfold emax, prec; lia).
        rewrite Hb. split; [| split; [reflexivity |]].
        -- apply valid_finite_intro; [assumption |].
           rewrite fexp_eq.
           assert (Zdigits2 (Z.pos p) <= 53) by (apply Zdigits2_le; lia).
           destruct (Z.eq_dec e1 (-1074)) as [? | ?]; [lia |].
           specialize (Hlo ltac:(lia)).
           assert (53 <= Zdigits2 (Z.pos p))
             by (apply Zdigits2_ge; [exact Hlo | lia]).
           lia.
        -- reflexivity.
      * intros Hinf.
        assert (971 < e1).
        { destruct (Z_le_gt_dec e1 971) as [Hl | Hl]; [| lia].
          assert (Z.pos p * 2 ^ (e1 + 1074) < overflow_units); [| lia].
          apply Z.lt_le_trans with (2 ^ 53 * 2 ^ (e1 + 1074)).
          - apply Z.mul_lt_mono_pos_r; lia.
          - apply Z.le_trans with (2 ^ 53 * 2 ^ 2045); [| discriminate].
            apply Z.mul_le_mono_nonneg_l; [discriminate | apply pow2_le; lia]. }
        assert (Hb : (e1 <=? emax - prec) = false)
          by (apply Z.leb_gt; unfold emax, prec; lia).
        rewrite Hb. reflexivity.
Qed.

Lemma rne_frac_eq (N D N' D' : Z) :
  0 < D -> 0 < D' -> N * D' = N' * D -> rne N D = rne N' D'.
Proof.
  intros HD HD' E.
  rewrite <- (rne_scale N D D' HD HD'), <- (rne_scale N' D' D HD' HD).
  rewrite E, (Z.mul_comm D D'). reflexivity.
Qed.

Lemma pow2_add (a b c : Z) : 0 <= a -> 0 <= b -> c = a + b -> 2 ^ c = 2 ^ a * 2 ^ b.
Proof. intros Ha Hb ->. apply Z.pow_add_r; assumption. Qed.

(** The integer part of a nonnegative double, from its units. *)
Lemma trunc_units (q : f64) :
  nonneg_finite q = true -> -1074 <= expo q -> trunc q = units q / second.
Proof.
  destruct q as [[|] | | | [|] m e]; try discriminate; intros _; cbn [expo]; intros He.
  - reflexivity.
  - cbn [trunc units cond_Zopp]. unfold second.
    pose proof (pow2_pos (e + 1074) ltac:(lia)) as Hp.
    destruct (Z.leb_spec 0 e) as [H0 | H0].
    + rewrite Z.shiftl_mul_pow2 by lia.
      rewrite (pow2_add e 1074 (e + 1074)) by lia.
      rewrite Z.mul_assoc, Z.div_mul; [reflexivity | discriminate].
    + rewrite Z.shiftr_div_pow2 by lia.
      rewrite (pow2_add (- e) (e + 1074) 1074) by lia.
      pose proof (pow2_pos (- e) ltac:(lia)).
      rewrite Z.div_mul_cancel_r; [reflexivity | |]; lia.
Qed.

(** Rounding a value given exactly by a mantissa and an exponent. *)
Lemma rounded_units (s : bool) (M ex V : Z) :
  0 < M -> -1074 <= ex -> V = M * 2 ^ (ex + 1074) ->
  ex <= fexp prec emax (Zdigits2 M + ex) ->
  let K := Z.max 0 (Zdigits2 V - 53) in
  let U := rne V (2 ^ K) * 2 ^ K in
  let r := rounded s M 1 M ex in
  (U < overflow_units ->
   valid r = true /\ is_finite r = true /\ units r = cond_Zopp s U)
  /\ (overflow_units <= U -> r = S754_infinity s).
Proof.
  intros HM Hex HV Hal K U r.
  pose proof (pow2_pos (ex + 1074) ltac:(lia)) as Hpx.
  assert (HdV : Zdigits2 V = Zdigits2 M + (ex + 1074))
    by (rewrite HV; apply Zdigits2_mul_pow2; lia).
  destruct (rounded_aligned s M 1 M ex ltac:(lia) ltac:(lia)
              ltac:(symmetry; apply Z.div_1_r) Hal)
    as (Hm1 & He1 & _ & Hfin & Hinf).
  set (e1 := fexp prec emax (Zdigits2 M + ex)) in *.
  assert (HK : K = e1 + 1074) by (unfold K, e1; rewrite fexp_eq; lia).
  assert (Hrne : rne M (1 * 2 ^ (e1 - ex)) = rne V (2 ^ K)).
  { rewrite Z.mul_1_l, HV, HK.
    rewrite (pow2_add (e1 - ex) (ex + 1074) (e1 + 1074)) by lia.
    symmetry. apply rne_scale; [apply pow2_pos; lia | lia]. }
  rewrite Hrne in Hfin, Hinf. rewrite <- HK in Hfin, Hinf.
  split; assumption.
Qed.

Lemma binary_round_units (s : bool) (S : positive) (ez V : Z) :
  -1074 <= ez -> V = Z.pos S * 2 ^ (ez + 1074) ->
  let K := Z.max 0 (Zdigits2 V - 53) in
  let U := rne V (2 ^ K) * 2 ^ K in
  let r := binary_round prec emax s S ez in
  (U < overflow_units ->
   valid r = true /\ is_finite r = true /\ units r = cond_Zopp s U)
  /\ (overflow_units <= U -> r = S754_infinity s).
Proof.
  intros Hez HV K U r. unfold r, binary_round, shl_align.
  change (Z.pos (digits2_pos S)) with (Zdigits2 (Z.pos S)).
  set (e' := fexp prec emax (Zdigits2 (Z.pos S) + ez)).
  assert (He' : -1074 <= e') by (unfold e'; rewrite fexp_eq; lia).
  destruct (e' - ez) as [| d | d] eqn:E.
  - rewrite (binary_round_aux_rounded s (Z.pos S) 1) by (try lia; apply holds_exact).
    apply (rounded_units s (Z.pos S) ez V); try assumption; try lia.
  - rewrite (binary_round_aux_rounded s (Z.pos S) 1) by (try lia; apply holds_exact).
    apply (rounded_units s (Z.pos S) ez V); try assumption; try lia.
  - rewrite (binary_round_aux_rounded s (Z.pos (Pos.iter xO S d)) 1)
      by (try lia; apply holds_exact).
    assert (Hd : Z.pos d = ez - e') by lia.
    apply (rounded_units s _ e' V); try assumption; try lia.
    + rewrite shift_pos_Z, HV, Hd, <- Z.mul_assoc, <- pow2_split by lia.
      f_equal. f_equal. lia.
    + rewrite shift_pos_Z, Zdigits2_mul_pow2 by lia.
      replace (Zdigits2 (Z.pos S) + Z.pos d + e') with (Zdigits2 (Z.pos S) + ez) by lia.
      fold e'. lia.
Qed.

(** ** The operations of the conversion, in units *)

Lemma fexp_mono (a b : Z) : a <= b -> fexp prec emax a <= fexp prec emax b.
Proof. intros. rewrite !fexp_eq. lia. Qed.

(** The quotient of two positive doubles: the exact quotient rounded to
    nearest on the grid [2^e1] of the result. *)
Lemma div_units (m md : positive) (e ed : Z) :
  -1074 <= e -> -1074 <= ed ->
  let X := Z.pos m * 2 ^ (e + 1074) in
  let Dd := Z.pos md * 2 ^ (ed + 1074) in
  let q := div (S754_finite false m e) (S754_finite false md ed) in
  exists m1 e1,
    0 <= m1 <= 2 ^ 53 /\ -1074 <= e1 /\ (-1074 < e1 -> 2 ^ 52 <= m1)
    /\ m1 = rne (X * 2 ^ Z.max 0 (- e1)) (Dd * 2 ^ Z.max 0 e1)
    /\ (m1 * 2 ^ (e1 + 1074) < overflow_units ->
        valid q = true /\ is_finite q = true
        /\ units q = m1 * 2 ^ (e1 + 1074)).
Proof.
  intros He Hed X Dd q. unfold q. rewrite div_rounded. cbv zeta. cbn [xorb].
  set (d1 := Zdigits2 (Z.pos m)). set (d2 := Zdigits2 (Z.pos md)).
  set (e' := Z.min (fexp prec emax (d1 + e - (d2 + ed))) (e - ed)).
  set (w := e - ed - e'). assert (Hw : 0 <= w) by (unfold w, e'; lia).
  set (N := Z.pos m * 2 ^ w).
  pose proof (pow2_pos w Hw) as Hpw.
  assert (HN : 0 < N) by (unfold N; nia).
  pose proof (Zdigits2_bounds (Z.pos m) ltac:(lia)) as [Hm1 Hm2]. fold d1 in Hm1, Hm2.
  pose proof (Zdigits2_bounds (Z.pos md) ltac:(lia)) as [Hd1 Hd2]. fold d2 in Hd1, Hd2.
  assert (Hd1pos : 1 <= d1) by (unfold d1; destruct m; cbn; lia).
  assert (Hd2pos : 1 <= d2) by (unfold d2; destruct md; cbn; lia).
  assert (Hdig : d1 + w - d2 <= Zdigits2 (N / Z.pos md)).
  { pose proof (Zdigits2_nonneg (N / Z.pos md)).
    destruct (Z_le_gt_dec (d1 + w - d2) 0) as [? | Hk]; [lia |].
    apply Zdigits2_ge.
    - apply Z.div_le_lower_bound; [lia |].
      apply Z.le_trans with (2 ^ d2 * 2 ^ (d1 + w - d2 - 1)).
      + apply Z.mul_le_mono_nonneg_r; [| lia].
        pose proof (pow2_pos (d1 + w - d2 - 1) ltac:(lia)). lia.
      + rewrite <- (pow2_split d2 (d1 + w - d2 - 1)) by lia.
        replace (d2 + (d1 + w - d2 - 1)) with ((d1 - 1) + w) by lia.
        rewrite (pow2_split (d1 - 1) w) by lia. unfold N.
        apply Z.mul_le_mono_nonneg_r; lia.
    - apply Z.div_str_pos. split; [lia |].
      apply Z.le_trans with (2 ^ d2 * 2 ^ (d1 + w - d2 - 1)).
      + pose proof (pow2_pos (d1 + w - d2 - 1) ltac:(lia)). nia.
      + rewrite <- (pow2_split d2 (d1 + w - d2 - 1)) by lia.
        replace (d2 + (d1 + w - d2 - 1)) with ((d1 - 1) + w) by lia.
        rewrite (pow2_split (d1 - 1) w) by lia. unfold N.
        apply Z.mul_le_mono_nonneg_r; lia. }
  assert (Hal : e' <= fexp prec emax (Zdigits2 (N / Z.pos md) + e')).
  { apply Z.le_trans with (fexp prec emax (d1 + e - (d2 + ed))); [unfold e'; lia |].
    apply fexp_mono. unfold w in Hdig. lia. }
  destruct (rounded_aligned false N (Z.pos md) (N / Z.pos md) e'
              ltac:(lia) ltac:(lia) eq_refl Hal)
    as (Hm1b & He1 & Hlo & Hfin & _).
  set (e1 := fexp prec emax (Zdigits2 (N / Z.pos md) + e')) in *.
  set (m1 := rne N (Z.pos md * 2 ^ (e1 - e'))) in *.
  exists m1, e1. split; [assumption |]. split; [assumption |]. split; [assumption |].
  split; [| exact Hfin].
  unfold m1. apply rne_frac_eq.
  - pose proof (pow2_pos (e1 - e') ltac:(lia)). nia.
  - unfold Dd. pose proof (pow2_pos (ed + 1074) ltac:(lia)).
    pose proof (pow2_pos (Z.max 0 e1) ltac:(lia)). nia.
  - unfold N, X, Dd.
    transitivity (Z.pos m * Z.pos md * 2 ^ (w + (ed + 1074) + Z.max 0 e1)).
    { rewrite (Z.pow_add_r 2 (w + (ed + 1074)) (Z.max 0 e1)) by lia.
      rewrite (Z.pow_add_r 2 w (ed + 1074)) by lia. ring. }
    replace (w + (ed + 1074) + Z.max 0 e1)
      with ((e + 1074) + Z.max 0 (- e1) + (e1 - e')) by (unfold w; lia).
    rewrite (Z.pow_add_r 2 ((e + 1074) + Z.max 0 (- e1)) (e1 - e')) by lia.
    rewrite (Z.pow_add_r 2 (e + 1074) (Z.max 0 (- e1))) by lia. ring.
Qed.

Lemma max_units_lt : max_units < overflow_units.
Proof. reflexivity. Qed.

Lemma units_le_max (x : f64) :
  valid x = true -> nonneg_finite x = true -> units x <= max_units.
Proof.
  destruct x as [[|] | | | [|] m e]; try discriminate; intros V _.
  pose proof (valid_finite _ _ _ V) as ((He & He') & Hm & _).
  cbn [units cond_Zopp].
  pose proof (pow2_pos (e + 1074) ltac:(lia)).
  apply Z.le_trans with ((2 ^ 53 - 1) * 2 ^ (e + 1074)).
  - apply Z.mul_le_mono_nonneg_r; lia.
  - unfold max_units, top_ulp_units.
    apply Z.mul_le_mono_nonneg_l; [discriminate | apply pow2_le; lia].
Qed.

(** Rounding a value below a bound that lies on every grid stays below
    the bound. *)
Lemma rne_below_grid (V K B : Z) :
  0 < V <= B -> B <= max_units -> (top_ulp_units | B) ->
  K = Z.max 0 (Zdigits2 V - 53) ->
  0 <= rne V (2 ^ K) * 2 ^ K <= B.
Proof.
  intros [HV0 HV] HB [b Hb] HK.
  pose proof (Zdigits2_nonneg V).
  assert (HK0 : 0 <= K) by lia.
  pose proof (pow2_pos K HK0) as HpK.
  assert (Hd : Zdigits2 V <= 2098).
  { apply Zdigits2_le; [lia |]. fold overflow_units.
    pose proof max_units_lt. lia. }
  split.
  - pose proof (rne_nonneg V (2 ^ K) ltac:(lia) HpK).
    apply Z.mul_nonneg_nonneg; lia.
  - apply rne_le_grid; [assumption | assumption |].
    exists (b * 2 ^ (2045 - K)).
    rewrite <- Z.mul_assoc, <- (pow2_split (2045 - K) K) by lia.
    rewrite Hb. unfold top_ulp_units. do 2 f_equal. lia.
Qed.

Lemma binary_round_bound (s : bool) (S : positive) (ez V B : Z) :
  -1074 <= ez -> V = Z.pos S * 2 ^ (ez + 1074) ->
  V <= B -> B <= max_units -> (top_ulp_units | B) ->
  valid (binary_round prec emax s S ez) = true
  /\ is_finite (binary_round prec emax s S ez) = true
  /\ Z.abs (units (binary_round prec emax s S ez)) <= B.
Proof.
  intros Hez HV Hle HB Hdiv.
  pose proof (pow2_pos (ez + 1074) ltac:(lia)) as Hp.
  assert (HV0 : 0 < V) by (rewrite HV; apply Z.mul_pos_pos; lia).
  destruct (binary_round_units s S ez V Hez HV) as [Hfin _].
  pose proof (rne_below_grid V _ B (conj HV0 Hle) HB Hdiv eq_refl) as [Hb0 Hb].
  pose proof max_units_lt.
  destruct Hfin as (Hv & Hf & Hu); [lia |].
  split; [assumption |]. split; [assumption |].
  rewrite Hu. destruct s; cbn [cond_Zopp]; lia.
Qed.

(** The difference of two nonnegative doubles is a double, and is below
    any bound on the exact difference that lies on every grid. *)
Lemma sub_bound (a b : f64) (B : Z) :
  valid a = true -> valid b = true ->
  nonneg_finite a = true -> nonneg_finite b = true ->
  Z.abs (units a - units b) <= B -> B <= max_units -> (top_ulp_units | B) ->
  valid (sub a b) = true /\ is_finite (sub a b) = true
  /\ Z.abs (units (sub a b)) <= B.
Proof.
  intros Va Vb Na Nb Hab HB Hdiv.
  destruct a as [sa | sa | | sa ma ea]; try discriminate;
    (destruct sa; [discriminate Na |]);
    destruct b as [sb | sb | | sb mb eb]; try discriminate;
    (destruct sb; [discriminate Nb |]).
  - split; [reflexivity |]. split; [reflexivity |]. exact Hab.
  - split; [exact Vb |]. split; [reflexivity |].
    change (units (S754_zero false)) with 0 in Hab.
    change (sub (S754_zero false) (S754_finite false mb eb))
      with (S754_finite true mb eb).
    cbn [units cond_Zopp] in *. lia.
  - split; [exact Va |]. split; [reflexivity |].
    change (units (S754_zero false)) with 0 in Hab.
    change (sub (S754_finite false ma ea) (S754_zero false))
      with (S754_finite false ma ea).
    rewrite Z.sub_0_r in Hab. exact Hab.
  - pose proof (valid_finite _ _ _ Va) as ((Hea & _) & _).
    pose proof (valid_finite _ _ _ Vb) as ((Heb & _) & _).
    cbn [units cond_Zopp] in Hab.
    unfold sub, SFsub. cbn [cond_Zopp].
    change (IntDef.Z.min ea eb) with (Z.min ea eb).
    set (ez := Z.min ea eb). rewrite !shl_align_fst by lia.
    set (A := Z.pos ma * 2 ^ (ea - ez)). set (C := Z.pos mb * 2 ^ (eb - ez)).
    pose proof (pow2_pos (ez + 1074) ltac:(lia)) as Hpz.
    assert (HA : Z.pos ma * 2 ^ (ea + 1074) = A * 2 ^ (ez + 1074)).
    { unfold A. rewrite <- Z.mul_assoc, <- pow2_split by lia. f_equal. f_equal. lia. }
    assert (HC : Z.pos mb * 2 ^ (eb + 1074) = C * 2 ^ (ez + 1074)).
    { unfold C. rewrite <- Z.mul_assoc, <- pow2_split by lia. f_equal. f_equal. lia. }
    rewrite HA, HC in Hab. rewrite <- Z.mul_sub_distr_r in Hab.
    unfold binary_normalize.
    destruct (A - C) as [| p | p] eqn:E.
    + split; [reflexivity |]. split; [reflexivity |]. cbn [units]. cbn in Hab. lia.
    + apply (binary_round_bound false p ez (Z.pos p * 2 ^ (ez + 1074)));
        try assumption; [lia | reflexivity | lia].
    + apply (binary_round_bound true p ez (Z.pos p * 2 ^ (ez + 1074)));
        try assumption; [lia | reflexivity |].
      rewrite Z.abs_mul in Hab. cbn [Z.abs] in Hab.
      rewrite (Z.abs_eq (2 ^ (ez + 1074))) in Hab by lia. exact Hab.
Qed.

(** A product that is at most a bound on every grid is a double below the
    bound. *)
Lemma mul_bound (a d : f64) (B : Z) :
  valid a = true -> valid d = true ->
  finite_with_sign false a -> finite_with_sign false d -> -1074 < expo d ->
  units a * units d <= B * second -> B <= max_units -> (top_ulp_units | B) ->
  valid (mul a d) = true /\ nonneg_finite (mul a d) = true
  /\ units (mul a d) <= B.
Proof.
  intros Va Vd Fa Fd Ed Hle HB [b Hb].
  destruct a as [| | | sa ma ea]; try contradiction.
  destruct d as [| | | sd md ed]; try contradiction.
  cbn [finite_with_sign expo units] in *. subst sa sd. cbn [cond_Zopp] in Hle.
  pose proof (valid_finite _ _ _ Va) as ((Hea & _) & _ & _).
  pose proof (valid_finite _ _ _ Vd) as ((Hed & _) & Hmd & Hld).
  specialize (Hld Ed).
  unfold mul, SFmul. cbn [xorb].
  rewrite (binary_round_aux_rounded false (Z.pos (ma * md)) 1)
    by (try lia; apply holds_exact).
  set (M := Z.pos (ma * md)). set (ex := ea + ed).
  assert (HM : 2 ^ 52 <= M) by (unfold M; rewrite Pos2Z.inj_mul; nia).
  assert (Hdg : 53 <= Zdigits2 M) by (apply Zdigits2_ge; [exact HM | lia]).
  assert (Hal : ex <= fexp prec emax (Zdigits2 M + ex)) by (rewrite fexp_eq; lia).
  destruct (rounded_aligned false M 1 M ex ltac:(lia) ltac:(lia)
              ltac:(symmetry; apply Z.div_1_r) Hal)
    as (Hm1 & He1 & _ & Hfin & _).
  set (e1 := fexp prec emax (Zdigits2 M + ex)) in *.
  set (m1 := rne M (1 * 2 ^ (e1 - ex))) in *.
  set (P := Z.pos ma * 2 ^ (ea + 1074) * (Z.pos md * 2 ^ (ed + 1074))) in *.
  pose proof (pow2_pos (ea + 1074) ltac:(lia)) as Hpa.
  pose proof (pow2_pos (ed + 1074) ltac:(lia)) as Hpd.
  assert (Hp : 0 < second) by reflexivity.
  assert (HP : P = M * 2 ^ (ex + 2148)).
  { unfold P, M, ex. rewrite Pos2Z.inj_mul.
    rewrite (pow2_add (ea + 1074) (ed + 1074) (ea + ed + 2148)) by lia. ring. }
  assert (Hpx : 0 < 2 ^ (ex + 2148)) by (apply pow2_pos; unfold ex; lia).
  assert (HP0 : 0 < P) by (rewrite HP; nia).
  assert (HdP : Zdigits2 P = Zdigits2 M + (ex + 2148))
    by (rewrite HP; apply Zdigits2_mul_pow2; unfold ex; lia).
  assert (He971 : e1 <= 971).
  { assert (Zdigits2 P <= 3172).
    { apply Zdigits2_le; [lia |]. split; [lia |].
      apply Z.le_lt_trans with (max_units * second); [| reflexivity].
      apply Z.le_trans with (B * second); [exact Hle |].
      apply Z.mul_le_mono_nonneg_r; lia. }
    unfold e1. rewrite fexp_eq. lia. }
  assert (Hrne : m1 = rne P (2 ^ (e1 + 2148))).
  { unfold m1. rewrite Z.mul_1_l, HP.
    rewrite (pow2_add (e1 - ex) (ex + 2148) (e1 + 2148)) by (unfold ex in *; lia).
    symmetry. apply rne_scale; [apply pow2_pos; lia | assumption]. }
  assert (Hbd : m1 * 2 ^ (e1 + 2148) <= B * second).
  { rewrite Hrne. apply rne_le_grid; [apply pow2_pos; lia | exact Hle |].
    rewrite Hb. exists (b * 2 ^ (971 - e1)).
    rewrite <- !Z.mul_assoc. f_equal. unfold top_ulp_units, second.
    rewrite <- (pow2_split 2045 1074), <- (pow2_split (971 - e1) (e1 + 2148)) by lia.
    f_equal. lia. }
  assert (Hu : m1 * 2 ^ (e1 + 1074) <= B).
  { rewrite (pow2_add (e1 + 1074) 1074 (e1 + 2148)) in Hbd by lia.
    fold second in Hbd. rewrite Z.mul_assoc in Hbd.
    apply Z.mul_le_mono_pos_r in Hbd; [exact Hbd | exact Hp]. }
  pose proof max_units_lt.
  destruct Hfin as (Hv & Hf & Hun); [lia |].
  split; [exact Hv |]. split; [| rewrite Hun; exact Hu].
  pose proof (rounded_sign false M 1 M ex ltac:(lia) ltac:(lia)) as Hs.
  clear - Hf Hs.
  destruct (rounded false M 1 M ex) as [[|] | [|] | | [|] ? ?];
    cbn [is_finite sign_bit nonneg_finite] in *; congruence.
Qed.

(** [float(int(q))] for a nonnegative double [q] with a positive integer
    part is a double. *)
Lemma of_Z_trunc (q : f64) :
  valid q = true -> nonneg_finite q = true -> 0 < trunc q ->
  finite_with_sign false (of_Z (trunc q)) /\ valid (of_Z (trunc q)) = true
  /\ units (of_Z (trunc q)) = trunc q * second.
Proof.
  intros V N Hc.
  destruct q as [s | s | | s m e]; cbn [trunc] in Hc; try lia.
  destruct s; [discriminate N |].
  pose proof (valid_finite _ _ _ V) as ((He & He') & Hm & _).
  cbn [trunc cond_Zopp] in *.
  unfold of_Z, binary_normalize, second.
  destruct (Z.leb_spec 0 e) as [H0 | H0].
  - rewrite Z.shiftl_mul_pow2 in * by lia.
    destruct (Z.pos m * 2 ^ e) as [| p | p] eqn:Ec; try lia.
    apply (binary_round_exact false p 0 (Z.pos p * 2 ^ 1074) (e + 1074));
      try lia; try reflexivity.
    + rewrite <- Ec. exists (Z.pos m).
      rewrite <- Z.mul_assoc, <- (pow2_split e 1074) by lia. reflexivity.
    + rewrite <- Ec, <- Z.mul_assoc, <- (pow2_split e 1074) by lia.
      rewrite (pow2_split 53 (e + 1074)) by lia.
      apply Z.mul_lt_mono_pos_r; [apply pow2_pos; lia | lia].
  - rewrite Z.shiftr_div_pow2 in * by lia.
    destruct (Z.pos m / 2 ^ (- e)) as [| p | p] eqn:Ec; try lia.
    assert (Z.pos p <= Z.pos m).
    { rewrite <- Ec. apply Z.div_le_upper_bound.
      - apply pow2_pos; lia.
      - pose proof (pow2_pos (- e) ltac:(lia)). nia. }
    apply (binary_round_exact false p 0 (Z.pos p * 2 ^ 1074) 1074);
      try lia; try reflexivity.
    exists (Z.pos p). reflexivity.
Qed.

(** ** The conversion never fails on a finite input *)

Lemma int_of_float_finite (q : f64) :
  is_finite q = true -> int_of_float q = Ok (trunc q).
Proof. destruct q; try discriminate; reflexivity. Qed.

Lemma nonneg_of_sign (q : f64) :
  is_finite q = true -> sign_bit q = false -> nonneg_finite q = true.
Proof. destruct q as [[|] | [|] | | [|] ? ?]; try discriminate; reflexivity. Qed.

Lemma below_max_units_facts :
  below_max_units = max_units - top_ulp_units
  /\ 2 * top_ulp_units <= below_max_units
  /\ (top_ulp_units | below_max_units) /\ (top_ulp_units | max_units)
  /\ (top_ulp_units | 2 * top_ulp_units)
  /\ 2 ^ 53 * (2 ^ 53 * second) <= 2 * top_ulp_units
  /\ 2 * top_ulp_units <= max_units
  /\ 2 ^ 53 * below_max_units <= (2 ^ 53 - 1) * max_units.
Proof.
  repeat split; try (vm_compute; discriminate).
  - exists (2 ^ 53 - 2). reflexivity.
  - exists (2 ^ 53 - 1). reflexivity.
  - exists 2. reflexivity.
Qed.

(** One unit of the conversion on a nonnegative double below the largest
    one: the quotient, its integer part and the product are doubles, and
    so is the new remainder. *)
Lemma take_unit_finite_nonneg (d : f64) (z : Z) (x : f64) :
  divisor_ok d z ->
  valid x = true -> nonneg_finite x = true ->
  units x <= below_max_units ->
  exists c r, take_unit x d = Ok (c, r) /\ valid r = true /\ is_finite r = true
              /\ Z.abs (units r) <= below_max_units.
Proof.
  intros (md & ed & Hd & Vd & Hed & _ & _ & Hd32) V N HX. subst d.
  destruct x as [[|] | | | [|] m e]; try discriminate.
  { exists 0, (S754_zero false). repeat split. discriminate. }
  pose proof (valid_finite _ _ _ V) as ((He & He') & Hm & _).
  pose proof (valid_finite _ _ _ Vd) as (_ & Hmd & _).
  set (x := S754_finite false m e) in *. set (d := S754_finite false md ed) in *.
  destruct constant_facts as (Hp & P45 & _ & _).
  destruct below_max_units_facts as (Fb & F46 & Db & Dm & D46 & R1 & R2 & R3).
  pose proof max_units_lt as Hov.
  destruct (div_units m md e ed ltac:(lia) ltac:(lia))
    as (m1 & e1 & Hm1 & He1 & Hlo & Hrne & Hfin).
  cbv zeta in Hrne, Hfin. fold x d in Hfin.
  change (Z.pos m * 2 ^ (e + 1074)) with (units x) in Hrne.
  change (Z.pos md * 2 ^ (ed + 1074)) with (units d) in Hrne.
  set (X := units x) in *. set (Dd := units d) in *.
  assert (HDd : 0 < Dd) by (apply units_pos; lia).
  assert (HX0 : 0 < X) by (apply units_pos; lia).
  pose proof (pow2_pos (e1 + 1074) ltac:(lia)) as Hp1.
  set (Uq := m1 * 2 ^ (e1 + 1074)) in *.
  pose proof (units_le_max x V N) as Hmax. fold X in Hmax.
  (* rounding to nearest is at most half a step above *)
  pose proof (rne_half_up (X * 2 ^ Z.max 0 (- e1)) (Dd * 2 ^ Z.max 0 e1)) as Hh.
  rewrite <- Hrne in Hh.
  assert (Hsplit : 0 <= e1 -> Uq = m1 * 2 ^ e1 * second
                             /\ 2 * (m1 * (Dd * 2 ^ e1)) <= 2 * X + Dd * 2 ^ e1
                             /\ 0 < 2 ^ e1).
  { intros H0. split; [| split].
    - unfold Uq. rewrite (pow2_split e1 1074) by lia. fold second. ring.
    - replace (Z.max 0 (- e1)) with 0 in Hh by lia.
      replace (Z.max 0 e1) with e1 in Hh by lia.
      rewrite Z.pow_0_r, Z.mul_1_r in Hh. apply Hh.
      pose proof (pow2_pos e1 H0) as HE. apply Z.mul_pos_pos; assumption.
    - apply pow2_pos, H0. }
  assert (Hsmallq : e1 < 0 -> Uq <= 2 ^ 53 * second).
  { intros Hneg. unfold Uq.
    apply Z.mul_le_mono_nonneg; [lia | lia | lia |].
    unfold second. apply pow2_le. lia. }
  assert (HUq : Uq < overflow_units).
  { destruct (Z_lt_le_dec e1 0) as [Hneg | Hpos].
    - specialize (Hsmallq Hneg). clear - Hsmallq R1 R2 Hov Hp. lia.
    - destruct (Hsplit Hpos) as (EU & Hh' & HE).
      specialize (Hlo ltac:(lia)).
      set (E := 2 ^ e1) in *.
      assert (HmE : 0 <= m1 * E) by (apply Z.mul_nonneg_nonneg; lia).
      assert (H32 : 32 * second * (m1 * E) <= Dd * (m1 * E))
        by (apply Z.mul_le_mono_nonneg_r; assumption).
      assert (HG : m1 * (Dd * E) <= 2 * X).
      { assert (Dd * E <= m1 * (Dd * E)); [| lia].
        rewrite <- (Z.mul_1_l (Dd * E)) at 1.
        apply Z.mul_le_mono_nonneg_r; [| lia].
        apply Z.mul_nonneg_nonneg; lia. }
      assert (32 * Uq <= 2 * X).
      { rewrite EU.
        replace (32 * (m1 * E * second)) with (32 * second * (m1 * E)) by ring.
        replace (m1 * (Dd * E)) with (Dd * (m1 * E)) in HG by ring. lia. }
      clear - H Hmax Hov HX0. lia. }
  destruct (Hfin HUq) as (Vq & Fq & Eq).
  set (q := div x d) in *.
  assert (Nq : nonneg_finite q = true)
    by (apply nonneg_of_sign; [exact Fq | apply div_sign_nonneg; reflexivity]).
  unfold take_unit, truediv. change (is_zero d) with false. cbn [bind]. fold q.
  rewrite (int_of_float_finite q Fq). cbn [bind].
  pose proof (trunc_units q Nq (valid_expo q Vq)) as Hc. rewrite Eq in Hc.
  set (c := trunc q) in *.
  assert (HUq0 : 0 <= Uq) by (unfold Uq; apply Z.mul_nonneg_nonneg; lia).
  assert (Hc0 : 0 <= c) by (rewrite Hc; apply Z.div_pos; assumption).
  destruct (Z.eq_dec c 0) as [E0 | Hne].
  { rewrite E0. exists 0, x. split; [reflexivity |]. split; [exact V |].
    split; [reflexivity |]. fold X. clear - HX HX0. lia. }
  assert (Hc1 : 0 < c) by (clear - Hc0 Hne; lia).
  destruct (of_Z_trunc q Vq Nq Hc1) as (Fa & Va & Ua).
  fold c in Fa, Va, Ua.
  unfold int_mul_float, float_of_int.
  destruct (finite_with_sign_nonneg _ Fa) as [Na Fina]. rewrite Fina. cbn [bind].
  exists c, (sub x (mul (of_Z c) d)). split; [reflexivity |].
  assert (HcU : c * second <= Uq).
  { rewrite Hc, Z.mul_comm. apply Z.mul_div_le. assumption. }
  assert (HcE : 0 <= e1 -> c = m1 * 2 ^ e1).
  { intros Hpos. destruct (Hsplit Hpos) as (EU & _ & _).
    rewrite Hc, EU. apply Z.div_mul. clear - Hp. lia. }
  clear Hc.
  assert (Hprod : c * Dd <= max_units
                  /\ (X < top_ulp_units -> c * Dd <= 2 * top_ulp_units)).
  { assert (HUq1 : second <= Uq).
    { apply Z.le_trans with (c * second); [| exact HcU].
      rewrite <- (Z.mul_1_l second) at 1.
      apply Z.mul_le_mono_nonneg_r; [| clear - Hc1]; lia. }
    assert (He53 : -54 < e1).
    { destruct (Z_lt_le_dec (-54) e1) as [? | Hl]; [assumption |].
      assert (Uq < second); [| lia].
      unfold Uq. apply Z.le_lt_trans with (2 ^ 53 * 2 ^ (e1 + 1074)).
      - apply Z.mul_le_mono_nonneg_r; lia.
      - rewrite <- (pow2_split 53 (e1 + 1074)) by lia.
        unfold second. apply pow2_lt. lia. }
    specialize (Hlo ltac:(lia)).
    destruct (Z_lt_le_dec e1 0) as [Hneg | Hpos].
    - specialize (Hsmallq Hneg).
      assert (Hc53 : c <= 2 ^ 53).
      { assert (Hcw : c * second <= 2 ^ 53 * second) by lia.
        apply Z.mul_le_mono_pos_r in Hcw; assumption. }
      assert (HD53 : Dd <= 2 ^ 53 * second).
      { unfold Dd, d. cbn [units cond_Zopp].
        apply Z.mul_le_mono_nonneg; [lia | lia | lia |].
        unfold second. apply pow2_le. lia. }
      assert (c * Dd <= 2 ^ 53 * (2 ^ 53 * second))
        by (apply Z.mul_le_mono_nonneg; lia).
      split; [| intros _]; lia.
    - destruct (Hsplit Hpos) as (EU & Hh' & HE).
      set (E := 2 ^ e1) in *.
      assert (EcE : c = m1 * E) by (apply HcE; assumption).
      set (G := Dd * E) in *.
      assert (HG0 : 0 < G) by (unfold G; apply Z.mul_pos_pos; assumption).
      set (T := m1 * G) in *.
      assert (HT : 2 ^ 52 * G <= T)
        by (unfold T; apply Z.mul_le_mono_nonneg_r; lia).
      replace (c * Dd) with T by (rewrite EcE; unfold T, G; ring).
      assert (H1 : (2 ^ 53 - 1) * T <= 2 ^ 53 * X) by (clear - HT Hh'; lia).
      assert (H4 : (2 ^ 53 - 1) * T <= (2 ^ 53 - 1) * max_units)
        by (clear - H1 HX R3; lia).
      apply Z.mul_le_mono_pos_l in H4; [| lia].
      split; [exact H4 |]. intros Hsmall.
      assert (H6 : (2 ^ 53 - 1) * T <= (2 ^ 53 - 1) * (2 * top_ulp_units))
        by (clear - H1 Hsmall P45; lia).
      apply Z.mul_le_mono_pos_l in H6; [exact H6 | lia]. }
  destruct Hprod as [Hprod Hprod'].
  assert (Hmul : forall B, c * Dd <= B -> B <= max_units -> (top_ulp_units | B) ->
                 valid (mul (of_Z c) d) = true
                 /\ nonneg_finite (mul (of_Z c) d) = true
                 /\ units (mul (of_Z c) d) <= B).
  { intros B H1 H2 H3.
    apply mul_bound; try assumption; try reflexivity.
    - cbn [expo d]. lia.
    - rewrite Ua. fold Dd.
      replace (c * second * Dd) with (c * Dd * second) by ring.
      apply Z.mul_le_mono_nonneg_r; lia. }
  destruct (Z_lt_le_dec X top_ulp_units) as [Hsmall | Hlarge].
  - destruct (Hmul (2 * top_ulp_units) (Hprod' Hsmall) R2 D46) as (Vt & Nt & Ut).
    pose proof (units_nonneg _ Nt) as Pt.
    apply sub_bound; try assumption; fold X;
      clear - Pt Ut HX0 HX F46 Fb P45; lia.
  - destruct (Hmul max_units Hprod ltac:(lia) Dm) as (Vt & Nt & Ut).
    pose proof (units_nonneg _ Nt) as Pt.
    apply sub_bound; try assumption; fold X;
      clear - Pt Ut HX0 HX Hlarge Fb P45; lia.
Qed.

Lemma is_finite_negated (a b : f64) :
  negated a b -> is_finite a = true -> is_finite b = true.
Proof.
  intros [-> | [_ Zb]].
  - rewrite is_finite_opp. auto.
  - destruct b; try discriminate. reflexivity.
Qed.

Lemma abs_units_negated (a b : f64) :
  negated a b -> Z.abs (units b) = Z.abs (units a).
Proof.
  intros [-> | [Za Zb]].
  - destruct a as [s | s | | s m e]; try reflexivity.
    cbn [SFopp units]. destruct s; cbn [negb cond_Zopp]; lia.
  - destruct a; try discriminate. destruct b; try discriminate. reflexivity.
Qed.

Lemma below_max_double (x : f64) :
  valid x = true -> nonneg_finite x = true ->
  units x <= below_max_units \/ x = max_double.
Proof.
  intros V N. unfold below_max_units.
  destruct x as [[|] | | | [|] m e]; try discriminate.
  { left. cbn [units]. clear. vm_compute. discriminate. }
  pose proof (valid_finite _ _ _ V) as ((He & He') & Hm & _).
  cbn [units cond_Zopp].
  destruct (Z_lt_le_dec e 971) as [Hlt | Hge].
  - left.
    apply Z.le_trans with (2 ^ 53 * 2 ^ 2044).
    + apply Z.mul_le_mono_nonneg;
        first [lia | apply pow2_le; lia | apply Z.lt_le_incl, pow2_pos; lia].
    + clear. vm_compute. discriminate.
  - assert (e = 971) by lia. subst e.
    destruct (Z_le_gt_dec (Z.pos m) (2 ^ 53 - 2)) as [Hle | Hgt].
    + left. apply Z.mul_le_mono_nonneg_r; [| exact Hle].
      apply Z.lt_le_incl, pow2_pos. lia.
    + right. unfold max_double. f_equal. lia.
Qed.

(** One unit of the conversion on any finite double. *)
Lemma take_unit_finite (d : f64) (z : Z) (x : f64) :
  divisor_ok d z ->
  valid x = true -> is_finite x = true ->
  (Z.abs (units x) <= below_max_units \/ unit_done max_double d) ->
  unit_done x d.
Proof.
  intros Hd V F Hmax.
  assert (Hnn : forall y, valid y = true -> nonneg_finite y = true ->
                Z.abs (units y) = Z.abs (units x) -> unit_done y d).
  { intros y Vy Ny Eu. destruct (below_max_double y Vy Ny) as [Hle | ->].
    - apply (take_unit_finite_nonneg d z y); assumption.
    - destruct Hmax as [Hb | Hm]; [| exact Hm].
      exfalso. rewrite <- Eu in Hb. revert Hb. clear. vm_compute. auto. }
  destruct (nonneg_finite x) eqn:N; [apply Hnn; auto |].
  set (y := SFopp x).
  assert (Hneg : negated y x) by (left; unfold y; symmetry; apply SFopp_involutive).
  assert (Vy : valid y = true) by (unfold y; rewrite valid_opp; exact V).
  assert (Ny : nonneg_finite y = true)
    by (destruct x as [[|] | [|] | | [|] ? ?]; try discriminate; reflexivity).
  destruct (Hnn y Vy Ny ltac:(symmetry; apply abs_units_negated, Hneg))
    as (c & r & E & Vr & Fr & Br).
  assert (Fd : finite_with_sign false d)
    by (destruct Hd as (md & ed & -> & _); reflexivity).
  pose proof (take_unit_negated_divisor y x d Fd Hneg) as S. rewrite E in S.
  unfold unit_done.
  destruct (take_unit x d) as [[c' r'] | e']; cbn [negated_step] in S;
    [| contradiction].
  destruct S as [_ Hr]. exists c', r'. split; [reflexivity |]. split; [| split].
  - apply (valid_negated r r' Hr Vr).
  - apply (is_finite_negated r r' Hr Fr).
  - rewrite (abs_units_negated r r' Hr). exact Br.
Qed.

Lemma take_years_max : unit_done max_double seconds_per_year.
Proof.
  do 2 eexists. split; [vm_compute; reflexivity |].
  split; [reflexivity |]. split; [reflexivity |]. vm_compute. discriminate.
Qed.

(** X10.  The conversion returns a breakdown on every finite double, of
    either sign and up to the largest one: no quotient, integer part or
    product overflows on the way to an [int()], and the seconds
    component is a finite double. *)
Theorem breakdown_finite (x : f64) :
  valid x = true -> is_finite x = true ->
  exists b, breakdown x = Ok b
            /\ valid (seconds b) = true /\ is_finite (seconds b) = true.
Proof.
  intros V F. unfold breakdown, convert.
  destruct (take_unit_finite _ _ x seconds_per_year_ok V F (or_intror take_years_max))
    as (c1 & r1 & E1 & V1 & F1 & B1).
  destruct (take_unit_finite _ _ r1 seconds_per_day_ok V1 F1 (or_introl B1))
    as (c2 & r2 & E2 & V2 & F2 & B2).
  destruct (take_unit_finite _ _ r2 seconds_per_hour_ok V2 F2 (or_introl B2))
    as (c3 & r3 & E3 & V3 & F3 & B3).
  destruct (take_unit_finite _ _ r3 seconds_per_minute_ok V3 F3 (or_introl B3))
    as (c4 & r4 & E4 & V4 & F4 & B4).
  rewrite E1. cbn [bind fst snd]. rewrite E2. cbn [bind fst snd].
  rewrite E3. cbn [bind fst snd]. rewrite E4. cbn [bind fst snd].
  eexists. split; [reflexivity |]. split; assumption.
Qed.

Lemma breakdown_finite_witness :
  exists b, breakdown max_double = Ok b
            /\ valid (seconds b) = true /\ is_finite (seconds b) = true.
Proof. apply (breakdown_finite max_double); reflexivity. Defined.

(** ** The spacing probe *)

Lemma valid_normal (m : positive) (e : Z) :
  2 ^ 52 <= Z.pos m < 2 ^ 53 -> -1074 <= e <= 971 ->
  valid (S754_finite false m e) = true.
Proof.
  intros Hm He. apply valid_finite_intro; [lia |].
  assert (Zdigits2 (Z.pos m) = 53)
    by (apply Zdigits2_unique; [change (2 ^ (53 - 1)) with (2 ^ 52) |]; lia).
  rewrite fexp_eq. lia.
Qed.

Lemma units_successor (m : positive) (e : Z) :
  -1074 <= e -> Z.pos m < 2 ^ 53 ->
  units (successor (S754_finite false m e)) = (Z.pos m + 1) * 2 ^ (e + 1074).
Proof.
  intros He Hm. cbn [successor].
  destruct (Z.ltb_spec (Z.pos m + 1) (2 ^ 53)) as [H | H]; cbn [units cond_Zopp].
  - rewrite Pos2Z.inj_add. reflexivity.
  - replace (Z.pos m + 1) with (2 ^ 53) by lia.
    change (Z.pos 4503599627370496) with (2 ^ 52).
    rewrite <- !pow2_split by lia. f_equal. lia.
Qed.

Lemma valid_successor (m : positive) (e : Z) :
  valid (S754_finite false m e) = true -> -1074 < e <= 970 ->
  valid (successor (S754_finite false m e)) = true.
Proof.
  intros V He. pose proof (valid_finite _ _ _ V) as (_ & Hm & Hlo).
  specialize (Hlo ltac:(lia)). cbn [successor].
  destruct (Z.ltb_spec (Z.pos m + 1) (2 ^ 53)) as [H | H].
  - apply valid_normal; [rewrite Pos2Z.inj_add |]; lia.
  - apply valid_normal; [| lia]. change (Z.pos 4503599627370496) with (2 ^ 52). lia.
Qed.

(** Rounding [m + m / 2^52] to an integer, for a 53-bit [m]. *)
Lemma rne_probe (m : Z) :
  2 ^ 52 <= m < 2 ^ 53 ->
  rne (m * 2 ^ 52 + m) (2 ^ 52) = if m <? 3 * 2 ^ 51 then m + 1 else m + 2.
Proof.
  intros Hm.
  destruct (div_mod_decompose (m * 2 ^ 52 + m) (m + 1) (m - 2 ^ 52) (2 ^ 52))
    as [Q R]; [lia | lia | ring |].
  unfold rne. rewrite Q, R.
  destruct (Z.ltb_spec m (3 * 2 ^ 51)) as [H | H];
    destruct (Z.compare_spec (2 * (m - 2 ^ 52)) (2 ^ 52)) as [E | E | E]; try lia.
  assert (m = 3 * 2 ^ 51) by lia. subst m. reflexivity.
Qed.

Lemma rne_probe_top :
  rne ((2 ^ 53 - 1) * 2 ^ 52 + (2 ^ 53 - 1)) (2 ^ 53) = 2 ^ 52.
Proof. reflexivity. Qed.

Lemma binary_round_sign (s : bool) (S : positive) (ez : Z) :
  sign_bit (binary_round prec emax s S ez) = s.
Proof.
  unfold binary_round. destruct (shl_align S ez _) as [mz e'].
  rewrite (binary_round_aux_rounded s (Z.pos mz) 1) by (try lia; apply holds_exact).
  apply rounded_sign; lia.
Qed.

Lemma finite_with_sign_intro (r : f64) :
  is_finite r = true -> sign_bit r = false -> 0 < units r ->
  finite_with_sign false r.
Proof.
  destruct r as [s | s | | s m e]; cbn [is_finite sign_bit units finite_with_sign];
    try discriminate; try lia. auto.
Qed.

(** [x + x * epsilon] in units: one or two units in the last place above
    [x]. *)
Lemma next_value_units (m : positive) (e : Z) :
  valid (S754_finite false m e) = true -> -1022 <= e <= 970 ->
  let x := S754_finite false m e in
  valid (next_value x) = true /\ finite_with_sign false (next_value x)
  /\ units (next_value x)
     = (Z.pos m + (if upper_half m then 2 else 1)) * 2 ^ (e + 1074).
Proof.
  intros V He x.
  pose proof (valid_finite _ _ _ V) as (_ & Hm & Hlo). specialize (Hlo ltac:(lia)).
  destruct (mul_epsilon_units m e V) as (Nt & Et & Ut). cbv zeta in Nt, Et, Ut.
  fold x in Nt, Et, Ut.
  set (g := e + 1022). assert (Hg : 0 <= g) by (unfold g; lia).
  pose proof (pow2_pos g Hg) as Hpg.
  assert (HX : units x = Z.pos m * 2 ^ g * 2 ^ 52).
  { cbn [x units cond_Zopp]. rewrite (pow2_add g 52 (e + 1074)) by (unfold g; lia).
    ring. }
  rewrite (rne_exact (units x) (2 ^ 52) (Z.pos m * 2 ^ g) ltac:(lia) HX) in Ut.
  unfold next_value. fold x.
  destruct (mul x float_info_epsilon) as [[|] | | | [|] mt et]; try discriminate.
  { cbn [units] in Ut. nia. }
  cbn [expo] in Et.
  destruct (add_as_round m mt e et ltac:(lia) Et) as (S & Eadd & ES).
  fold x in Eadd, ES. rewrite Eadd. rewrite Ut, HX in ES.
  set (ez := Z.min e et) in *.
  set (N0 := Z.pos m * 2 ^ 52 + Z.pos m).
  set (Vs := Z.pos S * 2 ^ (ez + 1074)) in *.
  assert (HV : Vs = N0 * 2 ^ g) by (rewrite ES; unfold N0; ring).
  assert (HN0 : 0 < N0) by (unfold N0; lia).
  assert (HdV : Zdigits2 Vs = Zdigits2 N0 + g)
    by (rewrite HV; apply Zdigits2_mul_pow2; lia).
  assert (Hrest : forall K c,
            K = Z.max 0 (Zdigits2 Vs - 53) -> rne Vs (2 ^ K) = c ->
            c * 2 ^ K = (Z.pos m + (if upper_half m then 2 else 1)) * 2 ^ (e + 1074) ->
            valid (binary_round prec emax false S ez) = true
            /\ finite_with_sign false (binary_round prec emax false S ez)
            /\ units (binary_round prec emax false S ez)
               = (Z.pos m + (if upper_half m then 2 else 1)) * 2 ^ (e + 1074)).
  { intros K c HK Hc HU.
    destruct (binary_round_units false S ez Vs ltac:(unfold ez; lia) eq_refl)
      as [Hfin _].
    rewrite <- HK, Hc, HU in Hfin.
    assert (Hlt : (Z.pos m + (if upper_half m then 2 else 1)) * 2 ^ (e + 1074)
                  < 2 ^ 2098).
    { apply Z.le_lt_trans with ((2 ^ 53 + 1) * 2 ^ 2044).
      - apply Z.mul_le_mono_nonneg.
        + destruct (upper_half m); lia.
        + destruct (upper_half m); lia.
        + apply Z.lt_le_incl, pow2_pos. lia.
        + apply pow2_le. lia.
      - clear. vm_compute. reflexivity. }
    destruct (Hfin Hlt) as (Hv & Hf & Hu).
    split; [exact Hv |]. split; [| exact Hu].
    apply finite_with_sign_intro;
      [exact Hf | apply binary_round_sign |].
    rewrite Hu. cbn [cond_Zopp].
    apply Z.mul_pos_pos; [destruct (upper_half m); lia | apply pow2_pos; lia]. }
  destruct (Z.eq_dec (Z.pos m) (2 ^ 53 - 1)) as [Etop | Ntop].
  - (* the last double of the binade *)
    assert (Hd : Zdigits2 N0 = 106) by (unfold N0; rewrite Etop; reflexivity).
    apply (Hrest (53 + g) (2 ^ 52)).
    + lia.
    + rewrite HV, (pow2_split 53 g) by lia.
      rewrite (rne_scale N0 (2 ^ 53) (2 ^ g)) by lia.
      unfold N0. rewrite Etop. apply rne_probe_top.
    + unfold upper_half. rewrite Etop.
      replace (2 ^ 53 - 1 <? 2 ^ 53 - 1) with false by (symmetry; apply Z.ltb_irrefl).
      rewrite andb_false_r.
      replace (2 ^ 53 - 1 + 1) with (2 ^ 53) by lia.
      rewrite <- !pow2_split by lia. f_equal. unfold g. lia.
  - assert (Hd : Zdigits2 N0 = 105).
    { apply Zdigits2_unique; [| lia]. unfold N0.
      change (2 ^ (105 - 1)) with (2 ^ 104). clear - Hm Hlo Ntop. lia. }
    apply (Hrest (52 + g) (if Z.pos m <? 3 * 2 ^ 51 then Z.pos m + 1 else Z.pos m + 2)).
    + lia.
    + rewrite HV, (pow2_split 52 g) by lia.
      rewrite (rne_scale N0 (2 ^ 52) (2 ^ g)) by lia.
      apply rne_probe. lia.
    + replace (52 + g) with (e + 1074) by (unfold g; lia). f_equal.
      unfold upper_half.
      destruct (Z.ltb_spec (Z.pos m) (3 * 2 ^ 51)) as [H | H];
        destruct (Z.leb_spec (3 * 2 ^ 51) (Z.pos m)) as [H' | H']; try lia;
        destruct (Z.ltb_spec (Z.pos m) (2 ^ 53 - 1)) as [H'' | H'']; try lia;
        reflexivity.
Qed.

(** X11.  The probe [x + x * epsilon] of a positive normal double [x]
    (from [2^-970] to below [2^1023]) is the next double above [x] when
    the mantissa of [x] is below [1.5 * 2^52] or is the last of its
    binade, and the second next double otherwise. *)
Theorem next_value_successor (m : positive) (e : Z) :
  valid (S754_finite false m e) = true -> -1022 <= e <= 970 ->
  next_value (S754_finite false m e)
  = if upper_half m then successor (successor (S754_finite false m e))
    else successor (S754_finite false m e).
Proof.
  intros V He. set (x := S754_finite false m e).
  pose proof (valid_finite _ _ _ V) as (_ & Hm & Hlo). specialize (Hlo ltac:(lia)).
  destruct (next_value_units m e V He) as (Vn & Fn & Un). fold x in Vn, Fn, Un.
  destruct (finite_with_sign_nonneg _ Fn) as [Nn _].
  pose proof (valid_successor m e V ltac:(lia)) as Vs. fold x in Vs.
  pose proof (units_successor m e ltac:(lia) Hm) as Us. fold x in Us.
  unfold upper_half in *.
  destruct (Z.leb_spec (3 * 2 ^ 51) (Z.pos m)) as [H1 | H1];
    destruct (Z.ltb_spec (Z.pos m) (2 ^ 53 - 1)) as [H2 | H2];
    cbn [andb] in *.
  - (* two doubles up *)
    assert (Es : successor x = S754_finite false (m + 1) e).
    { cbn [x successor].
      destruct (Z.ltb_spec (Z.pos m + 1) (2 ^ 53)); [reflexivity | lia]. }
    rewrite Es in *.
    apply valid_units_inj; try assumption.
    + apply valid_successor; [assumption | lia].
    + cbn [successor]. destruct (Z.pos (m + 1) + 1 <? 2 ^ 53); reflexivity.
    + rewrite Un, units_successor, Pos2Z.inj_add by (rewrite ?Pos2Z.inj_add; lia).
      f_equal. lia.
  - apply valid_units_inj; try assumption.
    + cbn [x successor]. destruct (Z.pos m + 1 <? 2 ^ 53); reflexivity.
    + rewrite Un, Us. reflexivity.
  - apply valid_units_inj; try assumption.
    + cbn [x successor]. destruct (Z.pos m + 1 <? 2 ^ 53); reflexivity.
    + rewrite Un, Us. reflexivity.
  - lia.
Qed.

Lemma next_value_successor_witness :
  next_value x_max = successor x_max.
Proof.
  rewrite x_max_eq.
  apply (next_value_successor 5764607523034235 (-7)); [reflexivity | lia].
Defined.

Lemma to_Q_units_eq (a : f64) (u : Z) :
  -1074 <= expo a -> units a = u -> (to_Q a == u # Z.to_pos second)%Q.
Proof. intros He <-. apply to_Q_units, He. Qed.

(** The measured spacing in units. *)
Lemma spacing_units (m : positive) (e : Z) :
  valid (S754_finite false m e) = true -> -1022 <= e <= 970 ->
  let x := S754_finite false m e in
  valid (spacing x) = true
  /\ units (spacing x) = (if upper_half m then 2 else 1) * 2 ^ (e + 1074).
Proof.
  intros V He x.
  pose proof (valid_finite _ _ _ V) as (_ & Hm & Hlo). specialize (Hlo ltac:(lia)).
  pose proof (pow2_pos (e + 1074) ltac:(lia)) as Hp.
  destruct (next_value_units m e V He) as (Vn & Fn & Un). fold x in Vn, Fn, Un.
  unfold spacing.
  destruct (next_value x) as [| | | sn mn en]; try contradiction.
  cbn [finite_with_sign] in Fn. subst sn.
  pose proof (valid_finite _ _ _ Vn) as ((Hen & _) & _).
  set (k := if upper_half m then 2 else 1) in *.
  assert (Hk : 1 <= k <= 2) by (unfold k; destruct (upper_half m); lia).
  destruct (sub_cases mn m en e Hen ltac:(lia))
    as [[Hlt _] | [[Heq _] | (S & Es & HS)]].
  - fold x in Hlt. rewrite Un in Hlt. cbn [x units cond_Zopp] in Hlt. nia.
  - fold x in Heq. rewrite Un in Heq. cbn [x units cond_Zopp] in Heq. nia.
  - fold x in Es, HS. rewrite Es.
    rewrite Un in HS. cbn [x units cond_Zopp] in HS.
    assert (HS' : Z.pos S * 2 ^ (Z.min en e + 1074) = k * 2 ^ (e + 1074))
      by (rewrite HS; ring).
    destruct (binary_round_exact false S (Z.min en e) (k * 2 ^ (e + 1074)) (e + 1074))
      as (Fr & Vr & Ur); try lia.
    + exists k. reflexivity.
    + rewrite (pow2_split 53 (e + 1074)) by lia.
      apply Z.mul_lt_mono_pos_r; lia.
    + split; [exact Vr | exact Ur].
Qed.

(** X12.  The measured spacing [(x + x * epsilon) - x] of a positive
    normal double [x] is one unit in the last place, the distance from
    [x] to the next double, when the mantissa of [x] is below
    [1.5 * 2^52] or is the last of its binade, and two units in the last
    place otherwise. *)
Theorem spacing_is_ulp_or_twice (m : positive) (e : Z) :
  valid (S754_finite false m e) = true -> -1022 <= e <= 970 ->
  let x := S754_finite false m e in
  (to_Q (successor x) - to_Q x == to_Q (ulp x))%Q
  /\ (to_Q (spacing x) == (if upper_half m then 2 else 1) * to_Q (ulp x))%Q.
Proof.
  intros V He x.
  pose proof (valid_finite _ _ _ V) as (_ & Hm & Hlo). specialize (Hlo ltac:(lia)).
  pose proof (pow2_pos (e + 1074) ltac:(lia)) as Hp.
  pose proof second_pos as Hs.
  assert (Uu : units (ulp x) = 2 ^ (e + 1074)).
  { cbn [x ulp expo units cond_Zopp]. change (Z.pos 4503599627370496) with (2 ^ 52).
    rewrite <- pow2_split by lia. f_equal. lia. }
  assert (Qu : (to_Q (ulp x) == 2 ^ (e + 1074) # Z.to_pos second)%Q)
    by (apply to_Q_units_eq; [cbn [ulp x expo]; lia | exact Uu]).
  assert (Qx : (to_Q x == Z.pos m * 2 ^ (e + 1074) # Z.to_pos second)%Q)
    by (apply to_Q_units_eq; [cbn [x expo]; lia | reflexivity]).
  split.
  - assert (Qs : (to_Q (successor x)
                  == (Z.pos m + 1) * 2 ^ (e + 1074) # Z.to_pos second)%Q).
    { apply to_Q_units_eq; [| apply units_successor; lia].
      cbn [x successor]. destruct (Z.pos m + 1 <? 2 ^ 53); cbn [expo]; lia. }
    rewrite Qs, Qx, Qu. unfold Qeq, Qminus, Qplus, Qopp. cbn [Qnum Qden].
    rewrite Pos2Z.inj_mul, second_to_pos. ring.
  - destruct (spacing_units m e V He) as (Vr & Ur). fold x in Vr, Ur.
    rewrite (to_Q_units_eq _ _ (valid_expo _ Vr) Ur), Qu.
    unfold Qeq, Qmult, inject_Z. cbn [Qnum Qden].
    destruct (upper_half m); cbn [Qnum Qden]; rewrite Pos.mul_1_l; reflexivity.
Qed.

Lemma spacing_is_ulp_or_twice_witness :
  (to_Q (successor x_max) - to_Q x_max == to_Q (ulp x_max))%Q
  /\ (to_Q (spacing x_max) == 1 * to_Q (ulp x_max))%Q.
Proof.
  rewrite x_max_eq.
  apply (spacing_is_ulp_or_twice 5764607523034235 (-7)); [reflexivity | lia].
Defined.

(** X13.  Every double from [2^45] seconds up to, but not including,
    [1.5 * 2^45] seconds has the measured spacing [2^-7 = 0.0078125]
    seconds, at most 0.01: the doubles just above [x_max] share the
    spacing of [x_max]. *)
Theorem spacing_lower_half_binade (x : f64) :
  valid x = true ->
  (inject_Z (2 ^ 45) <= to_Q x)%Q -> (to_Q x < inject_Z (3 * 2 ^ 44))%Q ->
  (to_Q (spacing x) == 1 # 128)%Q /\ (to_Q (spacing x) <= 1 # 100)%Q.
Proof.
  intros V Hlo Hhi.
  pose proof (valid_expo x V) as Ex.
  apply (to_Q_le_units x _ Ex) in Hlo. apply (to_Q_lt_units x _ Ex) in Hhi.
  unfold second in Hlo, Hhi.
  assert (Hpos : 0 < units x).
  { apply Z.lt_le_trans with (2 ^ 45 * 2 ^ 1074); [| exact Hlo]. reflexivity. }
  destruct x as [s | s | | s m e]; cbn [units] in Hpos; try lia.
  destruct s; [cbn [cond_Zopp] in Hpos; lia |].
  pose proof (valid_units_expo _ V eq_refl) as He. cbn [expo] in He.
  assert (Hd : Zdigits2 (units (S754_finite false m e)) = 1120).
  { apply Zdigits2_unique; [| exact Hpos]. split.
    - apply Z.le_trans with (2 ^ 45 * 2 ^ 1074); [| exact Hlo].
      clear. vm_compute. discriminate.
    - apply Z.lt_le_trans with (3 * 2 ^ 44 * 2 ^ 1074); [exact Hhi |].
      clear. vm_compute. discriminate. }
  rewrite Hd in He. assert (e = -7) by lia. subst e.
  cbn [units cond_Zopp] in Hhi.
  assert (Hm : Z.pos m < 3 * 2 ^ 51).
  { apply (Z.mul_lt_mono_pos_r (2 ^ (-7 + 1074))); [reflexivity |].
    apply Z.lt_le_trans with (3 * 2 ^ 44 * 2 ^ 1074); [exact Hhi |].
    clear. vm_compute. discriminate. }
  destruct (spacing_units m (-7) V ltac:(lia)) as (Vr & Ur). cbv zeta in Vr, Ur.
  assert (Eh : upper_half m = false).
  { unfold upper_half.
    destruct (Z.leb_spec (3 * 2 ^ 51) (Z.pos m)); [lia | reflexivity]. }
  rewrite Eh in Ur.
  assert (Q : (to_Q (spacing (S754_finite false m (-7))) == 1 # 128)%Q).
  { rewrite (to_Q_units_eq _ _ (valid_expo _ Vr) Ur). vm_compute. reflexivity. }
  split; [exact Q |]. rewrite Q. discriminate.
Qed.

Lemma spacing_lower_half_binade_witness :
  (to_Q x_max < to_Q (successor x_max))%Q
  /\ (to_Q (spacing (successor x_max)) == 1 # 128)%Q
  /\ (to_Q (spacing (successor x_max)) <= 1 # 100)%Q.
Proof.
  split; [vm_compute; reflexivity |].
  apply (spacing_lower_half_binade (successor x_max));
    vm_compute; first [reflexivity | discriminate].
Defined.

(** ** The printed output *)

(** X14.  The unit lengths are computed without rounding: the chained
    products [60.0 * 60.0], [24.0 * 3600.0] and [365.25 * 86400.0] are
    exactly 3600, 86400 and 31,557,600 seconds, and each is a double. *)
Theorem unit_lengths_exact :
  (to_Q seconds_per_minute == 60)%Q
  /\ (to_Q seconds_per_hour == 60 * 60)%Q
  /\ (to_Q seconds_per_day == 24 * (60 * 60))%Q
  /\ (to_Q seconds_per_year == (36525 # 100) * (24 * (60 * 60)))%Q
  /\ (to_Q seconds_per_year == 31557600)%Q
  /\ valid seconds_per_minute = true /\ valid seconds_per_hour = true
  /\ valid seconds_per_day = true /\ valid seconds_per_year = true.
Proof. repeat split; vm_compute; reflexivity. Qed.

(** X15.  The script raises no exception and prints these nine
    lines. *)
Theorem main_output :
  main
  = Ok [ "Maximum time with 0.01s precision: 45035996273704.96 seconds"%string;
         ""%string;
         "Actual spacing at this value: 0.007812 seconds"%string;
         ""%string;
         "Formatted result:"%string;
         "1427104 years, 220 days, 20 hours, 55 minutes, 4.96 seconds"%string;
         ""%string;
         "Summary: An f64 storing time in seconds can track approximately"%string;
         "1,427,104 years without losing more than 1/100th of a second precision"%string ].
Proof. vm_compute. reflexivity. Qed.

(** A value in [59.995, 60) prints as 60.00 with two decimals. *)
Lemma format_f_sixty (x : f64) :
  valid x = true -> nonneg_finite x = true ->
  (59995 # 1000 <= to_Q x)%Q -> (to_Q x < 60)%Q ->
  format_f 2 x = "60.00"%string.
Proof.
  intros V N Hlo Hhi.
  pose proof (valid_expo x V) as Ex.
  change 60%Q with (inject_Z 60) in Hhi.
  apply (to_Q_lt_units x _ Ex) in Hhi.
  rewrite (to_Q_units x Ex) in Hlo. unfold Qle in Hlo. cbn [Qnum Qden] in Hlo.
  rewrite second_to_pos in Hlo.
  destruct x as [[|] | | | [|] m e]; try discriminate.
  { cbn [units] in Hlo. pose proof second_pos. lia. }
  cbn [expo units cond_Zopp] in *.
  pose proof (pow2_pos (e + 1074) ltac:(lia)) as Hp.
  pose proof second_pos as Hq.
  assert (He : e < 0).
  { destruct (Z_lt_le_dec e 0) as [? | H0]; [assumption | exfalso].
    rewrite (pow2_split e 1074) in Hlo, Hhi by lia.
    fold second in Hlo, Hhi.
    pose proof (pow2_pos e H0) as He0.
    set (k := Z.pos m * 2 ^ e) in *.
    replace (Z.pos m * (2 ^ e * second)) with (k * second) in Hlo, Hhi
      by (unfold k; ring).
    assert (Hk60 : k < 60) by (apply (Z.mul_lt_mono_pos_r second); assumption).
    assert (Hk59 : 59995 * second <= (k * 1000) * second) by lia.
    apply Z.mul_le_mono_pos_r in Hk59; [lia | assumption]. }
  set (D := 2 ^ (- e)).
  assert (HD : 0 < D) by (apply pow2_pos; lia).
  assert (Hsec : second = D * 2 ^ (e + 1074))
    by (unfold D, second; apply pow2_add; lia).
  rewrite Hsec in Hlo, Hhi.
  assert (H1 : Z.pos m < 60 * D).
  { apply (Z.mul_lt_mono_pos_r (2 ^ (e + 1074))); [assumption |]. lia. }
  assert (H2 : 59995 * D <= 1000 * Z.pos m).
  { apply (Z.mul_le_mono_pos_r _ _ (2 ^ (e + 1074))); [assumption |]. lia. }
  unfold format_f, scaled.
  replace (0 <=? e) with false by (symmetry; apply Z.leb_gt; assumption).
  fold D. change (10 ^ 2) with 100.
  assert (Hr : round_half_even (Z.pos m * 100) D = 6000).
  { destruct (div_mod_decompose (Z.pos m * 100) 5999 (Z.pos m * 100 - 5999 * D) D)
      as [Q R]; [assumption | lia | ring |].
    unfold round_half_even. rewrite Q, R.
    destruct (Z.compare_spec (2 * (Z.pos m * 100 - 5999 * D)) D); try lia; reflexivity. }
  rewrite Hr. reflexivity.
Qed.

(** X16.  The printed seconds can read 60.00: for every double from
    59.995 up to, but not including, 60 seconds the minutes are 0, the
    seconds component is below 60 and the formatted line ends in
    [60.00 seconds]. *)
Theorem formatted_seconds_sixty (x : f64) :
  valid x = true -> nonneg_finite x = true ->
  (59995 # 1000 <= to_Q x)%Q -> (to_Q x < 60)%Q ->
  exists b,
    breakdown x = Ok b /\ minutes b = 0 /\ (to_Q (seconds b) < 60)%Q
    /\ formatted_result b
       = "0 years, 0 days, 0 hours, 0 minutes, 60.00 seconds"%string.
Proof.
  intros V N Hlo Hhi.
  assert (E : breakdown x
              = Ok {| years := 0; days := 0; hours := 0; minutes := 0;
                      seconds := x |}).
  { pose proof Hhi as H. change 60%Q with (inject_Z 60) in H.
    apply (to_Q_lt_units x _ (valid_expo x V)) in H.
    pose proof second_pos as Hp.
    apply breakdown_decompose; try assumption; lia. }
  eexists. split; [exact E |].
  cbn [minutes seconds]. split; [reflexivity |]. split; [assumption |].
  unfold formatted_result. cbn [years days hours minutes seconds].
  rewrite (format_f_sixty x V N Hlo Hhi). reflexivity.
Qed.

Lemma formatted_seconds_sixty_witness :
  exists b,
    breakdown (decimal 59999 3) = Ok b /\ minutes b = 0
    /\ (to_Q (seconds b) < 60)%Q
    /\ formatted_result b
       = "0 years, 0 days, 0 hours, 0 minutes, 60.00 seconds"%string.
Proof.
  apply (formatted_seconds_sixty (decimal 59999 3));
    vm_compute; first [reflexivity | discriminate].
Defined.

(** ** Thousands separators *)

Lemma group3_cons4 (a b c d : ascii) (rest : list ascii) :
  group3 (a :: b :: c :: d :: rest)
  = a :: b :: c :: ","%char :: group3 (d :: rest).
Proof. reflexivity. Qed.

Lemma filter_group3 (f : ascii -> bool) (n : nat) (l : list ascii) :
  f ","%char = false -> (List.length l <= n)%nat ->
  filter f (group3 l) = filter f l.
Proof.
  intros Hf. revert l. induction n as [| n IH]; intros l Hl.
  - destruct l; [reflexivity | cbn in Hl; lia].
  - destruct l as [| a [| b [| c [| d rest]]]]; try reflexivity.
    rewrite group3_cons4.
    assert (E : filter f (group3 (d :: rest)) = filter f (d :: rest))
      by (apply IH; cbn [List.length] in *; lia).
    cbn [filter]. rewrite Hf. rewrite E. cbn [filter]. reflexivity.
Qed.

Lemma digits_no_comma (d : Decimal.uint) :
  filter (fun c => negb (Ascii.eqb c ","%char))
    (list_ascii_of_string (NilZero.string_of_uint d))
  = list_ascii_of_string (NilZero.string_of_uint d).
Proof.
  assert (H : forall u,
             filter (fun c => negb (Ascii.eqb c ","%char))
               (list_ascii_of_string (NilEmpty.string_of_uint u))
             = list_ascii_of_string (NilEmpty.string_of_uint u)).
  { induction u; cbn [NilEmpty.string_of_uint list_ascii_of_string filter];
      try reflexivity;
      match goal with
      | |- context [Ascii.eqb ?a ?b] =>
          change (Ascii.eqb a b) with false; cbn [negb]; f_equal; assumption
      end. }
  destruct d; try apply H. reflexivity.
Qed.

(** X17.  The years printed with thousands separators in the summary
    are the years printed in the formatted line: removing the commas from
    [f"{k:,}"] gives [f"{k}"], for every integer [k]. *)
Theorem format_comma_strip (k : Z) : strip_commas (format_comma k) = format_d k.
Proof.
  set (f := fun c => negb (Ascii.eqb c ","%char)).
  assert (Hg : forall u,
             string_of_list_ascii
               (filter f (rev (group3 (rev (list_ascii_of_string
                                              (NilZero.string_of_uint u))))))
             = NilZero.string_of_uint u).
  { intros u. rewrite filter_rev.
    rewrite (filter_group3 f _ _ eq_refl (Nat.le_refl _)).
    rewrite filter_rev, rev_involutive. unfold f. rewrite digits_no_comma.
    apply string_of_list_ascii_of_string. }
  unfold strip_commas, format_comma, format_d, str_of_Z. fold f.
  destruct k as [| p | p]; cbn [Z.abs Z.ltb Z.compare Z.to_int NilZero.string_of_int].
  - reflexivity.
  - rewrite list_ascii_of_string_of_list_ascii. apply Hg.
  - cbn [list_ascii_of_string]. rewrite list_ascii_of_string_of_list_ascii.
    cbn [filter]. change (f "-"%char) with true. cbn [string_of_list_ascii].
    f_equal. apply Hg.
Qed.
